(** * A shallow embedding of [HealthcareSystem] (backendcould.py)

    The store keeps one document [self.data]: five collections of records and
    the [next_ids] counters.  Python dictionaries are modelled as
    insertion-ordered association lists, records as dictionaries from field
    names to scalar values, and every method as a computation over the state
    of one [HealthcareSystem] instance.  Timestamps and the current date are
    read from the environment in the source; here they are arguments. *)

From Stdlib Require Import List String Ascii ZArith Bool Lia.
From Stdlib Require Import Decimal DecimalString Sorted.
From Stdlib Require DecimalPos DecimalZ.
Import ListNotations.

Local Open Scope string_scope.
Local Open Scope list_scope.

(** ** Keys and dictionaries *)

(** The two kinds of keys the store ever uses: [int] identifiers and [str]
    names.  In Python [1] and ["1"] are different keys. *)
Inductive pykey : Type :=
| KInt (z : Z)
| KStr (s : string).

Class Hashable (K : Type) : Type := {
  key_eqb : K -> K -> bool;
  key_eqb_eq : forall a b, key_eqb a b = true <-> a = b
}.

Definition pykey_eqb (a b : pykey) : bool :=
  match a, b with
  | KInt x, KInt y => Z.eqb x y
  | KStr x, KStr y => String.eqb x y
  | _, _ => false
  end.

Lemma pykey_eqb_eq (a b : pykey) : pykey_eqb a b = true <-> a = b.
Proof.
  destruct a as [x|x], b as [y|y]; simpl.
  - rewrite Z.eqb_eq. split; congruence.
  - split; discriminate.
  - split; discriminate.
  - rewrite String.eqb_eq. split; congruence.
Qed.

#[export] Instance pykey_hashable : Hashable pykey :=
  {| key_eqb := pykey_eqb; key_eqb_eq := pykey_eqb_eq |}.

#[export] Instance string_hashable : Hashable string :=
  {| key_eqb := String.eqb; key_eqb_eq := String.eqb_eq |}.

(** A [dict]: bindings in insertion order, at most one per key once built
    through [dict_set]. *)
Definition dict (K V : Type) : Type := list (K * V).

Section Dict.
Context {K V : Type} `{Hashable K}.

(** [d.get(k)], and [d[k]] where [None] stands for [KeyError]. *)
Fixpoint dict_get (k : K) (d : dict K V) : option V :=
  match d with
  | [] => None
  | (k', v) :: rest => if key_eqb k k' then Some v else dict_get k rest
  end.

(** [k in d] *)
Definition dict_mem (k : K) (d : dict K V) : bool :=
  match dict_get k d with Some _ => true | None => false end.

(** [d[k] = v]: an existing key keeps its position, a new one goes last. *)
Fixpoint dict_set (k : K) (v : V) (d : dict K V) : dict K V :=
  match d with
  | [] => [(k, v)]
  | (k', v') :: rest =>
      if key_eqb k k' then (k', v) :: rest else (k', v') :: dict_set k v rest
  end.

(** [d.keys()] and [d.values()] *)
Definition dict_keys (d : dict K V) : list K := map fst d.
Definition dict_values (d : dict K V) : list V := map snd d.

(** [dict(pairs)]: later bindings of a key overwrite earlier ones. *)
Definition dict_of_pairs (l : list (K * V)) : dict K V :=
  fold_left (fun d kv => dict_set (fst kv) (snd kv) d) l [].
End Dict.

(** ** Values *)

(** The scalar values found in record fields.  A float is carried as the bit
    pattern of its binary64 representation; the store never computes on it. *)
Inductive pyval : Type :=
| VNone
| VBool (b : bool)
| VInt (z : Z)
| VFloat (bits : Z)
| VStr (s : string).

(** Truth value of a Python object, as tested by [if] and [not]. *)
Definition truthy (v : pyval) : bool :=
  match v with
  | VNone => false
  | VBool b => b
  | VInt z => negb (Z.eqb z 0)
  | VFloat bits => negb (Z.eqb (Z.land bits (Z.ones 63)) 0)
  | VStr s => negb (String.eqb s "")
  end.

(** [x == "literal"] for a string on the right: no other type equals a [str]. *)
Definition eq_str (v : pyval) (s : string) : bool :=
  match v with
  | VStr x => String.eqb x s
  | _ => false
  end.

Definition val_of_key (k : pykey) : pyval :=
  match k with
  | KInt z => VInt z
  | KStr s => VStr s
  end.

Definition record : Type := dict string pyval.
Definition collection : Type := dict pykey record.

(** The document held in [self.data]. *)
Record Document : Type := mkDocument {
  users : collection;
  patients : collection;
  doctors : collection;
  beds : collection;
  medicines : collection;
  next_ids : dict string Z
}.

Definition with_users (u : collection) (d : Document) : Document :=
  mkDocument u (patients d) (doctors d) (beds d) (medicines d) (next_ids d).
Definition with_patients (p : collection) (d : Document) : Document :=
  mkDocument (users d) p (doctors d) (beds d) (medicines d) (next_ids d).
Definition with_doctors (c : collection) (d : Document) : Document :=
  mkDocument (users d) (patients d) c (beds d) (medicines d) (next_ids d).
Definition with_beds (b : collection) (d : Document) : Document :=
  mkDocument (users d) (patients d) (doctors d) b (medicines d) (next_ids d).
Definition with_medicines (m : collection) (d : Document) : Document :=
  mkDocument (users d) (patients d) (doctors d) (beds d) m (next_ids d).
Definition with_next_ids (n : dict string Z) (d : Document) : Document :=
  mkDocument (users d) (patients d) (doctors d) (beds d) (medicines d) n.

(** The structure [load_data] builds when there is nothing to load. *)
Definition empty_document : Document :=
  mkDocument [] [] [] [] []
    [("user", 1%Z); ("patient", 1%Z); ("doctor", 1%Z); ("bed", 1%Z);
     ("medicine", 1%Z)].

(** ** The JSON document

    [json.dump] and [json.load] are modelled on the JSON value they write and
    read back; the text in between is the library's business.  What matters
    here is what [json.dump] does to a dictionary: every key of a JSON object
    is a string, so an [int] key is written as its decimal numeral. *)
#[warnings="-register-all"]
Inductive json : Type :=
| JNull
| JBool (b : bool)
| JInt (z : Z)
| JFloat (bits : Z)
| JStr (s : string)
| JObj (members : list (string * json)).

(** [str(z)] *)
Definition str_of_int (z : Z) : string := NilZero.string_of_int (Z.to_int z).

(** The key [json.dump] writes for a dictionary key. *)
Definition json_key (k : pykey) : string :=
  match k with
  | KInt z => str_of_int z
  | KStr s => s
  end.

(** A float goes through the file as the number [repr] writes for it, which
    reads back as the same 64 bits, with one exception: every NaN is written
    as the token [NaN], and [json.load] reads this token as [float("nan")],
    the quiet NaN with no sign and no payload. *)
Definition is_nan (bits : Z) : bool :=
  let b := Z.land bits (Z.ones 64) in
  (Z.land (Z.shiftr b 52) (Z.ones 11) =? 2047)%Z &&
  negb (Z.land b (Z.ones 52) =? 0)%Z.

Definition quiet_nan : Z := 0x7FF8000000000000.

Definition json_float (bits : Z) : Z :=
  if is_nan bits then quiet_nan else bits.

Definition json_of_val (v : pyval) : json :=
  match v with
  | VNone => JNull
  | VBool b => JBool b
  | VInt z => JInt z
  | VFloat bits => JFloat (json_float bits)
  | VStr s => JStr s
  end.

Definition json_of_record (r : record) : json :=
  JObj (map (fun kv => (fst kv, json_of_val (snd kv))) r).

Definition json_of_collection (c : collection) : json :=
  JObj (map (fun kr => (json_key (fst kr), json_of_record (snd kr))) c).

Definition json_of_counters (n : dict string Z) : json :=
  JObj (map (fun kz => (fst kz, JInt (snd kz))) n).

(** [json.dump(self.data, f)] *)
Definition json_dump (d : Document) : json :=
  JObj [("users", json_of_collection (users d));
        ("patients", json_of_collection (patients d));
        ("doctors", json_of_collection (doctors d));
        ("beds", json_of_collection (beds d));
        ("medicines", json_of_collection (medicines d));
        ("next_ids", json_of_counters (next_ids d))].

(** [json.load] gives back dictionaries whose keys are all strings.  The
    document is read back at the shape the methods index it with; [None]
    means the file holds a value of another shape. *)
Fixpoint all_some {A : Type} (l : list (option A)) : option (list A) :=
  match l with
  | [] => Some []
  | None :: _ => None
  | Some a :: rest =>
      match all_some rest with
      | Some l' => Some (a :: l')
      | None => None
      end
  end.

Definition val_of_json (j : json) : option pyval :=
  match j with
  | JNull => Some VNone
  | JBool b => Some (VBool b)
  | JInt z => Some (VInt z)
  | JFloat bits => Some (VFloat (json_float bits))
  | JStr s => Some (VStr s)
  | JObj _ => None
  end.

Definition load_members {A K : Type} `{Hashable K} (key : string -> K)
    (f : json -> option A) (j : json) : option (dict K A) :=
  match j with
  | JObj members =>
      match all_some (map (fun m => match f (snd m) with
                                    | Some a => Some (key (fst m), a)
                                    | None => None
                                    end) members) with
      | Some pairs => Some (dict_of_pairs pairs)
      | None => None
      end
  | _ => None
  end.

Definition record_of_json : json -> option record :=
  load_members (fun k => k) val_of_json.

Definition collection_of_json : json -> option collection :=
  load_members KStr record_of_json.

Definition counters_of_json : json -> option (dict string Z) :=
  load_members (fun k => k)
    (fun j => match j with JInt z => Some z | _ => None end).

Definition json_load (j : json) : option Document :=
  match j with
  | JObj members =>
      let top := dict_of_pairs members in
      match dict_get "users" top, dict_get "patients" top,
            dict_get "doctors" top, dict_get "beds" top,
            dict_get "medicines" top, dict_get "next_ids" top with
      | Some u, Some p, Some c, Some b, Some m, Some n =>
          match collection_of_json u, collection_of_json p,
                collection_of_json c, collection_of_json b,
                collection_of_json m, counters_of_json n with
          | Some u', Some p', Some c', Some b', Some m', Some n' =>
              Some (mkDocument u' p' c' b' m' n')
          | _, _, _, _, _, _ => None
          end
      | _, _, _, _, _, _ => None
      end
  | _ => None
  end.

(** ** The running system *)

(** What the file named by [self.data_file] holds. *)
Inductive file_state : Type :=
| NoFile
| Unparsable
| Contents (j : json).

(** What an observer of one run can see besides the results: the identifiers
    handed out and the documents written to the file, newest first. *)
Inductive event : Type :=
| Allocated (entity_type : string) (id : Z)
| Written (j : json).

Record HealthcareSystem : Type := mkSystem {
  data : Document;
  data_file : file_state;
  trace : list event
}.

(** [load_data]: the file's document when it exists and parses, the empty
    structure otherwise. *)
Definition load_data (f : file_state) : option Document :=
  match f with
  | Contents j => json_load j
  | Unparsable => Some empty_document
  | NoFile => Some empty_document
  end.

(** [HealthcareSystem(data_file)] on a file system holding [f]. *)
Definition init (f : file_state) (seen : list event)
  : option HealthcareSystem :=
  match load_data f with
  | Some d => Some (mkSystem d f seen)
  | None => None
  end.

(** A store started where no file exists. *)
Definition fresh : HealthcareSystem := mkSystem empty_document NoFile [].

(** The process ends and a new instance is created over the same file. *)
Definition restart (s : HealthcareSystem) : option HealthcareSystem :=
  init (data_file s) (trace s).

(** ** Computations *)

Inductive exn : Type :=
| KeyError (k : pykey)
| TypeError.

Inductive outcome (A : Type) : Type :=
| Returned (a : A)
| Raised (e : exn).
Arguments Returned {A} a.
Arguments Raised {A} e.

(** A method body: it returns or raises, and leaves a state behind. *)
Definition M (A : Type) : Type :=
  HealthcareSystem -> outcome A * HealthcareSystem.

Definition ret {A : Type} (a : A) : M A := fun s => (Returned a, s).

Definition raise {A : Type} (e : exn) : M A := fun s => (Raised e, s).

Definition bind {A B : Type} (m : M A) (k : A -> M B) : M B :=
  fun s =>
    match m s with
    | (Returned a, s') => k a s'
    | (Raised e, s') => (Raised e, s')
    end.

Notation "x <- m ;; k" := (bind m (fun x => k))
  (at level 61, m at next level, right associativity).
Notation "m ;;; k" := (bind m (fun _ => k))
  (at level 61, right associativity).

Definition get_data : M Document := fun s => (Returned (data s), s).

Definition set_data (d : Document) : M unit :=
  fun s => (Returned tt, mkSystem d (data_file s) (trace s)).

Definition emit (e : event) : M unit :=
  fun s => (Returned tt, mkSystem (data s) (data_file s) (e :: trace s)).

(** [d[k]] on a dictionary that may lack [k]. *)
Definition getitem {K V : Type} `{Hashable K} (name : K -> pykey) (k : K)
    (d : dict K V) : M V :=
  match dict_get k d with
  | Some v => ret v
  | None => raise (KeyError (name k))
  end.

(** [save_data]: the whole document replaces the file's contents.  This is
    the save whose [json.dump] returns.  [json.dump] raises [ValueError] on
    a document that holds an [int] of more than 4300 digits; [writable],
    below, says that a document holds none, and the theorems about a call
    that stores an integer of the caller's choosing assume it of the
    document the call builds. *)
Definition save_data : M unit :=
  fun s =>
    let j := json_dump (data s) in
    (Returned tt, mkSystem (data s) (Contents j) (Written j :: trace s)).

(** ** Results *)

Inductive attachment : Type :=
| AId (id : Z)
| ARecord (r : record).

(** The dictionary a method returns: [success], [message] and at most one
    more entry. *)
Record reply : Type := mkReply {
  success : bool;
  message : string;
  attached : option (string * attachment)
}.

Definition failure (msg : string) : reply := mkReply false msg None.
Definition done (msg : string) : reply := mkReply true msg None.
Definition done_with (msg key : string) (a : attachment) : reply :=
  mkReply true msg (Some (key, a)).

(** The failures by the names the specification gives them. *)
Definition DuplicateUsername : reply := failure "Username already exists".
Definition UserNotFound : reply := failure "User not found".
Definition InvalidCredentials : reply := failure "Invalid password".
Definition AccountDisabled : reply := failure "Account deactivated".
Definition PatientNotFound : reply := failure "Patient not found".
Definition DoctorNotFound : reply := failure "Doctor not found".
Definition BedNotFound : reply := failure "Bed not found".
Definition BedNotAvailable : reply := failure "Bed is not available".
Definition BedNotOccupied : reply := failure "Bed is not occupied".
Definition MedicineNotFound : reply := failure "Medicine not found".

(** ** Calendar dates *)

Record date : Type := mkDate { year : nat; month : nat; day : nat }.

Fixpoint zeros (n : nat) : string :=
  match n with
  | O => ""
  | S n' => String "0" (zeros n')
  end.

(** ["%0*d"]: the decimal numeral, zero-padded on the left to [width]. *)
Definition pad (width n : nat) : string :=
  let digits := NilEmpty.string_of_uint (Nat.to_uint n) in
  zeros (width - String.length digits) ++ digits.

(** [date.isoformat()] *)
Definition isoformat (t : date) : string :=
  pad 4 (year t) ++ "-" ++ pad 2 (month t) ++ "-" ++ pad 2 (day t).

(** ** The methods of [HealthcareSystem] *)

Definition modify_data (f : Document -> Document) : M unit :=
  d <- get_data ;; set_data (f d).

Definition lift {A : Type} (o : outcome A) : M A := fun s => (o, s).

(** A list comprehension [[x for x in l if test(x)]] whose test may raise. *)
Fixpoint comprehension {A : Type} (test : A -> outcome bool) (l : list A)
  : outcome (list A) :=
  match l with
  | [] => Returned []
  | x :: rest =>
      match test x with
      | Raised e => Raised e
      | Returned b =>
          match comprehension test rest with
          | Raised e => Raised e
          | Returned kept => Returned (if b then x :: kept else kept)
          end
      end
  end.

(** [r[field]] read outside the state. *)
Definition field (name : string) (r : record) : outcome pyval :=
  match dict_get name r with
  | Some v => Returned v
  | None => Raised (KeyError (KStr name))
  end.

Definition id_key (k : pykey) : pykey := k.

(** A stand-in for the digest, to run the methods on examples. *)
Definition tagged_digest (text : string) : string := "sha256:" ++ text.

Section Methods.
(** [hashlib.sha256(text.encode()).hexdigest()] *)
Variable sha256_hexdigest : string -> string.

Definition hash_password (password : string) : string :=
  sha256_hexdigest password.

Definition verify_password (password : string) (hashed : pyval) : bool :=
  match hashed with
  | VStr h => String.eqb (hash_password password) h
  | _ => false
  end.

Definition get_next_id (entity_type : string) : M Z :=
  d <- get_data ;;
  next_id <- getitem KStr entity_type (next_ids d) ;;
  set_data (with_next_ids
              (dict_set entity_type (next_id + 1)%Z (next_ids d)) d) ;;;
  emit (Allocated entity_type next_id) ;;;
  ret next_id.

(** *** Users *)

Definition register_user (username password role first_name last_name
                          email phone now : string) : M reply :=
  d <- get_data ;;
  if dict_mem (KStr username) (users d) then ret DuplicateUsername
  else
    user_id <- get_next_id "user" ;;
    let user : record :=
      [("id", VInt user_id);
       ("username", VStr username);
       ("password_hash", VStr (hash_password password));
       ("role", VStr role);
       ("first_name", VStr first_name);
       ("last_name", VStr last_name);
       ("email", VStr email);
       ("phone", VStr phone);
       ("is_active", VBool true);
       ("created_at", VStr now)] in
    modify_data (fun d =>
      with_users (dict_set (KStr username) user (users d)) d) ;;;
    save_data ;;;
    ret (done_with "User registered successfully" "user_id" (AId user_id)).

Definition login_user (username password : string) : M reply :=
  d <- get_data ;;
  if negb (dict_mem (KStr username) (users d)) then ret UserNotFound
  else
    user <- getitem id_key (KStr username) (users d) ;;
    stored <- lift (field "password_hash" user) ;;
    if negb (verify_password password stored) then ret InvalidCredentials
    else
      active <- lift (field "is_active" user) ;;
      if negb (truthy active) then ret AccountDisabled
      else ret (done_with "Login successful" "user" (ARecord user)).

Definition get_user (username : string) : M (option record) :=
  d <- get_data ;; ret (dict_get (KStr username) (users d)).

(** *** Patients *)

Definition add_patient (first_name last_name : string) (age : Z)
    (gender phone email medical_history allergies now : string) : M reply :=
  patient_id <- get_next_id "patient" ;;
  let patient : record :=
    [("id", VInt patient_id);
     ("first_name", VStr first_name);
     ("last_name", VStr last_name);
     ("age", VInt age);
     ("gender", VStr gender);
     ("phone", VStr phone);
     ("email", VStr email);
     ("medical_history", VStr medical_history);
     ("allergies", VStr allergies);
     ("is_active", VBool true);
     ("created_at", VStr now)] in
  modify_data (fun d =>
    with_patients (dict_set (KInt patient_id) patient (patients d)) d) ;;;
  save_data ;;;
  ret (done_with "Patient added successfully" "patient" (ARecord patient)).

Definition get_patient (patient_id : pykey) : M (option record) :=
  d <- get_data ;; ret (dict_get patient_id (patients d)).

Definition is_active (p : record) : outcome bool :=
  match field "is_active" p with
  | Returned v => Returned (truthy v)
  | Raised e => Raised e
  end.

Definition get_all_patients : M (list record) :=
  d <- get_data ;;
  lift (comprehension is_active (dict_values (patients d))).

(** The loop shared by [update_patient] and [update_doctor]:
    [for key, value in kwargs.items():
       if key in r and key not in ["id", "created_at"]: r[key] = value] *)
Definition protected (key : string) : bool :=
  String.eqb key "id" || String.eqb key "created_at".

Definition apply_kwargs (kwargs : dict string pyval) (r : record) : record :=
  fold_left (fun r kv =>
               if dict_mem (fst kv) r && negb (protected (fst kv))
               then dict_set (fst kv) (snd kv) r
               else r)
            kwargs r.

(** [**kwargs] cannot carry a name the signature already binds: the call
    itself raises [TypeError] ("got multiple values for argument"). *)
Definition bound_twice (positional : list string)
    (kwargs : dict string pyval) : bool :=
  existsb (fun name => dict_mem name kwargs) positional.

Definition accept_kwargs (positional : list string)
    (kwargs : dict string pyval) : M unit :=
  if bound_twice positional kwargs then raise TypeError else ret tt.

Definition update_patient (patient_id : pykey) (kwargs : dict string pyval)
  : M reply :=
  accept_kwargs ["self"; "patient_id"] kwargs ;;;
  d <- get_data ;;
  if negb (dict_mem patient_id (patients d)) then ret PatientNotFound
  else
    patient <- getitem id_key patient_id (patients d) ;;
    let patient := apply_kwargs kwargs patient in
    set_data (with_patients (dict_set patient_id patient (patients d)) d) ;;;
    save_data ;;;
    ret (done_with "Patient updated successfully" "patient" (ARecord patient)).

Definition delete_patient (patient_id : pykey) : M reply :=
  d <- get_data ;;
  if negb (dict_mem patient_id (patients d)) then ret PatientNotFound
  else
    patient <- getitem id_key patient_id (patients d) ;;
    set_data (with_patients
                (dict_set patient_id
                   (dict_set "is_active" (VBool false) patient)
                   (patients d)) d) ;;;
    save_data ;;;
    ret (done "Patient deleted successfully").

(** *** Doctors *)

Definition add_doctor (first_name last_name specialization phone email
                       shift license_number now : string) : M reply :=
  doctor_id <- get_next_id "doctor" ;;
  let doctor : record :=
    [("id", VInt doctor_id);
     ("first_name", VStr first_name);
     ("last_name", VStr last_name);
     ("specialization", VStr specialization);
     ("phone", VStr phone);
     ("email", VStr email);
     ("shift", VStr shift);
     ("license_number", VStr license_number);
     ("is_available", VBool true);
     ("created_at", VStr now)] in
  modify_data (fun d =>
    with_doctors (dict_set (KInt doctor_id) doctor (doctors d)) d) ;;;
  save_data ;;;
  ret (done_with "Doctor added successfully" "doctor" (ARecord doctor)).

Definition get_doctor (doctor_id : pykey) : M (option record) :=
  d <- get_data ;; ret (dict_get doctor_id (doctors d)).

Definition get_all_doctors : M (list record) :=
  d <- get_data ;; ret (dict_values (doctors d)).

Definition update_doctor (doctor_id : pykey) (kwargs : dict string pyval)
  : M reply :=
  accept_kwargs ["self"; "doctor_id"] kwargs ;;;
  d <- get_data ;;
  if negb (dict_mem doctor_id (doctors d)) then ret DoctorNotFound
  else
    doctor <- getitem id_key doctor_id (doctors d) ;;
    let doctor := apply_kwargs kwargs doctor in
    set_data (with_doctors (dict_set doctor_id doctor (doctors d)) d) ;;;
    save_data ;;;
    ret (done_with "Doctor updated successfully" "doctor" (ARecord doctor)).

(** *** Beds *)

Definition add_bed (bed_number bed_type ward now : string) : M reply :=
  bed_id <- get_next_id "bed" ;;
  let bed : record :=
    [("id", VInt bed_id);
     ("bed_number", VStr bed_number);
     ("bed_type", VStr bed_type);
     ("status", VStr "available");
     ("ward", VStr ward);
     ("patient_id", VNone);
     ("assigned_at", VNone);
     ("created_at", VStr now)] in
  modify_data (fun d => with_beds (dict_set (KInt bed_id) bed (beds d)) d) ;;;
  save_data ;;;
  ret (done_with "Bed added successfully" "bed" (ARecord bed)).

Definition get_bed (bed_id : pykey) : M (option record) :=
  d <- get_data ;; ret (dict_get bed_id (beds d)).

Definition get_all_beds : M (list record) :=
  d <- get_data ;; ret (dict_values (beds d)).

Definition assign_bed (bed_id patient_id : pykey) (now : string) : M reply :=
  d <- get_data ;;
  if negb (dict_mem bed_id (beds d)) then ret BedNotFound
  else if negb (dict_mem patient_id (patients d)) then ret PatientNotFound
  else
    bed <- getitem id_key bed_id (beds d) ;;
    status <- lift (field "status" bed) ;;
    if negb (eq_str status "available") then ret BedNotAvailable
    else
      let bed := dict_set "status" (VStr "occupied") bed in
      let bed := dict_set "patient_id" (val_of_key patient_id) bed in
      let bed := dict_set "assigned_at" (VStr now) bed in
      set_data (with_beds (dict_set bed_id bed (beds d)) d) ;;;
      save_data ;;;
      ret (done_with "Bed assigned successfully" "bed" (ARecord bed)).

Definition release_bed (bed_id : pykey) : M reply :=
  d <- get_data ;;
  if negb (dict_mem bed_id (beds d)) then ret BedNotFound
  else
    bed <- getitem id_key bed_id (beds d) ;;
    status <- lift (field "status" bed) ;;
    if negb (eq_str status "occupied") then ret BedNotOccupied
    else
      let bed := dict_set "status" (VStr "available") bed in
      let bed := dict_set "patient_id" VNone bed in
      let bed := dict_set "assigned_at" VNone bed in
      set_data (with_beds (dict_set bed_id bed (beds d)) d) ;;;
      save_data ;;;
      ret (done_with "Bed released successfully" "bed" (ARecord bed)).

(** *** Medicines *)

Definition add_medicine (name expiry_date : string) (quantity : Z)
    (unit_price : Z) (category : string) (minimum_stock_level : Z)
    (now : string) : M reply :=
  medicine_id <- get_next_id "medicine" ;;
  let medicine : record :=
    [("id", VInt medicine_id);
     ("name", VStr name);
     ("expiry_date", VStr expiry_date);
     ("quantity", VInt quantity);
     ("unit_price", VFloat unit_price);
     ("category", VStr category);
     ("minimum_stock_level", VInt minimum_stock_level);
     ("created_at", VStr now)] in
  modify_data (fun d =>
    with_medicines (dict_set (KInt medicine_id) medicine (medicines d)) d) ;;;
  save_data ;;;
  ret (done_with "Medicine added successfully" "medicine" (ARecord medicine)).

Definition get_medicine (medicine_id : pykey) : M (option record) :=
  d <- get_data ;; ret (dict_get medicine_id (medicines d)).

Definition get_all_medicines : M (list record) :=
  d <- get_data ;; ret (dict_values (medicines d)).

(** [m["expiry_date"] <= today]: strings compare lexicographically, anything
    else against a string raises [TypeError]. *)
Definition expired_by (today : string) (m : record) : outcome bool :=
  match field "expiry_date" m with
  | Returned (VStr expiry_date) => Returned (String.leb expiry_date today)
  | Returned _ => Raised TypeError
  | Raised e => Raised e
  end.

Definition get_expired_medicines (current : date) : M (list record) :=
  let today := isoformat current in
  d <- get_data ;;
  lift (comprehension (expired_by today) (dict_values (medicines d))).

Definition update_medicine_stock (medicine_id : pykey) (new_quantity : Z)
  : M reply :=
  d <- get_data ;;
  if negb (dict_mem medicine_id (medicines d)) then ret MedicineNotFound
  else
    medicine <- getitem id_key medicine_id (medicines d) ;;
    set_data (with_medicines
                (dict_set medicine_id
                   (dict_set "quantity" (VInt new_quantity) medicine)
                   (medicines d)) d) ;;;
    save_data ;;;
    ret (done "Medicine stock updated successfully").

(** *** Sample data *)

(** [seed_sample_data], every creation stamped [now].  The two prices are
    the binary64 patterns of 5.50 and 15.75. *)
Definition seed_sample_data (now : string) : M unit :=
  register_user "admin" "admin123" "admin" "Admin" "User"
                "admin@hospital.com" "" now ;;;
  register_user "doctor" "doctor123" "doctor" "Dr. John" "Smith"
                "doctor@hospital.com" "" now ;;;
  register_user "patient" "patient123" "patient" "Jane" "Doe"
                "patient@hospital.com" "" now ;;;
  add_patient "Alice" "Johnson" 35 "Female" "123-456-7890"
              "alice@email.com" "Diabetes" "Penicillin" now ;;;
  add_patient "Bob" "Wilson" 42 "Male" "123-456-7891" "bob@email.com"
              "Asthma" "None" now ;;;
  add_doctor "Dr. Sarah" "Brown" "Cardiology" "123-456-7801"
             "sarah@hospital.com" "Morning" "DOC001" now ;;;
  add_doctor "Dr. Michael" "Davis" "Neurology" "123-456-7802"
             "michael@hospital.com" "Evening" "DOC002" now ;;;
  add_bed "G001" "general" "Ward A" now ;;;
  add_bed "ICU001" "icu" "ICU" now ;;;
  add_bed "ER001" "emergency" "Emergency" now ;;;
  add_medicine "Paracetamol" "2025-12-31" 100 0x4016000000000000
               "Painkiller" 20 now ;;;
  add_medicine "Amoxicillin" "2024-06-30" 5 0x402F800000000000
               "Antibiotic" 10 now ;;;
  ret tt.

(** The store right after [seed_sample_data] on a new file. *)
Definition seeded (now : string) : HealthcareSystem :=
  snd (seed_sample_data now fresh).

(** *** Calls from outside *)

(** One call of a public method, with its arguments.  The two reports
    ([get_low_stock_medicines], [get_dashboard_stats]) only read the document
    and are left out. *)
Inductive Op : Type :=
| SaveData
| GetNextId (entity_type : string)
| RegisterUser (username password role first_name last_name email phone
                now : string)
| LoginUser (username password : string)
| GetUser (username : string)
| AddPatient (first_name last_name : string) (age : Z)
             (gender phone email medical_history allergies now : string)
| GetPatient (patient_id : pykey)
| GetAllPatients
| UpdatePatient (patient_id : pykey) (kwargs : dict string pyval)
| DeletePatient (patient_id : pykey)
| AddDoctor (first_name last_name specialization phone email shift
             license_number now : string)
| GetDoctor (doctor_id : pykey)
| GetAllDoctors
| UpdateDoctor (doctor_id : pykey) (kwargs : dict string pyval)
| AddBed (bed_number bed_type ward now : string)
| GetBed (bed_id : pykey)
| GetAllBeds
| AssignBed (bed_id patient_id : pykey) (now : string)
| ReleaseBed (bed_id : pykey)
| AddMedicine (name expiry_date : string) (quantity unit_price : Z)
              (category : string) (minimum_stock_level : Z) (now : string)
| GetMedicine (medicine_id : pykey)
| GetAllMedicines
| GetExpiredMedicines (current : date)
| UpdateMedicineStock (medicine_id : pykey) (new_quantity : Z)
| SeedSampleData (now : string).

(** What a call hands back. *)
Inductive result : Type :=
| RNone
| RInt (z : Z)
| RReply (r : reply)
| RRecord (r : option record)
| RList (l : list record).

Definition fmap {A B : Type} (f : A -> B) (m : M A) : M B :=
  a <- m ;; ret (f a).

Definition call (op : Op) : M result :=
  match op with
  | SaveData => fmap (fun _ => RNone) save_data
  | GetNextId k => fmap RInt (get_next_id k)
  | RegisterUser u p r f l e ph now =>
      fmap RReply (register_user u p r f l e ph now)
  | LoginUser u p => fmap RReply (login_user u p)
  | GetUser u => fmap RRecord (get_user u)
  | AddPatient f l a g ph e mh al now =>
      fmap RReply (add_patient f l a g ph e mh al now)
  | GetPatient i => fmap RRecord (get_patient i)
  | GetAllPatients => fmap RList get_all_patients
  | UpdatePatient i kw => fmap RReply (update_patient i kw)
  | DeletePatient i => fmap RReply (delete_patient i)
  | AddDoctor f l sp ph e sh li now =>
      fmap RReply (add_doctor f l sp ph e sh li now)
  | GetDoctor i => fmap RRecord (get_doctor i)
  | GetAllDoctors => fmap RList get_all_doctors
  | UpdateDoctor i kw => fmap RReply (update_doctor i kw)
  | AddBed n t w now => fmap RReply (add_bed n t w now)
  | GetBed i => fmap RRecord (get_bed i)
  | GetAllBeds => fmap RList get_all_beds
  | AssignBed b p now => fmap RReply (assign_bed b p now)
  | ReleaseBed b => fmap RReply (release_bed b)
  | AddMedicine n e q up c ms now =>
      fmap RReply (add_medicine n e q up c ms now)
  | GetMedicine i => fmap RRecord (get_medicine i)
  | GetAllMedicines => fmap RList get_all_medicines
  | GetExpiredMedicines t => fmap RList (get_expired_medicines t)
  | UpdateMedicineStock i q => fmap RReply (update_medicine_stock i q)
  | SeedSampleData now => fmap (fun _ => RNone) (seed_sample_data now)
  end.

(** The state a sequence of calls leaves, whatever each call answered: a
    caller may catch an exception and go on. *)
Definition run (ops : list Op) (s : HealthcareSystem) : HealthcareSystem :=
  fold_left (fun s op => snd (call op s)) ops s.

(** The states one file system can go through: calls on the running
    instance, and restarts that load what the last instance saved. *)
Inductive reachable : HealthcareSystem -> Prop :=
| reach_fresh : reachable fresh
| reach_call (op : Op) (s : HealthcareSystem) :
    reachable s -> reachable (snd (call op s))
| reach_restart (s s' : HealthcareSystem) :
    reachable s -> restart s = Some s' -> reachable s'.

(** The identifiers handed out for one kind, oldest first. *)
Fixpoint ids_in (entity_type : string) (t : list event) : list Z :=
  match t with
  | [] => []
  | Allocated k id :: older =>
      if String.eqb k entity_type then ids_in entity_type older ++ [id]
      else ids_in entity_type older
  | Written _ :: older => ids_in entity_type older
  end.

Definition allocated (entity_type : string) (s : HealthcareSystem) : list Z :=
  ids_in entity_type (trace s).

(** [1, 2, ..., n] *)
Definition first_ids (n : nat) : list Z := map Z.of_nat (seq 1 n).

(** [start, start + 1, ..., start + n - 1] *)
Definition ids_from (start : Z) (n : nat) : list Z :=
  map (fun i => (start + Z.of_nat i)%Z) (seq 0 n).

(** The identifiers of one kind an instance has handed out since it was in
    state [s0], oldest first.  With [s0] the state in which the instance was
    created, from whatever file, these are all the identifiers of the
    instance. *)
Definition issued (entity_type : string) (s0 s : HealthcareSystem) : list Z :=
  skipn (List.length (allocated entity_type s0)) (allocated entity_type s).

(** The counter of a kind and the identifiers handed out agree: the counter
    stood at [start] (or was missing) when the identifiers were [before];
    since then [n] more were handed out, [start] and its successors, and the
    counter stands [n] further. *)
Definition follows (entity_type : string) (start : option Z)
    (before : list Z) (counters : dict string Z) (t : list event) : Prop :=
  exists n,
    ids_in entity_type t =
      before ++ match start with
                | Some a => ids_from a n
                | None => []
                end /\
    dict_get entity_type counters =
      option_map (fun a => (a + Z.of_nat n)%Z) start.

(** How many times the file was written. *)
Definition writes (s : HealthcareSystem) : nat :=
  List.length (filter (fun e => match e with Written _ => true | _ => false end)
                      (trace s)).

Definition tracked (entity_type : string) (start : option Z)
    (before : list Z) (s : HealthcareSystem) : Prop :=
  follows entity_type start before (next_ids (data s)) (trace s).

(** A computation keeps a property of the state, however it ends. *)
Definition preserves {A : Type} (I : HealthcareSystem -> Prop) (m : M A)
  : Prop :=
  forall s, I s -> I (snd (m s)).

(** The bed invariant of the data model. *)
Definition is_null (v : pyval) : bool :=
  match v with VNone => true | _ => false end.

Definition bed_consistent (bed : record) : Prop :=
  exists status patient_id assigned_at,
    dict_get "status" bed = Some status /\
    dict_get "patient_id" bed = Some patient_id /\
    dict_get "assigned_at" bed = Some assigned_at /\
    (eq_str status "occupied" = true <-> is_null patient_id = false) /\
    (is_null patient_id = false <-> is_null assigned_at = false) /\
    (eq_str status "occupied" = true <-> is_null assigned_at = false).

(** A medicine with a string [expiry_date]; a patient with an [is_active]
    field. *)
Definition dated (medicine : record) : Prop :=
  exists expiry_date, dict_get "expiry_date" medicine = Some (VStr expiry_date).

Definition flagged (patient : record) : Prop :=
  dict_mem "is_active" patient = true.

(** A record is a proper dictionary (no field twice) with property [P];
    [all_good P] asks it of every record of a collection. *)
Definition good (P : record -> Prop) (r : record) : Prop :=
  NoDup (dict_keys r) /\ P r.

Definition all_good (P : record -> Prop) (c : collection) : Prop :=
  forall r, In r (dict_values c) -> good P r.

Definition beds_ok (d : Document) : Prop := all_good bed_consistent (beds d).

Definition document_ok (d : Document) : Prop :=
  beds_ok d /\ all_good dated (medicines d) /\ all_good flagged (patients d).

(** The file, when it holds a document, holds one the store saved. *)
Definition file_ok (f : file_state) : Prop :=
  match f with
  | Contents j => exists d, j = json_dump d /\ document_ok d
  | Unparsable => True
  | NoFile => True
  end.

Definition well_kept (s : HealthcareSystem) : Prop :=
  document_ok (data s) /\ file_ok (data_file s).

(** What saving and loading does to one value, one record, one collection
    and to a document: a NaN comes back as the quiet NaN, and every key as a
    string. *)
Definition reload_val (v : pyval) : pyval :=
  match v with
  | VFloat bits => VFloat (json_float bits)
  | _ => v
  end.

Definition reload_fields (r : record) : record :=
  map (fun kv => (fst kv, reload_val (snd kv))) r.

Definition reload_record (r : record) : record :=
  dict_of_pairs (reload_fields r).

Definition reload_collection (c : collection) : collection :=
  dict_of_pairs
    (map (fun kr => (KStr (json_key (fst kr)), reload_record (snd kr))) c).

Definition reload_document (d : Document) : Document :=
  mkDocument (reload_collection (users d)) (reload_collection (patients d))
             (reload_collection (doctors d)) (reload_collection (beds d))
             (reload_collection (medicines d)) (dict_of_pairs (next_ids d)).

(** *** What a successful assignment, release and save leave behind *)

Definition occupy (patient_id : pykey) (now : string) (bed : record) : record :=
  dict_set "assigned_at" (VStr now)
    (dict_set "patient_id" (val_of_key patient_id)
       (dict_set "status" (VStr "occupied") bed)).

Definition vacate (bed : record) : record :=
  dict_set "assigned_at" VNone
    (dict_set "patient_id" VNone
       (dict_set "status" (VStr "available") bed)).

Definition saved (d : Document) (s : HealthcareSystem) : HealthcareSystem :=
  mkSystem d (Contents (json_dump d)) (Written (json_dump d) :: trace s).

(** What [update_patient] and [update_doctor] promise about the record
    [after] they leave in place of [before].  [dict_get key (List.rev kwargs)]
    is the value the mapping supplies for [key]. *)
Definition partial_update (kwargs : dict string pyval) (before after : record)
  : Prop :=
  dict_keys after = dict_keys before /\
  dict_get "id" after = dict_get "id" before /\
  dict_get "created_at" after = dict_get "created_at" before /\
  (forall key, dict_get key (List.rev kwargs) = None ->
               dict_get key after = dict_get key before) /\
  (forall key, dict_get key before = None -> dict_get key after = None) /\
  (forall key value,
      dict_get key (List.rev kwargs) = Some value ->
      dict_mem key before = true ->
      key <> "id" -> key <> "created_at" ->
      dict_get key after = Some value).

(** *** Comparing values, stock levels and the dashboard *)

(** A Python number as a dyadic [m * 2^e], or one of the special floats. *)
Inductive number : Type :=
| Finite (m e : Z)
| PlusInf
| MinusInf
| NotANumber.

(** The number a binary64 bit pattern stands for. *)
Definition float_value (bits : Z) : number :=
  let b := Z.land bits (Z.ones 64) in
  let negative := Z.testbit b 63 in
  let exponent := Z.land (Z.shiftr b 52) (Z.ones 11) in
  let fraction := Z.land b (Z.ones 52) in
  let signed (m : Z) := if negative then (- m)%Z else m in
  if (exponent =? 2047)%Z then
    if (fraction =? 0)%Z then (if negative then MinusInf else PlusInf)
    else NotANumber
  else if (exponent =? 0)%Z then Finite (signed fraction) (-1074)
  else Finite (signed (2 ^ 52 + fraction)%Z) (exponent - 1075).

(** [int], [bool] and [float] are the numbers; [True] counts as 1. *)
Definition numeric_value (v : pyval) : option number :=
  match v with
  | VInt z => Some (Finite z 0)
  | VBool b => Some (Finite (if b then 1 else 0) 0)
  | VFloat bits => Some (float_value bits)
  | VNone => None
  | VStr _ => None
  end.

(** [x <= y] on numbers: exact, and false as soon as one side is NaN. *)
Definition number_le (x y : number) : bool :=
  match x, y with
  | NotANumber, _ => false
  | _, NotANumber => false
  | MinusInf, _ => true
  | _, PlusInf => true
  | PlusInf, _ => false
  | _, MinusInf => false
  | Finite m1 e1, Finite m2 e2 =>
      let e := Z.min e1 e2 in
      (m1 * 2 ^ (e1 - e) <=? m2 * 2 ^ (e2 - e))%Z
  end.

(** [a <= b]: numbers with numbers, strings with strings, [TypeError] for
    any other pair. *)
Definition py_le (a b : pyval) : outcome bool :=
  match a, b with
  | VStr x, VStr y => Returned (String.leb x y)
  | _, _ =>
      match numeric_value a, numeric_value b with
      | Some x, Some y => Returned (number_le x y)
      | _, _ => Raised TypeError
      end
  end.

(** [m["quantity"] <= m["minimum_stock_level"]] *)
Definition low_stock (m : record) : outcome bool :=
  match field "quantity" m with
  | Raised e => Raised e
  | Returned quantity =>
      match field "minimum_stock_level" m with
      | Raised e => Raised e
      | Returned level => py_le quantity level
      end
  end.

Definition get_low_stock_medicines : M (list record) :=
  d <- get_data ;;
  lift (comprehension low_stock (dict_values (medicines d))).

(** [b["status"] == status] *)
Definition has_status (status : string) (b : record) : outcome bool :=
  match field "status" b with
  | Returned v => Returned (eq_str v status)
  | Raised e => Raised e
  end.

(** The same test on a bed that has a status. *)
Definition status_is (status : string) (bed : record) : bool :=
  match dict_get "status" bed with
  | Some v => eq_str v status
  | None => false
  end.

(** The dictionary [get_dashboard_stats] returns. *)
Record stats : Type := mkStats {
  total_patients : nat;
  total_doctors : nat;
  total_beds : nat;
  available_beds : nat;
  occupied_beds : nat;
  total_medicines : nat;
  low_stock_medicines : nat;
  expired_medicines : nat
}.

Definition get_dashboard_stats (current : date) : M stats :=
  d <- get_data ;;
  active <- lift (comprehension is_active (dict_values (patients d))) ;;
  available <- lift (comprehension (has_status "available")
                                   (dict_values (beds d))) ;;
  occupied <- lift (comprehension (has_status "occupied")
                                  (dict_values (beds d))) ;;
  low <- get_low_stock_medicines ;;
  expired <- get_expired_medicines current ;;
  ret (mkStats (List.length active) (List.length (doctors d))
               (List.length (beds d)) (List.length available)
               (List.length occupied) (List.length (medicines d))
               (List.length low) (List.length expired)).

(** The calls that only look. *)
Definition read_only (op : Op) : bool :=
  match op with
  | LoginUser _ _ | GetUser _ | GetPatient _ | GetAllPatients | GetDoctor _
  | GetAllDoctors | GetBed _ | GetAllBeds | GetMedicine _ | GetAllMedicines
  | GetExpiredMedicines _ => true
  | _ => false
  end.

(** A medicine whose quantity and minimum stock level are integers. *)
Definition counted (medicine : record) : Prop :=
  exists quantity level,
    dict_get "quantity" medicine = Some (VInt quantity) /\
    dict_get "minimum_stock_level" medicine = Some (VInt level).

(** [quantity <= minimum_stock_level] read off a record with integers. *)
Definition is_low (medicine : record) : bool :=
  match dict_get "quantity" medicine,
        dict_get "minimum_stock_level" medicine with
  | Some (VInt quantity), Some (VInt level) => (quantity <=? level)%Z
  | _, _ => false
  end.

(** *** How a sound store numbers its records *)

(** A bed whose status is one of the two the methods ever write. *)
Definition bed_state (bed : record) : Prop :=
  dict_get "status" bed = Some (VStr "available") \/
  dict_get "status" bed = Some (VStr "occupied").

Definition bed_sound (bed : record) : Prop :=
  bed_consistent bed /\ bed_state bed.

Definition medicine_sound (medicine : record) : Prop :=
  dated medicine /\ counted medicine.

Definition any_record (r : record) : Prop := True.

(** One record of a numbered collection: a proper dictionary with property
    [P], stored under the integer of its [id] field or, after a reload,
    under the decimal numeral of this integer; the integer is positive and
    below the counter [next]. *)
Definition entry_ok (P : record -> Prop) (next : Z) (k : pykey) (r : record)
  : Prop :=
  NoDup (dict_keys r) /\ P r /\
  exists id, json_key k = str_of_int id /\ (1 <= id < next)%Z /\
             dict_get "id" r = Some (VInt id).

(** A numbered collection, with the counter that numbers it: no two keys
    are written to the file as the same string. *)
Definition table_ok (P : record -> Prop) (kind : string) (c : collection)
    (counters : dict string Z) : Prop :=
  exists next,
    dict_get kind counters = Some next /\ (1 <= next)%Z /\
    NoDup (map json_key (dict_keys c)) /\
    forall k r, In (k, r) c -> entry_ok P next k r.

(** The users: stored under their own username, a string. *)
Definition users_ok (c : collection) (counters : dict string Z) : Prop :=
  exists next,
    dict_get "user" counters = Some next /\ (1 <= next)%Z /\
    NoDup (dict_keys c) /\
    forall k r, In (k, r) c ->
                NoDup (dict_keys r) /\
                (exists username, k = KStr username /\
                                  dict_get "username" r = Some (VStr username)) /\
                (exists id, (1 <= id < next)%Z /\
                            dict_get "id" r = Some (VInt id)).

Definition sound (d : Document) : Prop :=
  NoDup (dict_keys (next_ids d)) /\
  users_ok (users d) (next_ids d) /\
  table_ok flagged "patient" (patients d) (next_ids d) /\
  table_ok any_record "doctor" (doctors d) (next_ids d) /\
  table_ok bed_sound "bed" (beds d) (next_ids d) /\
  table_ok medicine_sound "medicine" (medicines d) (next_ids d).

Definition sound_file (f : file_state) : Prop :=
  match f with
  | Contents j => exists d, j = json_dump d /\ sound d
  | Unparsable => True
  | NoFile => True
  end.

Definition sound_system (s : HealthcareSystem) : Prop :=
  sound (data s) /\ sound_file (data_file s).

(** A collection as it comes back from the file when nothing collides:
    same records, same order, every key a string. *)
Definition stringified (c : collection) : collection :=
  map (fun kr => (KStr (json_key (fst kr)), snd kr)) c.

(** *** Dates that exist *)

(** The bounds [datetime.date] puts on its fields. *)
Definition valid_date (t : date) : Prop :=
  (1 <= Z.of_nat (year t) <= 9999)%Z /\
  1 <= month t <= 12 /\ 1 <= day t <= 31.

(** [a <= b] on dates. *)
Definition date_leb (a b : date) : bool :=
  match Nat.compare (year a) (year b) with
  | Lt => true
  | Gt => false
  | Eq =>
      match Nat.compare (month a) (month b) with
      | Lt => true
      | Gt => false
      | Eq => Nat.leb (day a) (day b)
      end
  end.

(** The characters of a zero-padded numeral, written out. *)
Definition digit (n : nat) : ascii := ascii_of_nat (48 + n).

Definition digits2 (n : nat) : string :=
  String (digit (n / 10)) (String (digit (n mod 10)) "").

Definition digits4 (n : nat) : string :=
  String (digit (n / 1000))
    (String (digit (n / 100 mod 10))
       (String (digit (n / 10 mod 10)) (String (digit (n mod 10)) ""))).

(** *** What one instance never does to its records *)

(** [r'] carries the identifier and the creation time of [r]. *)
Definition same_stamps (r r' : record) : Prop :=
  dict_get "id" r' = dict_get "id" r /\
  dict_get "created_at" r' = dict_get "created_at" r.

(** From [c] to [c'] no key was removed or moved, and every record kept its
    identifier and its creation time. *)
Definition kept_in (c c' : collection) : Prop :=
  (exists added, dict_keys c' = dict_keys c ++ added) /\
  forall k r, dict_get k c = Some r ->
              exists r', dict_get k c' = Some r' /\ same_stamps r r'.

Definition extends (d d' : Document) : Prop :=
  kept_in (users d) (users d') /\
  kept_in (patients d) (patients d') /\
  kept_in (doctors d) (doctors d') /\
  kept_in (beds d) (beds d') /\
  kept_in (medicines d) (medicines d').

Definition sound_after (s0 s : HealthcareSystem) : Prop :=
  sound_system s /\ extends (data s0) (data s).

(** *** Seeding a store that already holds data *)

(** A computation that, from a state with [P], returns and leaves [Q]. *)
Definition runs {A : Type} (P : HealthcareSystem -> Prop) (m : M A)
    (Q : HealthcareSystem -> Prop) : Prop :=
  forall s, P s -> exists a, fst (m s) = Returned a /\ Q (snd (m s)).

Definition registered (s : HealthcareSystem) (username : string) : Prop :=
  dict_mem (KStr username) (users (data s)) = true.

(** Where a run that started in [s0] stands: how many patients, doctors,
    beds and medicines it has added, and which usernames it has made sure
    are registered. *)
Definition seeded_from (s0 : HealthcareSystem) (p d b m : nat)
    (names : list string) (s : HealthcareSystem) : Prop :=
  sound_system s /\
  List.length (patients (data s)) = p + List.length (patients (data s0)) /\
  List.length (doctors (data s)) = d + List.length (doctors (data s0)) /\
  List.length (beds (data s)) = b + List.length (beds (data s0)) /\
  List.length (medicines (data s)) = m + List.length (medicines (data s0)) /\
  Forall (registered s) names /\
  List.length (users (data s))
    <= List.length names + List.length (users (data s0)) /\
  (Forall (registered s0) names -> users (data s) = users (data s0)).


(** *** What the file can hold *)

(** A collection whose records went through the file: every NaN in them is
    the quiet NaN now.  The keys are left as they are here; [stringified]
    does the keys. *)
Definition reload_values (c : collection) : collection :=
  map (fun kr => (fst kr, reload_fields (snd kr))) c.

Definition holds_nan (v : pyval) : bool :=
  match v with
  | VFloat bits => is_nan bits
  | _ => false
  end.

(** No field of any record of the collection is a NaN. *)
Definition nan_free (c : collection) : bool :=
  forallb (fun kr => forallb (fun kv => negb (holds_nan (snd kv))) (snd kr)) c.

(** [json.dump] writes an [int], as a value or as a key, with [repr], and
    from CPython 3.11 on [repr] raises [ValueError] for an [int] of more
    than 4300 decimal digits.  [writable d] says that the document holds no
    such [int]: these are the documents for which the [json.dump] of
    [save_data] returns, and the ones [json.load] reads back without
    raising. *)
Definition decimal_digits (z : Z) : nat :=
  Decimal.nb_digits (Decimal.abs (Z.to_int z)).

Definition fits (z : Z) : bool := (Z.of_nat (decimal_digits z) <=? 4300)%Z.

Definition key_fits (k : pykey) : bool :=
  match k with
  | KInt z => fits z
  | KStr _ => true
  end.

Definition val_fits (v : pyval) : bool :=
  match v with
  | VInt z => fits z
  | _ => true
  end.

Definition collection_fits (c : collection) : bool :=
  forallb (fun kr => key_fits (fst kr) &&
                     forallb (fun kv => val_fits (snd kv)) (snd kr)) c.

Definition writable (d : Document) : bool :=
  collection_fits (users d) && collection_fits (patients d) &&
  collection_fits (doctors d) && collection_fits (beds d) &&
  collection_fits (medicines d) &&
  forallb (fun kz => fits (snd kz)) (next_ids d).

(** ** Dictionaries: lookup after update *)

Lemma key_eqb_refl {K : Type} `{Hashable K} (k : K) : key_eqb k k = true.
Proof. apply key_eqb_eq. reflexivity. Qed.

Lemma key_eqb_neq {K : Type} `{Hashable K} (a b : K) :
  a <> b -> key_eqb a b = false.
Proof.
  intros Hab. destruct (key_eqb a b) eqn:E; [|reflexivity].
  apply key_eqb_eq in E. contradiction.
Qed.

Lemma dict_get_set_same {K V : Type} `{Hashable K} (k : K) (v : V) d :
  dict_get k (dict_set k v d) = Some v.
Proof.
  induction d as [|[k' v'] rest IH]; simpl.
  - now rewrite key_eqb_refl.
  - destruct (key_eqb k k') eqn:E; simpl; rewrite E; auto.
Qed.

Lemma dict_get_set_other {K V : Type} `{Hashable K} (k k' : K) (v : V) d :
  k <> k' -> dict_get k' (dict_set k v d) = dict_get k' d.
Proof.
  intros Hne. induction d as [|[k0 v0] rest IH]; simpl.
  - rewrite key_eqb_neq; auto.
  - destruct (key_eqb k k0) eqn:E; simpl.
    + apply key_eqb_eq in E. subst k0.
      rewrite key_eqb_neq; auto.
    + now rewrite IH.
Qed.

Lemma dict_mem_get {K V : Type} `{Hashable K} (k : K) (d : dict K V) :
  dict_mem k d = true <-> exists v, dict_get k d = Some v.
Proof.
  unfold dict_mem. destruct (dict_get k d).
  - split; eauto.
  - split; [discriminate | intros [v Hv]; discriminate].
Qed.

Lemma dict_keys_set_present {K V : Type} `{Hashable K} (k : K) (v : V) d :
  dict_mem k d = true -> dict_keys (dict_set k v d) = dict_keys d.
Proof.
  unfold dict_mem, dict_keys.
  induction d as [|[k' v'] rest IH]; simpl; [discriminate|].
  destruct (key_eqb k k') eqn:E; simpl; intros Hm; [reflexivity|].
  now rewrite IH.
Qed.

Lemma dict_values_set {K V : Type} `{Hashable K} (k : K) (v x : V) d :
  In x (dict_values (dict_set k v d)) -> x = v \/ In x (dict_values d).
Proof.
  unfold dict_values.
  induction d as [|[k' v'] rest IH]; simpl.
  - intros [<-|[]]. now left.
  - destruct (key_eqb k k'); simpl.
    + intros [<-|Hin]; auto.
    + intros [<-|Hin]; auto. destruct (IH Hin); auto.
Qed.

Lemma dict_get_values {K V : Type} `{Hashable K} (k : K) (v : V) d :
  dict_get k d = Some v -> In v (dict_values d).
Proof.
  unfold dict_values.
  induction d as [|[k' v'] rest IH]; simpl; [discriminate|].
  destruct (key_eqb k k'); [intros [= <-]; now left | auto].
Qed.

(** ** Stepping through a method body *)

Ltac step_m :=
  cbv [bind ret raise get_data set_data emit modify_data lift fmap getitem
       save_data id_key accept_kwargs] in *.

Ltac mem_known H :=
  match type of H with
  | dict_get ?k ?d = Some _ =>
      let Hm := fresh "Hmem" in
      assert (Hm : dict_mem k d = true) by (unfold dict_mem; now rewrite H)
  | dict_get ?k ?d = None =>
      let Hm := fresh "Hmem" in
      assert (Hm : dict_mem k d = false) by (unfold dict_mem; now rewrite H)
  end.

(** C2: registering a username that is already taken answers
    [DuplicateUsername] and changes nothing: the record stored under that
    username, the rest of the document, the file and the trace are as
    before. *)
Theorem register_user_duplicate :
  forall s username password role first_name last_name email phone now user,
    dict_get (KStr username) (users (data s)) = Some user ->
    register_user username password role first_name last_name email phone
                  now s = (Returned DuplicateUsername, s) /\
    dict_get (KStr username)
      (users (data (snd (register_user username password role first_name
                                       last_name email phone now s))))
    = Some user.
Proof.
  intros s username password role first_name last_name email phone now user
         Huser.
  mem_known Huser.
  assert (E : register_user username password role first_name last_name
                email phone now s = (Returned DuplicateUsername, s)).
  { unfold register_user. step_m. now rewrite Hmem. }
  split; [exact E|]. now rewrite E.
Qed.

(** C3: [login_user] answers [UserNotFound] when the username is absent,
    [InvalidCredentials] when the digest of the password differs from the
    stored one, [AccountDisabled] when the digest matches and the record is
    inactive, and otherwise succeeds with the stored record; it succeeds
    exactly when the user exists, is active and the digest matches. *)
Theorem login_user_cases :
  forall s username password,
    (dict_get (KStr username) (users (data s)) = None ->
     login_user username password s = (Returned UserNotFound, s)) /\
    (forall user stored active,
        dict_get (KStr username) (users (data s)) = Some user ->
        dict_get "password_hash" user = Some stored ->
        dict_get "is_active" user = Some active ->
        (stored <> VStr (hash_password password) ->
         login_user username password s = (Returned InvalidCredentials, s)) /\
        (stored = VStr (hash_password password) -> truthy active = false ->
         login_user username password s = (Returned AccountDisabled, s)) /\
        (stored = VStr (hash_password password) -> truthy active = true ->
         login_user username password s =
           (Returned (done_with "Login successful" "user" (ARecord user)), s))) /\
    (forall r s',
        login_user username password s = (Returned r, s') ->
        (success r = true <->
         exists user active,
           dict_get (KStr username) (users (data s)) = Some user /\
           dict_get "password_hash" user = Some (VStr (hash_password password)) /\
           dict_get "is_active" user = Some active /\
           truthy active = true)).
Proof.
  intros s username password.
  assert (Hverify : forall stored,
             verify_password password stored = true <->
             stored = VStr (hash_password password)).
  { intros stored. unfold verify_password. destruct stored; try (split; discriminate).
    rewrite String.eqb_eq. split; [intros <-; reflexivity | intros [= ->]; reflexivity]. }
  split; [|split].
  - intros Hnone. mem_known Hnone.
    unfold login_user. step_m. now rewrite Hmem.
  - intros user stored active Huser Hstored Hactive. mem_known Huser.
    repeat split.
    + intros Hne. unfold login_user, field. step_m.
      rewrite Hmem, Huser, Hstored. simpl.
      destruct (verify_password password stored) eqn:E; [|reflexivity].
      apply Hverify in E. contradiction.
    + intros Heq Hoff. unfold login_user, field. step_m.
      rewrite Hmem, Huser, Hstored. simpl.
      apply Hverify in Heq. rewrite Heq. simpl.
      rewrite Hactive. now rewrite Hoff.
    + intros Heq Hon. unfold login_user, field. step_m.
      rewrite Hmem, Huser, Hstored. simpl.
      apply Hverify in Heq. rewrite Heq. simpl.
      rewrite Hactive. now rewrite Hon.
  - intros r s'. unfold login_user, field. step_m.
    unfold dict_mem.
    destruct (dict_get (KStr username) (users (data s))) as [user|] eqn:Huser;
      simpl.
    2:{ intros [= <- <-]. simpl. split; [discriminate|].
        intros (u & a & Hu & _). discriminate. }
    destruct (dict_get "password_hash" user) as [stored|] eqn:Hstored;
      [|discriminate].
    destruct (verify_password password stored) eqn:Hv; simpl.
    2:{ intros [= <- <-]. simpl. split; [discriminate|].
        intros (u & a & [= <-] & Hs & _).
        rewrite Hstored in Hs. injection Hs as ->.
        assert (verify_password password (VStr (hash_password password)) = true)
          by now apply Hverify.
        congruence. }
    apply Hverify in Hv. subst stored.
    destruct (dict_get "is_active" user) as [active|] eqn:Hactive;
      [|discriminate].
    destruct (truthy active) eqn:Ht; simpl; intros [= <- <-]; simpl.
    + split; [|reflexivity]. intros _. exists user, active. auto.
    + split; [discriminate|].
      intros (u & a & [= <-] & _ & Ha & Hta). congruence.
Qed.

(** ** Failure replies leave no mark *)

Lemma get_next_id_cases (k : string) (s : HealthcareSystem) :
  (exists e, get_next_id k s = (Raised e, s)) \/
  (exists n, dict_get k (next_ids (data s)) = Some n /\
             get_next_id k s =
               (Returned n,
                mkSystem (with_next_ids
                            (dict_set k (n + 1)%Z (next_ids (data s))) (data s))
                         (data_file s)
                         (Allocated k n :: trace s))).
Proof.
  unfold get_next_id. step_m.
  destruct (dict_get k (next_ids (data s))) as [n|] eqn:E.
  - right. exists n. split; reflexivity.
  - left. eexists. reflexivity.
Qed.

Ltac with_next_id k s :=
  let e := fresh "e" in
  let n := fresh "n" in
  let Hn := fresh "Hn" in
  let E := fresh "E" in
  destruct (get_next_id_cases k s) as [[e E]|[n [Hn E]]]; rewrite E.

Ltac failed_branch :=
  match goal with
  | H : (Returned ?x, ?t) = (Returned ?y, ?u) |- _ =>
      injection H as <- <-; first [reflexivity | discriminate]
  | H : (Raised _, _) = (Returned _, _) |- _ => discriminate H
  end.

(** C10: a call that answers a failure reply leaves the instance exactly as
    it was: document, file and trace, so nothing was written.  This covers
    every method that can fail ([register_user], [login_user],
    [update_patient], [delete_patient], [update_doctor], [assign_bed],
    [release_bed], [update_medicine_stock]). *)
Theorem failure_changes_nothing :
  forall op s r s',
    call op s = (Returned (RReply r), s') ->
    success r = false ->
    s' = s /\ data s' = data s /\ data_file s' = data_file s /\
    writes s' = writes s.
Proof.
  intros op s r s' Hcall Hfail.
  assert (Hs : s' = s); [|subst s'; now repeat split].
  destruct op; simpl in Hcall; unfold fmap, bind in Hcall;
    match type of Hcall with
    | context [match ?m s with _ => _ end] =>
        destruct (m s) as [[a|e] s1] eqn:Hm
    end; simpl in Hcall; try discriminate Hcall;
    injection Hcall as -> <-.
  - (* register_user *)
    unfold register_user in Hm. step_m.
    destruct (dict_mem (KStr username) (users (data s))).
    + now injection Hm as _ <-.
    + revert Hm. with_next_id "user" s; intros Hm; [discriminate|].
      injection Hm as <- _. discriminate.
  - (* login_user *)
    unfold login_user, field in Hm. step_m.
    destruct (dict_mem (KStr username) (users (data s)));
      [|now injection Hm as _ <-].
    simpl in Hm.
    destruct (dict_get (KStr username) (users (data s))); [|discriminate].
    destruct (dict_get "password_hash" r0); [|discriminate].
    destruct (verify_password password p); simpl in Hm;
      [|now injection Hm as _ <-].
    destruct (dict_get "is_active" r0); [|discriminate].
    destruct (truthy p0); simpl in Hm; now injection Hm as _ <-.
  - (* add_patient *)
    unfold add_patient in Hm. unfold bind at 1 in Hm. revert Hm.
    with_next_id "patient" s; intros Hm; [discriminate|].
    step_m. injection Hm as <- _. discriminate.
  - (* update_patient *)
    unfold update_patient in Hm. step_m.
    destruct (bound_twice ["self"; "patient_id"] kwargs); [discriminate|].
    destruct (dict_mem patient_id (patients (data s)));
      [|now injection Hm as _ <-].
    simpl in Hm.
    destruct (dict_get patient_id (patients (data s))); [|discriminate].
    injection Hm as <- _. discriminate.
  - (* delete_patient *)
    unfold delete_patient in Hm. step_m.
    destruct (dict_mem patient_id (patients (data s)));
      [|now injection Hm as _ <-].
    simpl in Hm.
    destruct (dict_get patient_id (patients (data s))); [|discriminate].
    injection Hm as <- _. discriminate.
  - (* add_doctor *)
    unfold add_doctor in Hm. unfold bind at 1 in Hm. revert Hm.
    with_next_id "doctor" s; intros Hm; [discriminate|].
    step_m. injection Hm as <- _. discriminate.
  - (* update_doctor *)
    unfold update_doctor in Hm. step_m.
    destruct (bound_twice ["self"; "doctor_id"] kwargs); [discriminate|].
    destruct (dict_mem doctor_id (doctors (data s)));
      [|now injection Hm as _ <-].
    simpl in Hm.
    destruct (dict_get doctor_id (doctors (data s))); [|discriminate].
    injection Hm as <- _. discriminate.
  - (* add_bed *)
    unfold add_bed in Hm. unfold bind at 1 in Hm. revert Hm.
    with_next_id "bed" s; intros Hm; [discriminate|].
    step_m. injection Hm as <- _. discriminate.
  - (* assign_bed *)
    unfold assign_bed, field in Hm. step_m.
    destruct (dict_mem bed_id (beds (data s)));
      [|now injection Hm as _ <-].
    destruct (dict_mem patient_id (patients (data s)));
      [|now injection Hm as _ <-].
    simpl in Hm.
    destruct (dict_get bed_id (beds (data s))); [|discriminate].
    destruct (dict_get "status" r0); [|discriminate].
    destruct (eq_str p "available"); simpl in Hm;
      [|now injection Hm as _ <-].
    injection Hm as <- _. discriminate.
  - (* release_bed *)
    unfold release_bed, field in Hm. step_m.
    destruct (dict_mem bed_id (beds (data s)));
      [|now injection Hm as _ <-].
    simpl in Hm.
    destruct (dict_get bed_id (beds (data s))); [|discriminate].
    destruct (dict_get "status" r0); [|discriminate].
    destruct (eq_str p "occupied"); simpl in Hm;
      [|now injection Hm as _ <-].
    injection Hm as <- _. discriminate.
  - (* add_medicine *)
    unfold add_medicine in Hm. unfold bind at 1 in Hm. revert Hm.
    with_next_id "medicine" s; intros Hm; [discriminate|].
    step_m. injection Hm as <- _. discriminate.
  - (* update_medicine_stock *)
    unfold update_medicine_stock in Hm. step_m.
    destruct (dict_mem medicine_id (medicines (data s)));
      [|now injection Hm as _ <-].
    simpl in Hm.
    destruct (dict_get medicine_id (medicines (data s))); [|discriminate].
    injection Hm as <- _. discriminate.
Qed.

(** ** Beds: assigning and releasing *)

Lemma status_occupy patient_id now bed :
  dict_get "status" (occupy patient_id now bed) = Some (VStr "occupied").
Proof.
  unfold occupy.
  rewrite dict_get_set_other by discriminate.
  rewrite dict_get_set_other by discriminate.
  apply dict_get_set_same.
Qed.

Lemma status_vacate bed :
  dict_get "status" (vacate bed) = Some (VStr "available").
Proof.
  unfold vacate.
  rewrite dict_get_set_other by discriminate.
  rewrite dict_get_set_other by discriminate.
  apply dict_get_set_same.
Qed.

Lemma assign_bed_success bed_id patient_id now s r s' :
  assign_bed bed_id patient_id now s = (Returned r, s') ->
  success r = true ->
  exists bed,
    dict_get bed_id (beds (data s)) = Some bed /\
    dict_mem patient_id (patients (data s)) = true /\
    dict_get "status" bed = Some (VStr "available") /\
    r = done_with "Bed assigned successfully" "bed"
          (ARecord (occupy patient_id now bed)) /\
    s' = saved (with_beds (dict_set bed_id (occupy patient_id now bed)
                             (beds (data s))) (data s)) s.
Proof.
  unfold assign_bed, field. step_m. unfold dict_mem at 1.
  destruct (dict_get bed_id (beds (data s))) as [bed|] eqn:Hbed; simpl;
    [|intros [= <- _]; discriminate].
  destruct (dict_mem patient_id (patients (data s))) eqn:Hpat; simpl;
    [|intros [= <- _]; discriminate].
  destruct (dict_get "status" bed) as [status|] eqn:Hstatus; [|discriminate].
  destruct (eq_str status "available") eqn:Hst; simpl;
    [|intros [= <- _]; discriminate].
  intros [= <- <-] _.
  destruct status; try discriminate. simpl in Hst.
  apply String.eqb_eq in Hst. subst.
  exists bed. repeat split; auto.
Qed.

Lemma release_bed_success bed_id s r s' :
  release_bed bed_id s = (Returned r, s') ->
  success r = true ->
  exists bed,
    dict_get bed_id (beds (data s)) = Some bed /\
    dict_get "status" bed = Some (VStr "occupied") /\
    r = done_with "Bed released successfully" "bed" (ARecord (vacate bed)) /\
    s' = saved (with_beds (dict_set bed_id (vacate bed) (beds (data s)))
                          (data s)) s.
Proof.
  unfold release_bed, field. step_m. unfold dict_mem at 1.
  destruct (dict_get bed_id (beds (data s))) as [bed|] eqn:Hbed; simpl;
    [|intros [= <- _]; discriminate].
  destruct (dict_get "status" bed) as [status|] eqn:Hstatus; [|discriminate].
  destruct (eq_str status "occupied") eqn:Hst; simpl;
    [|intros [= <- _]; discriminate].
  intros [= <- <-] _.
  destruct status; try discriminate. simpl in Hst.
  apply String.eqb_eq in Hst. subst.
  exists bed. repeat split; auto.
Qed.

(** C5: right after a successful [assign_bed], assigning the same bed to
    any existing patient answers [BedNotAvailable]; right after a
    successful [release_bed], releasing the same bed again answers
    [BedNotOccupied].  Neither second call changes anything. *)
Theorem second_assign_second_release :
  forall s bed_id first_patient second_patient now now' r s',
    (assign_bed bed_id first_patient now s = (Returned r, s') ->
     success r = true ->
     dict_mem second_patient (patients (data s)) = true ->
     assign_bed bed_id second_patient now' s' = (Returned BedNotAvailable, s'))
    /\
    (release_bed bed_id s = (Returned r, s') ->
     success r = true ->
     release_bed bed_id s' = (Returned BedNotOccupied, s')).
Proof.
  intros s bed_id p1 p2 now now' r s'. split.
  - intros Hcall Hok Hp2.
    destruct (assign_bed_success _ _ _ _ _ _ Hcall Hok)
      as (bed & Hbed & Hp1 & Hst & -> & ->).
    unfold assign_bed, field. step_m. unfold saved, dict_mem at 1. simpl.
    rewrite dict_get_set_same. simpl. rewrite Hp2. simpl.
    now rewrite status_occupy.
  - intros Hcall Hok.
    destruct (release_bed_success _ _ _ _ Hcall Hok)
      as (bed & Hbed & Hst & -> & ->).
    unfold release_bed, field. step_m. unfold saved, dict_mem at 1. simpl.
    rewrite dict_get_set_same. simpl.
    now rewrite status_vacate.
Qed.

(** ** Partial updates *)

Lemma dict_mem_set_present {K V : Type} `{Hashable K} (k k' : K) (v : V) d :
  dict_mem k d = true -> dict_mem k' (dict_set k v d) = dict_mem k' d.
Proof.
  intros Hk. unfold dict_mem.
  destruct (key_eqb k k') eqn:E.
  - apply key_eqb_eq in E. subst k'. rewrite dict_get_set_same.
    apply dict_mem_get in Hk. destruct Hk as [v0 ->]. reflexivity.
  - rewrite dict_get_set_other; [reflexivity|].
    intros ->. rewrite key_eqb_refl in E. discriminate.
Qed.

Lemma apply_kwargs_snoc kwargs key value r :
  apply_kwargs (kwargs ++ [(key, value)]) r =
    if dict_mem key (apply_kwargs kwargs r) && negb (protected key)
    then dict_set key value (apply_kwargs kwargs r)
    else apply_kwargs kwargs r.
Proof. unfold apply_kwargs. rewrite fold_left_app. reflexivity. Qed.

Lemma apply_kwargs_mem kwargs r key :
  dict_mem key (apply_kwargs kwargs r) = dict_mem key r.
Proof.
  induction kwargs as [|[k v] kwargs IH] using rev_ind; [reflexivity|].
  rewrite apply_kwargs_snoc.
  destruct (dict_mem k (apply_kwargs kwargs r)) eqn:Hk; simpl; [|exact IH].
  destruct (protected k); simpl; [exact IH|].
  now rewrite dict_mem_set_present.
Qed.

Lemma apply_kwargs_keys kwargs r :
  dict_keys (apply_kwargs kwargs r) = dict_keys r.
Proof.
  induction kwargs as [|[k v] kwargs IH] using rev_ind; [reflexivity|].
  rewrite apply_kwargs_snoc.
  destruct (dict_mem k (apply_kwargs kwargs r)) eqn:Hk; simpl; [|exact IH].
  destruct (protected k); simpl; [exact IH|].
  now rewrite dict_keys_set_present.
Qed.

(** The field [key] after the loop: the last value supplied for it when the
    record has the field and it is not protected, its old value otherwise. *)
Lemma apply_kwargs_get kwargs r key :
  dict_get key (apply_kwargs kwargs r) =
    if dict_mem key r && negb (protected key)
    then match dict_get key (List.rev kwargs) with
         | Some value => Some value
         | None => dict_get key r
         end
    else dict_get key r.
Proof.
  induction kwargs as [|[k v] kwargs IH] using rev_ind.
  - simpl. now destruct (dict_mem key r && negb (protected key)).
  - rewrite apply_kwargs_snoc, rev_app_distr. simpl.
    rewrite apply_kwargs_mem.
    destruct (String.eqb key k) eqn:E.
    + apply String.eqb_eq in E. subst k.
      destruct (dict_mem key r && negb (protected key)) eqn:C.
      * apply dict_get_set_same.
      * exact IH.
    + assert (Hne : k <> key).
      { intros ->. rewrite String.eqb_refl in E. discriminate. }
      destruct (dict_mem k r && negb (protected k)).
      * rewrite dict_get_set_other by exact Hne. exact IH.
      * exact IH.
Qed.

Lemma apply_kwargs_partial_update kwargs r :
  partial_update kwargs r (apply_kwargs kwargs r).
Proof.
  unfold partial_update. repeat split.
  - apply apply_kwargs_keys.
  - rewrite apply_kwargs_get. simpl. now rewrite andb_false_r.
  - rewrite apply_kwargs_get. simpl. now rewrite andb_false_r.
  - intros key Hnone. rewrite apply_kwargs_get, Hnone.
    now destruct (dict_mem key r && negb (protected key)).
  - intros key Hnone. rewrite apply_kwargs_get.
    unfold dict_mem. now rewrite Hnone.
  - intros key value Hsome Hmem Hid Hcreated.
    rewrite apply_kwargs_get, Hsome, Hmem.
    unfold protected.
    apply String.eqb_neq in Hid, Hcreated. now rewrite Hid, Hcreated.
Qed.

(** C9: [update_patient] and [update_doctor] on a stored identifier, with
    any mapping that can be passed as keyword arguments, succeed and replace
    the stored record by one with the same fields in the same order, in which
    [id] and [created_at] keep their values whatever the mapping supplies,
    fields the mapping does not name keep their values, fields the record
    does not have stay absent, and every other field the mapping names takes
    the supplied value; records under other keys are untouched. *)
Theorem update_is_partial :
  forall s key kwargs before,
    (bound_twice ["self"; "patient_id"] kwargs = false ->
     dict_get key (patients (data s)) = Some before ->
     exists after,
       partial_update kwargs before after /\
       fst (update_patient key kwargs s) =
         Returned (done_with "Patient updated successfully" "patient"
                             (ARecord after)) /\
       dict_get key (patients (data (snd (update_patient key kwargs s))))
         = Some after /\
       forall other, other <> key ->
         dict_get other (patients (data (snd (update_patient key kwargs s))))
         = dict_get other (patients (data s)))
    /\
    (bound_twice ["self"; "doctor_id"] kwargs = false ->
     dict_get key (doctors (data s)) = Some before ->
     exists after,
       partial_update kwargs before after /\
       fst (update_doctor key kwargs s) =
         Returned (done_with "Doctor updated successfully" "doctor"
                             (ARecord after)) /\
       dict_get key (doctors (data (snd (update_doctor key kwargs s))))
         = Some after /\
       forall other, other <> key ->
         dict_get other (doctors (data (snd (update_doctor key kwargs s))))
         = dict_get other (doctors (data s))).
Proof.
  intros s key kwargs before. split; intros Hkw Hget; mem_known Hget;
    exists (apply_kwargs kwargs before);
    (split; [apply apply_kwargs_partial_update|]).
  - unfold update_patient. step_m. rewrite Hkw, Hmem, Hget. simpl.
    repeat split.
    + apply dict_get_set_same.
    + intros other Hne. now apply dict_get_set_other.
  - unfold update_doctor. step_m. rewrite Hkw, Hmem, Hget. simpl.
    repeat split.
    + apply dict_get_set_same.
    + intros other Hne. apply dict_get_set_other. congruence.
Qed.

(** ** Soft deletion *)

Lemma comprehension_total {A : Type} (test : A -> outcome bool) (l : list A) :
  (forall x, In x l -> exists b, test x = Returned b) ->
  exists kept,
    comprehension test l = Returned kept /\
    forall x, In x kept <-> In x l /\ test x = Returned true.
Proof.
  induction l as [|a l IH]; intros Hall.
  - exists []. split; [reflexivity|]. intros x. simpl. tauto.
  - destruct (Hall a (or_introl eq_refl)) as [b Hb].
    destruct IH as (kept & Hkept & Hin).
    { intros x Hx. apply Hall. now right. }
    simpl. rewrite Hb, Hkept.
    destruct b.
    + exists (a :: kept). split; [reflexivity|].
      intros x. simpl. rewrite Hin. split.
      * intros [<-|[Hx Ht]]; auto.
      * intros [[<-|Hx] Ht]; auto.
    + exists kept. split; [reflexivity|].
      intros x. rewrite Hin. simpl. split.
      * intros [Hx Ht]; auto.
      * intros [[<-|Hx] Ht]; [congruence | auto].
Qed.

Lemma is_active_get (p : record) (v : pyval) :
  dict_get "is_active" p = Some v -> is_active p = Returned (truthy v).
Proof. intros Hv. unfold is_active, field. now rewrite Hv. Qed.

(** C7: [delete_patient] answers [PatientNotFound] exactly when the
    identifier is absent.  On a stored identifier it succeeds; afterwards
    [get_patient] returns the record with [is_active] set to [False] and
    every other field as before, [get_all_patients] lists only patients it
    listed before and not this one, and deleting again succeeds again. *)
Theorem delete_patient_is_soft :
  forall s patient_id,
    (dict_get patient_id (patients (data s)) = None <->
     fst (delete_patient patient_id s) = Returned PatientNotFound) /\
    (dict_get patient_id (patients (data s)) = None ->
     delete_patient patient_id s = (Returned PatientNotFound, s)) /\
    (forall patient,
        dict_get patient_id (patients (data s)) = Some patient ->
        let s' := snd (delete_patient patient_id s) in
        let deleted := dict_set "is_active" (VBool false) patient in
        fst (delete_patient patient_id s) =
          Returned (done "Patient deleted successfully") /\
        get_patient patient_id s' = (Returned (Some deleted), s') /\
        dict_get "is_active" deleted = Some (VBool false) /\
        (forall name, name <> "is_active" ->
                      dict_get name deleted = dict_get name patient) /\
        fst (delete_patient patient_id s') =
          Returned (done "Patient deleted successfully") /\
        ((forall p, In p (dict_values (patients (data s))) ->
                    dict_mem "is_active" p = true) ->
         exists before after,
           get_all_patients s = (Returned before, s) /\
           get_all_patients s' = (Returned after, s') /\
           ~ In deleted after /\
           forall p, In p after -> In p before)).
Proof.
  intros s patient_id.
  assert (Habsent : dict_get patient_id (patients (data s)) = None ->
                    delete_patient patient_id s = (Returned PatientNotFound, s)).
  { intros Hnone. mem_known Hnone.
    unfold delete_patient. step_m. now rewrite Hmem. }
  assert (Hpresent : forall patient,
             dict_get patient_id (patients (data s)) = Some patient ->
             delete_patient patient_id s =
               (Returned (done "Patient deleted successfully"),
                saved (with_patients
                         (dict_set patient_id
                            (dict_set "is_active" (VBool false) patient)
                            (patients (data s))) (data s)) s)).
  { intros patient Hsome. mem_known Hsome.
    unfold delete_patient. step_m. now rewrite Hmem, Hsome. }
  split; [|split; [exact Habsent|]].
  - split.
    + intros Hnone. now rewrite Habsent.
    + destruct (dict_get patient_id (patients (data s))) as [patient|] eqn:E;
        [|reflexivity].
      rewrite (Hpresent patient eq_refl). discriminate.
  - intros patient Hsome s' deleted.
    assert (Hs' : s' = saved (with_patients
                                (dict_set patient_id deleted (patients (data s)))
                                (data s)) s).
    { unfold s'. now rewrite (Hpresent patient Hsome). }
    assert (Hstored : dict_get patient_id (patients (data s')) = Some deleted).
    { rewrite Hs'. simpl. apply dict_get_set_same. }
    assert (Hflag : dict_get "is_active" deleted = Some (VBool false)).
    { apply dict_get_set_same. }
    split; [now rewrite (Hpresent patient Hsome)|].
    split; [unfold get_patient; step_m; now rewrite Hstored|].
    split; [exact Hflag|].
    split; [intros name Hname; apply dict_get_set_other; congruence|].
    split.
    { clearbody s'. mem_known Hstored.
      unfold delete_patient. step_m. now rewrite Hmem, Hstored. }
    intros Hwf.
    destruct (comprehension_total is_active (dict_values (patients (data s))))
      as (before & Hbefore & Hin_before).
    { intros p Hp. apply Hwf in Hp. apply dict_mem_get in Hp.
      destruct Hp as [v Hv]. rewrite (is_active_get _ _ Hv). eauto. }
    destruct (comprehension_total is_active (dict_values (patients (data s'))))
      as (after & Hafter & Hin_after).
    { intros p Hp. rewrite Hs' in Hp. simpl in Hp.
      apply dict_values_set in Hp. destruct Hp as [->|Hp].
      - rewrite (is_active_get _ _ Hflag). eauto.
      - apply Hwf in Hp. apply dict_mem_get in Hp.
        destruct Hp as [v Hv]. rewrite (is_active_get _ _ Hv). eauto. }
    exists before, after.
    split; [unfold get_all_patients; step_m; now rewrite Hbefore|].
    split; [unfold get_all_patients; step_m; now rewrite Hafter|].
    split.
    + intros Hin. apply Hin_after in Hin. destruct Hin as [_ Hact].
      rewrite (is_active_get _ _ Hflag) in Hact. discriminate.
    + intros p Hp. apply Hin_after in Hp. destruct Hp as [Hp Hact].
      apply Hin_before. split; [|exact Hact].
      rewrite Hs' in Hp. simpl in Hp.
      apply dict_values_set in Hp. destruct Hp as [->|Hp]; [|exact Hp].
      rewrite (is_active_get _ _ Hflag) in Hact. discriminate.
Qed.

(** ** Identifier allocation *)

Lemma ids_from_succ (start : Z) (n : nat) :
  ids_from start (S n) = ids_from start n ++ [(start + Z.of_nat n)%Z].
Proof. unfold ids_from. rewrite seq_S, map_app. reflexivity. Qed.

Lemma ids_from_length (start : Z) (n : nat) :
  List.length (ids_from start n) = n.
Proof. unfold ids_from. now rewrite length_map, length_seq. Qed.

Lemma ids_from_one (n : nat) : ids_from 1 n = first_ids n.
Proof.
  unfold ids_from, first_ids. rewrite <- seq_shift, map_map.
  apply map_ext. intros i. lia.
Qed.

Lemma follows_written k start before counters t j :
  follows k start before counters t ->
  follows k start before counters (Written j :: t).
Proof. exact (fun H => H). Qed.

Lemma follows_allocated k start before counters t k' z :
  follows k start before counters t ->
  dict_get k' counters = Some z ->
  follows k start before (dict_set k' (z + 1)%Z counters)
          (Allocated k' z :: t).
Proof.
  intros (n & Hids & Hnext) Hz. unfold follows. simpl.
  destruct (String.eqb k' k) eqn:E.
  - apply String.eqb_eq in E. subst k'.
    rewrite Hz in Hnext. destruct start as [a|]; [|discriminate].
    simpl in Hnext. injection Hnext as ->. exists (S n). split.
    + rewrite Hids, ids_from_succ, app_assoc. reflexivity.
    + rewrite dict_get_set_same. simpl. f_equal. lia.
  - exists n. split; [exact Hids|].
    rewrite dict_get_set_other; [exact Hnext|].
    intros ->. rewrite String.eqb_refl in E. discriminate.
Qed.

Ltac exec :=
  step_m; unfold field, is_active, expired_by in *;
  repeat (simpl;
          match goal with
          | |- context [match dict_get ?k ?d with _ => _ end] =>
              destruct (dict_get k d) eqn:?
          | |- context [if ?c then _ else _] => destruct c eqn:?
          | |- context [match ?x with _ => _ end] => destruct x eqn:?
          end);
  simpl.

Lemma preserves_bind {A B : Type} (I : HealthcareSystem -> Prop)
    (m : M A) (k : A -> M B) :
  preserves I m -> (forall a, preserves I (k a)) -> preserves I (bind m k).
Proof.
  intros Hm Hk s Hs. unfold bind.
  specialize (Hm s Hs). destruct (m s) as [[a|e] s1]; simpl in *.
  - now apply Hk.
  - exact Hm.
Qed.

Lemma preserves_ret {A : Type} (I : HealthcareSystem -> Prop) (a : A) :
  preserves I (ret a).
Proof. intros s Hs. exact Hs. Qed.

Lemma preserves_fmap {A B : Type} (I : HealthcareSystem -> Prop)
    (f : A -> B) (m : M A) :
  preserves I m -> preserves I (fmap f m).
Proof.
  intros Hm. unfold fmap. apply preserves_bind; [exact Hm|].
  intros a. apply preserves_ret.
Qed.

Ltac tracked_solver :=
  unfold tracked in *; simpl;
  auto using follows_written, follows_allocated.

Lemma register_user_tracked k start before u p r f l e ph now :
  preserves (tracked k start before) (register_user u p r f l e ph now).
Proof.
  intros s Hs. unfold register_user, get_next_id. exec; tracked_solver.
Qed.

Lemma add_patient_tracked k start before f l a g ph e mh al now :
  preserves (tracked k start before) (add_patient f l a g ph e mh al now).
Proof.
  intros s Hs. unfold add_patient, get_next_id. exec; tracked_solver.
Qed.

Lemma add_doctor_tracked k start before f l sp ph e sh li now :
  preserves (tracked k start before) (add_doctor f l sp ph e sh li now).
Proof.
  intros s Hs. unfold add_doctor, get_next_id. exec; tracked_solver.
Qed.

Lemma add_bed_tracked k start before n t w now :
  preserves (tracked k start before) (add_bed n t w now).
Proof.
  intros s Hs. unfold add_bed, get_next_id. exec; tracked_solver.
Qed.

Lemma add_medicine_tracked k start before n e q up c ms now :
  preserves (tracked k start before) (add_medicine n e q up c ms now).
Proof.
  intros s Hs. unfold add_medicine, get_next_id. exec; tracked_solver.
Qed.

Lemma seed_sample_data_tracked k start before now :
  preserves (tracked k start before) (seed_sample_data now).
Proof.
  unfold seed_sample_data.
  repeat (apply preserves_bind;
          [first [apply register_user_tracked | apply add_patient_tracked
                 | apply add_doctor_tracked | apply add_bed_tracked
                 | apply add_medicine_tracked]
          | intros _]).
  apply preserves_ret.
Qed.

Lemma call_tracked k start before op :
  preserves (tracked k start before) (call op).
Proof.
  destruct op; simpl; apply preserves_fmap;
    try apply register_user_tracked; try apply add_patient_tracked;
    try apply add_doctor_tracked; try apply add_bed_tracked;
    try apply add_medicine_tracked; try apply seed_sample_data_tracked;
    intros s Hs.
  - tracked_solver.
  - unfold get_next_id. exec; tracked_solver.
  - unfold login_user. exec; tracked_solver.
  - exact Hs.
  - exact Hs.
  - exact Hs.
  - unfold update_patient. exec; tracked_solver.
  - unfold delete_patient. exec; tracked_solver.
  - exact Hs.
  - exact Hs.
  - unfold update_doctor. exec; tracked_solver.
  - exact Hs.
  - exact Hs.
  - unfold assign_bed. exec; tracked_solver.
  - unfold release_bed. exec; tracked_solver.
  - exact Hs.
  - exact Hs.
  - exact Hs.
  - unfold update_medicine_stock. exec; tracked_solver.
Qed.

Lemma run_preserves (I : HealthcareSystem -> Prop) :
  (forall op, preserves I (call op)) ->
  forall ops s, I s -> I (run ops s).
Proof.
  intros Hcall ops. unfold run.
  induction ops as [|op ops IH]; intros s Hs; simpl; [exact Hs|].
  apply IH. now apply Hcall.
Qed.

Lemma sorted_ids_from (start : Z) (n : nat) :
  StronglySorted Z.lt (ids_from start n).
Proof.
  unfold ids_from. generalize 0. induction n as [|n IH]; intros a; simpl;
    constructor.
  - apply IH.
  - apply Forall_forall. intros x Hx.
    apply in_map_iff in Hx. destruct Hx as (y & <- & Hy).
    apply in_seq in Hy. lia.
Qed.

Lemma sorted_nodup (l : list Z) : StronglySorted Z.lt l -> NoDup l.
Proof.
  induction 1 as [|a l Hsorted IH Hall]; constructor; [|exact IH].
  intros Hin. rewrite Forall_forall in Hall.
  specialize (Hall a Hin). lia.
Qed.

Lemma nth_error_ids_from (start : Z) (n i : nat) (id : Z) :
  nth_error (ids_from start n) i = Some id -> id = (start + Z.of_nat i)%Z.
Proof.
  unfold ids_from. intros Hi.
  assert (Hgen : forall a m j,
             nth_error (map (fun i => (start + Z.of_nat i)%Z) (seq a m)) j
             = Some id ->
             id = (start + Z.of_nat (a + j))%Z).
  { intros a m. revert a. induction m as [|m IH]; intros a j; simpl.
    - destruct j; discriminate.
    - destruct j as [|j]; simpl.
      + intros [= <-]. f_equal. f_equal. lia.
      + intros Hj. apply IH in Hj. subst id. f_equal. f_equal. lia. }
  now apply Hgen in Hi.
Qed.

Lemma ids_from_below (start : Z) (n : nat) :
  Forall (fun earlier => (earlier < start + Z.of_nat n)%Z) (ids_from start n).
Proof.
  apply Forall_forall. intros x Hx. unfold ids_from in Hx.
  apply in_map_iff in Hx. destruct Hx as (y & <- & Hy).
  apply in_seq in Hy. lia.
Qed.

(** A store that starts with the empty structure has every counter it has
    at 1. *)
Lemma empty_document_counters (k : string) :
  dict_get k (next_ids empty_document) = Some 1%Z \/
  dict_get k (next_ids empty_document) = None.
Proof.
  simpl.
  repeat match goal with
         | |- context [if ?c then _ else _] => destruct c
         end; auto.
Qed.

Lemma issued_tracked k start before s0 s :
  before = allocated k s0 ->
  tracked k start before s ->
  exists n,
    let ids := match start with
               | Some a => ids_from a n
               | None => []
               end in
    allocated k s = allocated k s0 ++ ids /\
    issued k s0 s = ids /\
    dict_get k (next_ids (data s)) =
      option_map (fun a => (a + Z.of_nat n)%Z) start.
Proof.
  intros -> (n & Hids & Hnext). exists n. cbv zeta.
  fold (allocated k s) in Hids.
  split; [exact Hids|]. split; [|exact Hnext].
  unfold issued. rewrite Hids, skipn_app, skipn_all, Nat.sub_diag.
  reflexivity.
Qed.

(** C8: take one instance in any state [s0], whether it was started without
    a file or loaded from one, and make any calls on it.  The identifiers it
    hands out for one kind are the number its counter stood at in [s0] and
    the successors of this number, in this order: strictly increasing and
    never repeated.  On an instance that started with the empty structure
    they are 1, 2, 3, ....  The next call of [get_next_id] that returns
    gives the next number, larger than all the instance handed out
    before. *)
Theorem allocation_never_repeats :
  forall s0 ops entity_type,
    let s := run ops s0 in
    let ids := issued entity_type s0 s in
    allocated entity_type s = allocated entity_type s0 ++ ids /\
    StronglySorted Z.lt ids /\
    NoDup ids /\
    (forall i id,
        nth_error ids i = Some id ->
        exists start,
          dict_get entity_type (next_ids (data s0)) = Some start /\
          id = (start + Z.of_nat i)%Z) /\
    (data s0 = empty_document ->
     ids = first_ids (List.length ids) /\
     forall i id, nth_error ids i = Some id -> id = Z.of_nat (S i)) /\
    (forall id s',
        get_next_id entity_type s = (Returned id, s') ->
        issued entity_type s0 s' = ids ++ [id] /\
        Forall (fun earlier => (earlier < id)%Z) ids /\
        (data s0 = empty_document -> id = Z.of_nat (S (List.length ids)))).
Proof.
  intros s0 ops k s ids.
  assert (Hs : tracked k (dict_get k (next_ids (data s0))) (allocated k s0) s).
  { apply run_preserves; [intros op; apply call_tracked|].
    exists 0. unfold allocated.
    destruct (dict_get k (next_ids (data s0))); simpl.
    - rewrite app_nil_r. split; [reflexivity|]. f_equal. lia.
    - rewrite app_nil_r. split; reflexivity. }
  destruct (issued_tracked k _ _ s0 s eq_refl Hs) as (n & Hall & Hids & Hnext).
  cbv zeta in Hall, Hids. fold ids in Hids. rewrite <- Hids in Hall.
  assert (Hsorted : StronglySorted Z.lt ids).
  { rewrite Hids. destruct (dict_get k (next_ids (data s0)));
      [apply sorted_ids_from | constructor]. }
  assert (Hnth : forall i id,
             nth_error ids i = Some id ->
             exists start,
               dict_get k (next_ids (data s0)) = Some start /\
               id = (start + Z.of_nat i)%Z).
  { intros i id Hi. rewrite Hids in Hi.
    destruct (dict_get k (next_ids (data s0))) as [a|].
    - exists a. split; [reflexivity|]. now apply nth_error_ids_from in Hi.
    - destruct i; discriminate. }
  assert (Hlen : forall a, dict_get k (next_ids (data s0)) = Some a ->
                           List.length ids = n).
  { intros a Ha. rewrite Hids, Ha. apply ids_from_length. }
  split; [exact Hall|].
  split; [exact Hsorted|].
  split; [now apply sorted_nodup|].
  split; [exact Hnth|].
  split.
  { intros Hempty.
    assert (Hfirst : ids = first_ids (List.length ids)).
    { rewrite Hids at 1. rewrite Hids at 1. rewrite Hempty.
      destruct (empty_document_counters k) as [H1|H1]; rewrite H1.
      - now rewrite ids_from_length, ids_from_one.
      - reflexivity. }
    split; [exact Hfirst|].
    intros i id Hi. destruct (Hnth i id Hi) as (a & Ha & ->).
    rewrite Hempty in Ha.
    destruct (empty_document_counters k) as [H1|H1]; rewrite H1 in Ha;
      [|discriminate].
    injection Ha as <-. lia. }
  intros id s' Hcall.
  unfold get_next_id in Hcall. step_m.
  destruct (dict_get k (next_ids (data s))) as [next|] eqn:Hget;
    [|discriminate].
  injection Hcall as <- <-.
  destruct (dict_get k (next_ids (data s0))) as [a|] eqn:Hstart;
    [|discriminate].
  simpl in Hnext. injection Hnext as ->.
  split.
  { unfold issued, allocated. simpl. rewrite String.eqb_refl.
    fold (allocated k s). fold (allocated k s0).
    rewrite Hall, <- app_assoc, skipn_app, skipn_all, Nat.sub_diag.
    reflexivity. }
  split.
  { rewrite Hids. apply ids_from_below. }
  intros Hempty. rewrite (Hlen a eq_refl).
  rewrite Hempty in Hstart.
  destruct (empty_document_counters k) as [H1|H1]; rewrite H1 in Hstart;
    [|discriminate].
  injection Hstart as <-. lia.
Qed.

(** ** Expired medicines *)

Lemma comprehension_filter {A : Type} (test : A -> outcome bool)
    (keep : A -> bool) (l : list A) :
  (forall x, In x l -> test x = Returned (keep x)) ->
  comprehension test l = Returned (filter keep l).
Proof.
  induction l as [|a l IH]; intros Hall; [reflexivity|].
  simpl. rewrite (Hall a (or_introl eq_refl)).
  rewrite IH; [reflexivity|].
  intros x Hx. apply Hall. now right.
Qed.

(** C6: when every medicine carries a string [expiry_date],
    [get_expired_medicines] returns, in the store's order, exactly the
    medicines whose [expiry_date] is less than or equal to the ISO form of
    the current date, and changes nothing.  On 2025-01-01 a medicine
    expiring "2024-06-30" is returned and one expiring "2025-12-31" is
    not. *)
Theorem expired_medicines_exact :
  forall s current,
    (forall m, In m (dict_values (medicines (data s))) ->
               exists expiry, dict_get "expiry_date" m = Some (VStr expiry)) ->
    exists expired,
      get_expired_medicines current s = (Returned expired, s) /\
      expired =
        filter (fun m => match dict_get "expiry_date" m with
                         | Some (VStr expiry) =>
                             String.leb expiry (isoformat current)
                         | _ => false
                         end)
               (dict_values (medicines (data s))) /\
      (forall m, In m expired <->
                 In m (dict_values (medicines (data s))) /\
                 exists expiry,
                   dict_get "expiry_date" m = Some (VStr expiry) /\
                   String.leb expiry (isoformat current) = true) /\
      (current = mkDate 2025 1 1 ->
       forall m, In m (dict_values (medicines (data s))) ->
                 (dict_get "expiry_date" m = Some (VStr "2024-06-30") ->
                  In m expired) /\
                 (dict_get "expiry_date" m = Some (VStr "2025-12-31") ->
                  ~ In m expired)).
Proof.
  intros s current Hwf.
  set (keep := fun m : record =>
                 match dict_get "expiry_date" m with
                 | Some (VStr expiry) => String.leb expiry (isoformat current)
                 | _ => false
                 end).
  assert (Hmem : forall m,
             In m (filter keep (dict_values (medicines (data s)))) <->
             In m (dict_values (medicines (data s))) /\
             exists expiry,
               dict_get "expiry_date" m = Some (VStr expiry) /\
               String.leb expiry (isoformat current) = true).
  { intros m. rewrite filter_In. unfold keep. split.
    - intros [Hin Hk]. split; [exact Hin|].
      destruct (Hwf m Hin) as [expiry He]. rewrite He in Hk. eauto.
    - intros [Hin (expiry & He & Hle)]. split; [exact Hin|].
      now rewrite He. }
  exists (filter keep (dict_values (medicines (data s)))).
  split; [|split; [reflexivity|split; [exact Hmem|]]].
  - unfold get_expired_medicines. step_m.
    rewrite (comprehension_filter _ keep); [reflexivity|].
    intros m Hin. destruct (Hwf m Hin) as [expiry He].
    unfold expired_by, field, keep. now rewrite He.
  - intros -> m Hin. split.
    + intros He. apply Hmem. split; [exact Hin|].
      exists "2024-06-30". split; [exact He|reflexivity].
    + intros He Hexp. apply Hmem in Hexp.
      destruct Hexp as [_ (expiry & He' & Hle)].
      rewrite He in He'. injection He' as <-. discriminate Hle.
Qed.

(** ** Saving and loading *)

Lemma all_some_map {A B : Type} (h : A -> option B) (g : A -> B) (l : list A) :
  (forall x, In x l -> h x = Some (g x)) ->
  all_some (map h l) = Some (map g l).
Proof.
  induction l as [|a l IH]; intros Hall; [reflexivity|].
  simpl. rewrite (Hall a (or_introl eq_refl)).
  rewrite IH; [reflexivity|].
  intros x Hx. apply Hall. now right.
Qed.

Lemma load_members_map {A B K : Type} `{Hashable K} (key : string -> K)
    (f : json -> option A) (name : B -> string) (enc : B -> json)
    (dec : B -> A) (l : list B) :
  (forall x, In x l -> f (enc x) = Some (dec x)) ->
  load_members key f (JObj (map (fun x => (name x, enc x)) l)) =
    Some (dict_of_pairs (map (fun x => (key (name x), dec x)) l)).
Proof.
  intros Hall. unfold load_members. rewrite map_map. simpl.
  rewrite (all_some_map _ (fun x => (key (name x), dec x))); [reflexivity|].
  intros x Hx. now rewrite (Hall x Hx).
Qed.

Lemma json_float_twice (bits : Z) :
  json_float (json_float bits) = json_float bits.
Proof.
  unfold json_float. destruct (is_nan bits) eqn:E.
  - vm_compute. reflexivity.
  - now rewrite E.
Qed.

Lemma val_round_trip (v : pyval) :
  val_of_json (json_of_val v) = Some (reload_val v).
Proof. destruct v; simpl; rewrite ?json_float_twice; reflexivity. Qed.

Lemma record_round_trip (r : record) :
  record_of_json (json_of_record r) = Some (reload_record r).
Proof.
  unfold record_of_json, json_of_record, reload_record, reload_fields.
  rewrite (load_members_map (fun k => k) val_of_json fst
             (fun kv => json_of_val (snd kv))
             (fun kv => reload_val (snd kv))).
  - reflexivity.
  - intros x _. apply val_round_trip.
Qed.

Lemma collection_round_trip (c : collection) :
  collection_of_json (json_of_collection c) = Some (reload_collection c).
Proof.
  unfold collection_of_json, json_of_collection, reload_collection.
  rewrite (load_members_map KStr record_of_json
             (fun kr => json_key (fst kr))
             (fun kr => json_of_record (snd kr))
             (fun kr => reload_record (snd kr))).
  - reflexivity.
  - intros x _. apply record_round_trip.
Qed.

Lemma counters_round_trip (n : dict string Z) :
  counters_of_json (json_of_counters n) = Some (dict_of_pairs n).
Proof.
  unfold counters_of_json, json_of_counters.
  rewrite (load_members_map (fun k => k) _ fst (fun kz => JInt (snd kz)) snd).
  - f_equal. f_equal. rewrite <- (map_id n) at 2.
    apply map_ext. now intros [k z].
  - reflexivity.
Qed.

Lemma json_load_members (u p c b m n : json) :
  json_load (JObj [("users", u); ("patients", p); ("doctors", c);
                   ("beds", b); ("medicines", m); ("next_ids", n)]) =
    match collection_of_json u, collection_of_json p,
          collection_of_json c, collection_of_json b,
          collection_of_json m, counters_of_json n with
    | Some u', Some p', Some c', Some b', Some m', Some n' =>
        Some (mkDocument u' p' c' b' m' n')
    | _, _, _, _, _, _ => None
    end.
Proof. reflexivity. Qed.

(** What [load_data] finds after [save_data]: the saved document with every
    key of every collection turned into a string, and every NaN into the
    quiet NaN. *)
Lemma json_round_trip (d : Document) :
  json_load (json_dump d) = Some (reload_document d).
Proof.
  unfold json_dump. rewrite json_load_members.
  rewrite !collection_round_trip, counters_round_trip. reflexivity.
Qed.

(** ** Dictionaries built from pairs *)

Lemma dict_keys_set_in {K V : Type} `{Hashable K} (k x : K) (v : V) d :
  In x (dict_keys (dict_set k v d)) -> x = k \/ In x (dict_keys d).
Proof.
  unfold dict_keys.
  induction d as [|[k' v'] rest IH]; simpl.
  - intros [<-|[]]. now left.
  - destruct (key_eqb k k'); simpl.
    + intros [<-|Hin]; auto.
    + intros [<-|Hin]; auto. destruct (IH Hin); auto.
Qed.

Lemma dict_keys_set_nodup {K V : Type} `{Hashable K} (k : K) (v : V) d :
  NoDup (dict_keys d) -> NoDup (dict_keys (dict_set k v d)).
Proof.
  unfold dict_keys.
  induction d as [|[k' v'] rest IH]; simpl; intros Hnd.
  - constructor; [intros []|constructor].
  - inversion Hnd as [|? ? Hnotin Hrest]; subst.
    destruct (key_eqb k k') eqn:E; simpl.
    + now constructor.
    + constructor; [|now apply IH].
      intros Hin. apply dict_keys_set_in in Hin.
      destruct Hin as [->|Hin]; [|contradiction].
      rewrite key_eqb_refl in E. discriminate.
Qed.

Lemma dict_set_fresh {K V : Type} `{Hashable K} (k : K) (v : V) d :
  ~ In k (dict_keys d) -> dict_set k v d = d ++ [(k, v)].
Proof.
  unfold dict_keys.
  induction d as [|[k' v'] rest IH]; simpl; intros Hnotin; [reflexivity|].
  rewrite key_eqb_neq by (intros ->; apply Hnotin; now left).
  rewrite IH; [reflexivity|]. intros Hin. apply Hnotin. now right.
Qed.

Lemma fold_set_nodup {K V : Type} `{Hashable K} (l acc : list (K * V)) :
  NoDup (dict_keys (acc ++ l)) ->
  fold_left (fun d kv => dict_set (fst kv) (snd kv) d) l acc = acc ++ l.
Proof.
  revert acc. induction l as [|[k v] l IH]; intros acc Hnd; simpl.
  - now rewrite app_nil_r.
  - rewrite dict_set_fresh.
    + rewrite IH; rewrite <- app_assoc; [reflexivity|exact Hnd].
    + unfold dict_keys in *. rewrite map_app in Hnd. simpl in Hnd.
      apply NoDup_remove_2 in Hnd. intros Hin. apply Hnd.
      apply in_or_app. now left.
Qed.

Lemma dict_of_pairs_nodup {K V : Type} `{Hashable K} (l : list (K * V)) :
  NoDup (dict_keys l) -> dict_of_pairs l = l.
Proof. intros Hnd. unfold dict_of_pairs. now rewrite fold_set_nodup. Qed.

Lemma fold_set_values {K V : Type} `{Hashable K} (l acc : list (K * V)) x :
  In x (dict_values (fold_left (fun d kv => dict_set (fst kv) (snd kv) d) l acc)) ->
  In x (dict_values acc) \/ In x (map snd l).
Proof.
  revert acc. induction l as [|[k v] l IH]; intros acc; simpl; [auto|].
  intros Hin. apply IH in Hin. destruct Hin as [Hin|Hin]; [|auto].
  apply dict_values_set in Hin. destruct Hin as [->|Hin]; auto.
Qed.

Lemma dict_of_pairs_values {K V : Type} `{Hashable K} (l : list (K * V)) x :
  In x (dict_values (dict_of_pairs l)) -> In x (map snd l).
Proof.
  intros Hin. apply fold_set_values in Hin. destruct Hin as [[]|Hin].
  exact Hin.
Qed.

(** ** Well-formed records, and the bed invariant *)

Lemma all_good_set P (c : collection) (k : pykey) (r : record) :
  all_good P c -> good P r -> all_good P (dict_set k r c).
Proof.
  intros Hc Hr x Hx. apply dict_values_set in Hx.
  destruct Hx as [->|Hx]; auto.
Qed.

Lemma all_good_get P (c : collection) (k : pykey) (r : record) :
  all_good P c -> dict_get k c = Some r -> good P r.
Proof. intros Hc Hget. apply Hc. now apply dict_get_values in Hget. Qed.

Lemma reload_fields_keys (r : record) :
  dict_keys (reload_fields r) = dict_keys r.
Proof. unfold dict_keys, reload_fields. now rewrite map_map. Qed.

Lemma reload_fields_get (k : string) (r : record) :
  dict_get k (reload_fields r) = option_map reload_val (dict_get k r).
Proof.
  induction r as [|[k' v] rest IH]; simpl; [reflexivity|].
  destruct (String.eqb k k'); [reflexivity | exact IH].
Qed.

Lemma reload_fields_get_some (k : string) (r : record) (v : pyval) :
  dict_get k r = Some v -> reload_val v = v ->
  dict_get k (reload_fields r) = Some v.
Proof. intros Hget Hv. now rewrite reload_fields_get, Hget; simpl; rewrite Hv. Qed.

Lemma reload_fields_mem (k : string) (r : record) :
  dict_mem k (reload_fields r) = dict_mem k r.
Proof.
  unfold dict_mem. rewrite reload_fields_get. now destruct (dict_get k r).
Qed.

Lemma reload_record_fields (r : record) :
  NoDup (dict_keys r) -> reload_record r = reload_fields r.
Proof.
  intros Hnd. unfold reload_record. apply dict_of_pairs_nodup.
  now rewrite reload_fields_keys.
Qed.

Lemma eq_str_reload (v : pyval) (s : string) :
  eq_str (reload_val v) s = eq_str v s.
Proof. now destruct v. Qed.

Lemma is_null_reload (v : pyval) : is_null (reload_val v) = is_null v.
Proof. now destruct v. Qed.

Lemma bed_consistent_reload (r : record) :
  bed_consistent r -> bed_consistent (reload_fields r).
Proof.
  intros (status & patient_id & assigned_at & Hs & Hp & Ha & H1 & H2 & H3).
  exists (reload_val status), (reload_val patient_id), (reload_val assigned_at).
  rewrite !reload_fields_get, Hs, Hp, Ha, !eq_str_reload, !is_null_reload.
  repeat split; try reflexivity; try apply H1; try apply H2; apply H3.
Qed.

Lemma dated_reload (r : record) : dated r -> dated (reload_fields r).
Proof.
  intros (expiry & He). exists expiry. now apply reload_fields_get_some.
Qed.

Lemma flagged_reload (r : record) : flagged r -> flagged (reload_fields r).
Proof. unfold flagged. now rewrite reload_fields_mem. Qed.

Lemma all_good_reload P (c : collection) :
  (forall r, P r -> P (reload_fields r)) ->
  all_good P c -> all_good P (reload_collection c).
Proof.
  intros HP Hc x Hx. unfold reload_collection in Hx.
  apply dict_of_pairs_values in Hx. rewrite map_map in Hx. simpl in Hx.
  apply in_map_iff in Hx. destruct Hx as ([k r] & <- & Hin).
  assert (Hr : good P r).
  { apply Hc. unfold dict_values. apply in_map_iff. now exists (k, r). }
  simpl. destruct Hr as [Hnd Hr]. rewrite reload_record_fields by exact Hnd.
  split; [now rewrite reload_fields_keys | now apply HP].
Qed.

Lemma all_good_empty P : all_good P [].
Proof. intros r []. Qed.

Ltac distinct_keys := simpl; repeat constructor; simpl; intuition discriminate.

Lemma new_bed_good id bed_number bed_type ward now :
  good bed_consistent
       [("id", VInt id); ("bed_number", VStr bed_number);
        ("bed_type", VStr bed_type); ("status", VStr "available");
        ("ward", VStr ward); ("patient_id", VNone);
        ("assigned_at", VNone); ("created_at", VStr now)].
Proof.
  split; [distinct_keys|].
  exists (VStr "available"), VNone, VNone. simpl.
  repeat split; discriminate.
Qed.

Lemma occupy_good patient_id now bed :
  good bed_consistent bed -> good bed_consistent (occupy patient_id now bed).
Proof.
  intros [Hnd _]. split.
  - unfold occupy. now repeat apply dict_keys_set_nodup.
  - exists (VStr "occupied"), (val_of_key patient_id), (VStr now).
    split; [apply status_occupy|].
    split; [unfold occupy; rewrite dict_get_set_other by discriminate;
            apply dict_get_set_same|].
    split; [apply dict_get_set_same|].
    destruct patient_id; simpl; repeat split; reflexivity.
Qed.

Lemma vacate_good bed :
  good bed_consistent bed -> good bed_consistent (vacate bed).
Proof.
  intros [Hnd _]. split.
  - unfold vacate. now repeat apply dict_keys_set_nodup.
  - exists (VStr "available"), VNone, VNone.
    split; [apply status_vacate|].
    split; [unfold vacate; rewrite dict_get_set_other by discriminate;
            apply dict_get_set_same|].
    split; [apply dict_get_set_same|].
    simpl. repeat split; discriminate.
Qed.

Lemma new_medicine_good id name expiry_date quantity unit_price category
      minimum_stock_level now :
  good dated
       [("id", VInt id); ("name", VStr name);
        ("expiry_date", VStr expiry_date); ("quantity", VInt quantity);
        ("unit_price", VFloat unit_price); ("category", VStr category);
        ("minimum_stock_level", VInt minimum_stock_level);
        ("created_at", VStr now)].
Proof. split; [distinct_keys|]. now exists expiry_date. Qed.

Lemma restock_good new_quantity medicine :
  good dated medicine ->
  good dated (dict_set "quantity" (VInt new_quantity) medicine).
Proof.
  intros [Hnd [expiry_date He]]. split.
  - now apply dict_keys_set_nodup.
  - exists expiry_date. now rewrite dict_get_set_other by discriminate.
Qed.

Lemma new_patient_good id first_name last_name age gender phone email
      medical_history allergies now :
  good flagged
       [("id", VInt id); ("first_name", VStr first_name);
        ("last_name", VStr last_name); ("age", VInt age);
        ("gender", VStr gender); ("phone", VStr phone); ("email", VStr email);
        ("medical_history", VStr medical_history);
        ("allergies", VStr allergies); ("is_active", VBool true);
        ("created_at", VStr now)].
Proof. split; [distinct_keys|reflexivity]. Qed.

Lemma updated_patient_good kwargs patient :
  good flagged patient -> good flagged (apply_kwargs kwargs patient).
Proof.
  intros [Hnd Hflag]. split.
  - now rewrite apply_kwargs_keys.
  - unfold flagged. now rewrite apply_kwargs_mem.
Qed.

Lemma deleted_patient_good patient :
  good flagged patient ->
  good flagged (dict_set "is_active" (VBool false) patient).
Proof.
  intros [Hnd _]. split.
  - now apply dict_keys_set_nodup.
  - unfold flagged, dict_mem. now rewrite dict_get_set_same.
Qed.

Lemma well_kept_saved d t :
  document_ok d -> well_kept (mkSystem d (Contents (json_dump d)) t).
Proof. intros Hd. split; [exact Hd|]. exists d. now split. Qed.

Ltac record_solver :=
  first [ apply new_bed_good
        | apply new_medicine_good
        | apply new_patient_good
        | apply occupy_good; eapply all_good_get; eassumption
        | apply vacate_good; eapply all_good_get; eassumption
        | apply restock_good; eapply all_good_get; eassumption
        | apply updated_patient_good; eapply all_good_get; eassumption
        | apply deleted_patient_good; eapply all_good_get; eassumption ].

Ltac collection_solver :=
  first [ assumption | apply all_good_set; [assumption | record_solver] ].

Ltac document_solver :=
  unfold document_ok, beds_ok in *; simpl;
  split; [|split]; collection_solver.

Ltac kept_solver :=
  match goal with
  | Hs : well_kept _ |- _ =>
      first [ exact Hs
            | let Hbeds := fresh "Hbeds" in
              let Hmeds := fresh "Hmeds" in
              let Hpats := fresh "Hpats" in
              let Hfile := fresh "Hfile" in
              destruct Hs as [(Hbeds & Hmeds & Hpats) Hfile];
              unfold beds_ok in Hbeds;
              first [ apply well_kept_saved; document_solver
                    | split; [document_solver | exact Hfile] ] ]
  end.

Lemma register_user_kept u p r f l e ph now :
  preserves well_kept (register_user u p r f l e ph now).
Proof.
  intros s Hs. unfold register_user, get_next_id. exec; kept_solver.
Qed.

Lemma add_patient_kept f l a g ph e mh al now :
  preserves well_kept (add_patient f l a g ph e mh al now).
Proof.
  intros s Hs. unfold add_patient, get_next_id. exec; kept_solver.
Qed.

Lemma add_doctor_kept f l sp ph e sh li now :
  preserves well_kept (add_doctor f l sp ph e sh li now).
Proof.
  intros s Hs. unfold add_doctor, get_next_id. exec; kept_solver.
Qed.

Lemma add_bed_kept n t w now : preserves well_kept (add_bed n t w now).
Proof.
  intros s Hs. unfold add_bed, get_next_id. exec; kept_solver.
Qed.

Lemma add_medicine_kept n e q up c ms now :
  preserves well_kept (add_medicine n e q up c ms now).
Proof.
  intros s Hs. unfold add_medicine, get_next_id. exec; kept_solver.
Qed.

Lemma assign_bed_kept bed_id patient_id now :
  preserves well_kept (assign_bed bed_id patient_id now).
Proof.
  intros s Hs. unfold assign_bed. exec; kept_solver.
Qed.

Lemma release_bed_kept bed_id : preserves well_kept (release_bed bed_id).
Proof.
  intros s Hs. unfold release_bed. exec; kept_solver.
Qed.

Lemma update_patient_kept patient_id kwargs :
  preserves well_kept (update_patient patient_id kwargs).
Proof.
  intros s Hs. unfold update_patient. exec; kept_solver.
Qed.

Lemma delete_patient_kept patient_id :
  preserves well_kept (delete_patient patient_id).
Proof.
  intros s Hs. unfold delete_patient. exec; kept_solver.
Qed.

Lemma update_medicine_stock_kept medicine_id new_quantity :
  preserves well_kept (update_medicine_stock medicine_id new_quantity).
Proof.
  intros s Hs. unfold update_medicine_stock. exec; kept_solver.
Qed.

Lemma seed_sample_data_kept now : preserves well_kept (seed_sample_data now).
Proof.
  unfold seed_sample_data.
  repeat (apply preserves_bind;
          [first [apply register_user_kept | apply add_patient_kept
                 | apply add_doctor_kept | apply add_bed_kept
                 | apply add_medicine_kept]
          | intros _]).
  apply preserves_ret.
Qed.

Lemma call_kept op : preserves well_kept (call op).
Proof.
  destruct op; simpl; apply preserves_fmap;
    try apply register_user_kept; try apply add_patient_kept;
    try apply add_doctor_kept; try apply add_bed_kept;
    try apply add_medicine_kept; try apply seed_sample_data_kept;
    try apply assign_bed_kept; try apply release_bed_kept;
    try apply update_patient_kept; try apply delete_patient_kept;
    try apply update_medicine_stock_kept;
    intros s Hs; try exact Hs.
  - unfold save_data. simpl. kept_solver.
  - unfold get_next_id. exec; kept_solver.
  - unfold login_user. exec; kept_solver.
  - unfold update_doctor. exec; kept_solver.
Qed.

Lemma fresh_kept : well_kept fresh.
Proof.
  split; [|exact I]. split; [|split]; apply all_good_empty.
Qed.

Lemma restart_kept s s' : well_kept s -> restart s = Some s' -> well_kept s'.
Proof.
  intros [Hdoc Hfile]. unfold restart, init, load_data. revert Hfile.
  destruct (data_file s) as [| |j] eqn:Hf; intros Hfile.
  - intros [= <-]. split; [|exact I]. split; [|split]; apply all_good_empty.
  - intros [= <-]. split; [|exact I]. split; [|split]; apply all_good_empty.
  - destruct Hfile as (d & -> & Hd). rewrite json_round_trip.
    intros [= <-]. split.
    + destruct Hd as (Hbeds & Hmeds & Hpats).
      split; [|split]; apply all_good_reload;
        auto using bed_consistent_reload, dated_reload, flagged_reload.
    + exists d. now split.
Qed.

Lemma reachable_kept s : reachable s -> well_kept s.
Proof.
  induction 1 as [|op s Hreach IH|s s' Hreach IH Hrestart].
  - apply fresh_kept.
  - now apply call_kept.
  - now apply (restart_kept s).
Qed.

(** In every reachable state the medicines carry string expiry dates and
    the patients an [is_active] field: the side conditions of
    [get_expired_medicines] and [get_all_patients] returning. *)
Lemma reachable_medicines_dated s :
  reachable s ->
  forall m, In m (dict_values (medicines (data s))) ->
            exists expiry, dict_get "expiry_date" m = Some (VStr expiry).
Proof.
  intros Hreach m Hm.
  destruct (reachable_kept s Hreach) as [(_ & Hmeds & _) _].
  apply (Hmeds m Hm).
Qed.

Lemma reachable_patients_flagged s :
  reachable s ->
  forall p, In p (dict_values (patients (data s))) ->
            dict_mem "is_active" p = true.
Proof.
  intros Hreach p Hp.
  destruct (reachable_kept s Hreach) as [(_ & _ & Hpats) _].
  apply (Hpats p Hp).
Qed.

(** A restart after a save always finds a document to load. *)
Lemma restart_after_save s :
  exists s', restart (snd (save_data s)) = Some s' /\
             data s' = reload_document (data s).
Proof.
  unfold restart, init, load_data, save_data. cbn [snd data_file].
  rewrite json_round_trip. eexists. split; reflexivity.
Qed.

(** C4: in every state the store can reach, through any calls and any
    restarts, each bed has a status, a patient reference and an assignment
    time, and "status is occupied", "patient reference is not None" and
    "assignment time is not None" are equivalent two by two.  [add_bed],
    [assign_bed] and [release_bed] each keep this true of all beds. *)
Theorem bed_invariant_holds :
  forall s,
    reachable s ->
    (forall bed, In bed (dict_values (beds (data s))) -> bed_consistent bed) /\
    (forall bed_id bed,
        dict_get bed_id (beds (data s)) = Some bed -> bed_consistent bed) /\
    (forall bed_number bed_type ward now,
        beds_ok (data (snd (add_bed bed_number bed_type ward now s)))) /\
    (forall bed_id patient_id now,
        beds_ok (data (snd (assign_bed bed_id patient_id now s)))) /\
    (forall bed_id, beds_ok (data (snd (release_bed bed_id s)))).
Proof.
  intros s Hreach. pose proof (reachable_kept s Hreach) as Hs.
  assert (Hbeds : beds_ok (data s)) by apply Hs.
  split; [|split; [|split; [|split]]].
  - intros bed Hin. now apply Hbeds.
  - intros bed_id bed Hget. apply dict_get_values in Hget. now apply Hbeds.
  - intros. now apply add_bed_kept.
  - intros. now apply assign_bed_kept.
  - intros. now apply release_bed_kept.
Qed.

(** ** The round trip through the file *)

(** C1, evaluated where it fails: after [add_patient] on a new store the
    file holds the patient under the key "1".  A store loaded from that file
    finds nothing under the integer 1, so its [patients] differ from those
    that were saved, although [users] and [next_ids] come back as they
    were. *)
Theorem reload_changes_patient_keys :
  let s := snd (add_patient "Alice" "Johnson" 35 "Female" "" "" "" ""
                            "2025-01-01T09:00:00" fresh) in
  exists alice reloaded,
    load_data (data_file s) = Some reloaded /\
    dict_get (KInt 1) (patients (data s)) = Some alice /\
    dict_get (KInt 1) (patients reloaded) = None /\
    dict_get (KStr "1") (patients reloaded) = Some alice /\
    dict_keys (patients (data s)) = [KInt 1%Z] /\
    dict_keys (patients reloaded) = [KStr "1"] /\
    patients reloaded <> patients (data s) /\
    users reloaded = users (data s) /\
    next_ids reloaded = next_ids (data s).
Proof.
  simpl. eexists. eexists.
  split; [vm_compute; reflexivity|].
  repeat split; try reflexivity.
  vm_compute. discriminate.
Qed.

(** * Further properties of the methods *)

(** ** More on dictionaries *)

Lemma dict_set_same {K V : Type} `{Hashable K} (k : K) (v : V) d :
  dict_get k d = Some v -> dict_set k v d = d.
Proof.
  induction d as [|[k' v'] rest IH]; simpl; [discriminate|].
  destruct (key_eqb k k') eqn:E.
  - now intros [= ->].
  - intros Hget. now rewrite IH.
Qed.

Lemma dict_set_set {K V : Type} `{Hashable K} (k : K) (v w : V) d :
  dict_set k w (dict_set k v d) = dict_set k w d.
Proof.
  induction d as [|[k' v'] rest IH]; simpl.
  - now rewrite key_eqb_refl.
  - destruct (key_eqb k k') eqn:E; simpl; rewrite E; [reflexivity|].
    now rewrite IH.
Qed.

Lemma with_patients_same d : with_patients (patients d) d = d.
Proof. now destruct d. Qed.

Lemma with_beds_same d : with_beds (beds d) d = d.
Proof. now destruct d. Qed.

(** ** Registering, then logging in *)

(** X1: right after a successful [register_user], [login_user] with the same
    username and password succeeds and returns the record just stored, whose
    [password_hash] is the digest of the password; a password with another
    digest is refused. *)
Theorem register_then_login :
  forall s username password role first_name last_name email phone now r s',
    register_user username password role first_name last_name email phone
                  now s = (Returned r, s') ->
    success r = true ->
    exists user,
      get_user username s' = (Returned (Some user), s') /\
      dict_get "password_hash" user = Some (VStr (hash_password password)) /\
      dict_get "is_active" user = Some (VBool true) /\
      login_user username password s' =
        (Returned (done_with "Login successful" "user" (ARecord user)), s') /\
      (forall other,
          hash_password other <> hash_password password ->
          login_user username other s' = (Returned InvalidCredentials, s')).
Proof.
  intros s username password role first_name last_name email phone now r s'.
  unfold register_user, get_next_id. step_m.
  destruct (dict_mem (KStr username) (users (data s)));
    [intros [= <- _]; discriminate|].
  destruct (dict_get "user" (next_ids (data s))) as [user_id|];
    [|discriminate].
  simpl. intros [= <- <-] _.
  eexists. split; [|split; [|split; [|split]]].
  - unfold get_user. step_m. simpl. now rewrite dict_get_set_same.
  - reflexivity.
  - reflexivity.
  - unfold login_user, field. step_m. unfold dict_mem. simpl.
    rewrite dict_get_set_same. simpl. now rewrite String.eqb_refl.
  - intros other Hother. unfold login_user, field. step_m. unfold dict_mem.
    simpl. rewrite dict_get_set_same. simpl.
    apply String.eqb_neq in Hother. now rewrite Hother.
Qed.


(** ** Every outcome of assigning and releasing a bed *)

(** X2: [assign_bed] checks the bed first, then the patient, then the bed's
    status, and nothing else: an unknown bed answers [BedNotFound] even when
    the patient is unknown too, and a known patient is accepted whatever its
    record holds.  On success only the bed's [status], [patient_id] and
    [assigned_at] change. *)
Theorem assign_bed_cases :
  forall s bed_id patient_id now,
    (dict_get bed_id (beds (data s)) = None ->
     assign_bed bed_id patient_id now s = (Returned BedNotFound, s)) /\
    (forall bed,
        dict_get bed_id (beds (data s)) = Some bed ->
        dict_get patient_id (patients (data s)) = None ->
        assign_bed bed_id patient_id now s = (Returned PatientNotFound, s)) /\
    (forall bed patient status,
        dict_get bed_id (beds (data s)) = Some bed ->
        dict_get patient_id (patients (data s)) = Some patient ->
        dict_get "status" bed = Some status ->
        status <> VStr "available" ->
        assign_bed bed_id patient_id now s = (Returned BedNotAvailable, s)) /\
    (forall bed patient,
        dict_get bed_id (beds (data s)) = Some bed ->
        dict_get patient_id (patients (data s)) = Some patient ->
        dict_get "status" bed = Some (VStr "available") ->
        let bed' := occupy patient_id now bed in
        assign_bed bed_id patient_id now s =
          (Returned (done_with "Bed assigned successfully" "bed" (ARecord bed')),
           saved (with_beds (dict_set bed_id bed' (beds (data s))) (data s)) s)
        /\ dict_get "status" bed' = Some (VStr "occupied")
        /\ dict_get "patient_id" bed' = Some (val_of_key patient_id)
        /\ dict_get "assigned_at" bed' = Some (VStr now)
        /\ forall name, name <> "status" -> name <> "patient_id" ->
                        name <> "assigned_at" ->
                        dict_get name bed' = dict_get name bed).
Proof.
  intros s bed_id patient_id now. split; [|split; [|split]].
  - intros Hbed. mem_known Hbed.
    unfold assign_bed. step_m. now rewrite Hmem.
  - intros bed Hbed Hpat. mem_known Hbed. mem_known Hpat.
    unfold assign_bed. step_m. now rewrite Hmem, Hmem0.
  - intros bed patient status Hbed Hpat Hstatus Hne.
    mem_known Hbed. mem_known Hpat.
    unfold assign_bed, field. step_m.
    rewrite Hmem, Hmem0, Hbed, Hstatus. simpl.
    destruct (eq_str status "available") eqn:E; [|reflexivity].
    destruct status; try discriminate. simpl in E.
    apply String.eqb_eq in E. subst. contradiction.
  - intros bed patient Hbed Hpat Hstatus bed'.
    mem_known Hbed. mem_known Hpat.
    split; [|split; [|split; [|split]]].
    + unfold assign_bed, field. step_m.
      rewrite Hmem, Hmem0, Hbed, Hstatus. reflexivity.
    + apply status_occupy.
    + unfold bed', occupy. rewrite dict_get_set_other by discriminate.
      apply dict_get_set_same.
    + apply dict_get_set_same.
    + intros name H1 H2 H3. unfold bed', occupy.
      rewrite !dict_get_set_other by congruence. reflexivity.
Qed.

(** X3: [release_bed] answers [BedNotFound] for an unknown bed,
    [BedNotOccupied] for a bed whose status is anything but "occupied", and
    otherwise succeeds, sets the status to "available" and clears the
    patient reference and the assignment time, leaving the other fields, the
    other beds and the patients as they were. *)
Theorem release_bed_cases :
  forall s bed_id,
    (dict_get bed_id (beds (data s)) = None ->
     release_bed bed_id s = (Returned BedNotFound, s)) /\
    (forall bed status,
        dict_get bed_id (beds (data s)) = Some bed ->
        dict_get "status" bed = Some status ->
        status <> VStr "occupied" ->
        release_bed bed_id s = (Returned BedNotOccupied, s)) /\
    (forall bed,
        dict_get bed_id (beds (data s)) = Some bed ->
        dict_get "status" bed = Some (VStr "occupied") ->
        let bed' := vacate bed in
        let s' := snd (release_bed bed_id s) in
        release_bed bed_id s =
          (Returned (done_with "Bed released successfully" "bed" (ARecord bed')),
           saved (with_beds (dict_set bed_id bed' (beds (data s))) (data s)) s)
        /\ dict_get "status" bed' = Some (VStr "available")
        /\ dict_get "patient_id" bed' = Some VNone
        /\ dict_get "assigned_at" bed' = Some VNone
        /\ (forall name, name <> "status" -> name <> "patient_id" ->
                         name <> "assigned_at" ->
                         dict_get name bed' = dict_get name bed)
        /\ (forall other, other <> bed_id ->
                          dict_get other (beds (data s')) =
                          dict_get other (beds (data s)))
        /\ patients (data s') = patients (data s)).
Proof.
  intros s bed_id. split; [|split].
  - intros Hbed. mem_known Hbed.
    unfold release_bed. step_m. now rewrite Hmem.
  - intros bed status Hbed Hstatus Hne. mem_known Hbed.
    unfold release_bed, field. step_m. rewrite Hmem, Hbed, Hstatus. simpl.
    destruct (eq_str status "occupied") eqn:E; [|reflexivity].
    destruct status; try discriminate. simpl in E.
    apply String.eqb_eq in E. subst. contradiction.
  - intros bed Hbed Hstatus bed' s'. mem_known Hbed.
    assert (Hcall : release_bed bed_id s =
              (Returned (done_with "Bed released successfully" "bed"
                                   (ARecord bed')),
               saved (with_beds (dict_set bed_id bed' (beds (data s)))
                                (data s)) s)).
    { unfold release_bed, field. step_m. rewrite Hmem, Hbed, Hstatus.
      reflexivity. }
    split; [exact Hcall|].
    split; [apply status_vacate|].
    split; [unfold bed', vacate; rewrite dict_get_set_other by discriminate;
            apply dict_get_set_same|].
    split; [apply dict_get_set_same|].
    split; [intros name H1 H2 H3; unfold bed', vacate;
            rewrite !dict_get_set_other by congruence; reflexivity|].
    unfold s'. rewrite Hcall. simpl. split; [|reflexivity].
    intros other Hne. apply dict_get_set_other. congruence.
Qed.

(** X4: [assign_bed] looks neither at the patient's [is_active] flag nor at
    the beds the patient already holds: a bed that is available can be given
    to a patient that was just soft-deleted, and a patient that was just
    given one bed can be given any other available bed, after which both
    beds refer to this patient. *)
Theorem assign_bed_ignores_patient_state :
  forall s bed_id patient_id now bed,
    dict_get bed_id (beds (data s)) = Some bed ->
    dict_get "status" bed = Some (VStr "available") ->
    (forall patient,
        dict_get patient_id (patients (data s)) = Some patient ->
        let deleted := snd (delete_patient patient_id s) in
        is_active (dict_set "is_active" (VBool false) patient) = Returned false /\
        get_patient patient_id deleted =
          (Returned (Some (dict_set "is_active" (VBool false) patient)), deleted) /\
        fst (assign_bed bed_id patient_id now deleted) =
          Returned (done_with "Bed assigned successfully" "bed"
                              (ARecord (occupy patient_id now bed)))) /\
    (forall first_bed earlier r s1,
        first_bed <> bed_id ->
        assign_bed first_bed patient_id earlier s = (Returned r, s1) ->
        success r = true ->
        let s2 := snd (assign_bed bed_id patient_id now s1) in
        fst (assign_bed bed_id patient_id now s1) =
          Returned (done_with "Bed assigned successfully" "bed"
                              (ARecord (occupy patient_id now bed))) /\
        exists b1 b2,
          dict_get first_bed (beds (data s2)) = Some b1 /\
          dict_get bed_id (beds (data s2)) = Some b2 /\
          dict_get "patient_id" b1 = Some (val_of_key patient_id) /\
          dict_get "patient_id" b2 = Some (val_of_key patient_id) /\
          dict_get "status" b1 = Some (VStr "occupied") /\
          dict_get "status" b2 = Some (VStr "occupied")).
Proof.
  intros s bed_id patient_id now bed Hbed Hstatus. mem_known Hbed. split.
  - intros patient Hpat deleted. mem_known Hpat.
    assert (Hdel : deleted =
              saved (with_patients
                       (dict_set patient_id
                          (dict_set "is_active" (VBool false) patient)
                          (patients (data s))) (data s)) s).
    { unfold deleted, delete_patient. step_m. now rewrite Hmem0, Hpat. }
    split; [|split].
    + unfold is_active, field. now rewrite dict_get_set_same.
    + unfold get_patient. step_m. rewrite Hdel. simpl.
      now rewrite dict_get_set_same.
    + rewrite Hdel. unfold assign_bed, field. step_m. unfold dict_mem. simpl.
      rewrite Hbed, dict_get_set_same. simpl. now rewrite Hstatus.
  - intros first_bed earlier r s1 Hne Hcall Hok s2.
    destruct (assign_bed_success _ _ _ _ _ _ Hcall Hok)
      as (bed1 & Hbed1 & Hp & Hst1 & -> & Hs1).
    assert (Hbed' : dict_get bed_id (beds (data s1)) = Some bed).
    { rewrite Hs1. simpl. now rewrite dict_get_set_other. }
    assert (Hp' : dict_mem patient_id (patients (data s1)) = true).
    { rewrite Hs1. exact Hp. }
    assert (Hsecond : assign_bed bed_id patient_id now s1 =
              (Returned (done_with "Bed assigned successfully" "bed"
                                   (ARecord (occupy patient_id now bed))),
               saved (with_beds (dict_set bed_id (occupy patient_id now bed)
                                          (beds (data s1))) (data s1)) s1)).
    { unfold assign_bed, field. step_m. unfold dict_mem at 1.
      rewrite Hbed', Hp', Hstatus. reflexivity. }
    split; [now rewrite Hsecond|].
    exists (occupy patient_id earlier bed1), (occupy patient_id now bed).
    unfold s2. rewrite Hsecond. simpl.
    split.
    { rewrite dict_get_set_other by congruence.
      rewrite Hs1. simpl. apply dict_get_set_same. }
    split; [apply dict_get_set_same|].
    split; [unfold occupy; rewrite dict_get_set_other by discriminate;
            apply dict_get_set_same|].
    split; [unfold occupy; rewrite dict_get_set_other by discriminate;
            apply dict_get_set_same|].
    split; apply status_occupy.
Qed.


(** ** Reading never writes, succeeding always does *)

(** X5: the methods that only look ([login_user], the [get_*] lookups and
    listings, [get_expired_medicines]) leave the instance exactly as it was,
    whether they return or raise. *)
Theorem read_only_calls_change_nothing :
  forall op s, read_only op = true -> snd (call op s) = s.
Proof.
  intros op s Hro. destruct op; try discriminate Hro; simpl;
    unfold fmap, login_user, get_user, get_patient, get_all_patients,
      get_doctor, get_all_doctors, get_bed, get_all_beds, get_medicine,
      get_all_medicines, get_expired_medicines;
    exec; reflexivity.
Qed.

(** X6: the other way round from a failure, a reply with [success = True]
    from any method that changes the store means the file was written
    exactly once, last of all, and holds the document now in memory. *)
Theorem success_is_saved :
  forall op s r s',
    call op s = (Returned (RReply r), s') ->
    success r = true ->
    read_only op = false ->
    data_file s' = Contents (json_dump (data s')) /\
    writes s' = S (writes s) /\
    hd_error (trace s') = Some (Written (json_dump (data s'))).
Proof.
  intros op s r s'.
  destruct op; simpl; unfold fmap;
    try (intros _ _ Hro; discriminate Hro);
    unfold register_user, add_patient, update_patient, delete_patient,
      add_doctor, update_doctor, add_bed, assign_bed, release_bed,
      add_medicine, update_medicine_stock, get_next_id, seed_sample_data;
    try (step_m;
         match goal with
         | |- context [match ?m s with _ => _ end] =>
             destruct (m s) as [[a|e] s1]
         end; discriminate);
    exec; intros Hcall Hok _;
    try discriminate Hcall;
    injection Hcall as <- <-; try discriminate Hok;
    repeat split.
Qed.


(** ** Deleting twice, undoing a delete, updating nothing *)

Lemma delete_patient_present s patient_id patient :
  dict_get patient_id (patients (data s)) = Some patient ->
  delete_patient patient_id s =
    (Returned (done "Patient deleted successfully"),
     saved (with_patients
              (dict_set patient_id (dict_set "is_active" (VBool false) patient)
                        (patients (data s))) (data s)) s).
Proof.
  intros Hget. mem_known Hget.
  unfold delete_patient. step_m. now rewrite Hmem, Hget.
Qed.

Lemma update_patient_present s patient_id kwargs patient :
  bound_twice ["self"; "patient_id"] kwargs = false ->
  dict_get patient_id (patients (data s)) = Some patient ->
  update_patient patient_id kwargs s =
    (Returned (done_with "Patient updated successfully" "patient"
                         (ARecord (apply_kwargs kwargs patient))),
     saved (with_patients
              (dict_set patient_id (apply_kwargs kwargs patient)
                        (patients (data s))) (data s)) s).
Proof.
  intros Hkw Hget. mem_known Hget.
  unfold update_patient. step_m. now rewrite Hkw, Hmem, Hget.
Qed.

(** X7: deleting a patient a second time succeeds again and writes the file
    again, but the document and the file's contents stay what the first
    delete made them. *)
Theorem delete_patient_twice :
  forall s patient_id patient,
    dict_get patient_id (patients (data s)) = Some patient ->
    let s1 := snd (delete_patient patient_id s) in
    let s2 := snd (delete_patient patient_id s1) in
    fst (delete_patient patient_id s1) =
      Returned (done "Patient deleted successfully") /\
    data s2 = data s1 /\
    data_file s2 = data_file s1 /\
    writes s2 = S (writes s1).
Proof.
  intros s patient_id patient Hget s1 s2.
  pose proof (delete_patient_present s patient_id patient Hget) as H1.
  assert (Hs1 : s1 = saved (with_patients
                              (dict_set patient_id
                                 (dict_set "is_active" (VBool false) patient)
                                 (patients (data s))) (data s)) s).
  { unfold s1. now rewrite H1. }
  assert (Hget1 : dict_get patient_id (patients (data s1)) =
                  Some (dict_set "is_active" (VBool false) patient)).
  { rewrite Hs1. simpl. apply dict_get_set_same. }
  pose proof (delete_patient_present s1 patient_id _ Hget1) as H2.
  assert (Hdata : data s2 = data s1).
  { unfold s2. rewrite H2. simpl.
    rewrite dict_set_set, dict_set_same by exact Hget1.
    apply with_patients_same. }
  split; [now rewrite H2|].
  split; [exact Hdata|].
  split.
  - unfold s2. rewrite H2. simpl. fold s2.
    rewrite dict_set_set, dict_set_same by exact Hget1.
    rewrite with_patients_same. rewrite Hs1. reflexivity.
  - unfold s2. rewrite H2. reflexivity.
Qed.

(** X8: a soft delete is undone by [update_patient(id, is_active=True)]:
    for a patient that was active, delete followed by this update gives back
    the document as it was before the delete. *)
Theorem update_undoes_delete :
  forall s patient_id patient,
    dict_get patient_id (patients (data s)) = Some patient ->
    dict_get "is_active" patient = Some (VBool true) ->
    let s1 := snd (delete_patient patient_id s) in
    let s2 := snd (update_patient patient_id [("is_active", VBool true)] s1) in
    fst (update_patient patient_id [("is_active", VBool true)] s1) =
      Returned (done_with "Patient updated successfully" "patient"
                          (ARecord patient)) /\
    data s2 = data s /\
    get_patient patient_id s2 = (Returned (Some patient), s2).
Proof.
  intros s patient_id patient Hget Hactive s1 s2.
  pose proof (delete_patient_present s patient_id patient Hget) as H1.
  assert (Hs1 : s1 = saved (with_patients
                              (dict_set patient_id
                                 (dict_set "is_active" (VBool false) patient)
                                 (patients (data s))) (data s)) s).
  { unfold s1. now rewrite H1. }
  assert (Hget1 : dict_get patient_id (patients (data s1)) =
                  Some (dict_set "is_active" (VBool false) patient)).
  { rewrite Hs1. simpl. apply dict_get_set_same. }
  clearbody s1.
  assert (Hback : apply_kwargs [("is_active", VBool true)]
                    (dict_set "is_active" (VBool false) patient) = patient).
  { unfold apply_kwargs. simpl. unfold dict_mem.
    rewrite dict_get_set_same. simpl.
    rewrite dict_set_set. now apply dict_set_same. }
  pose proof (update_patient_present s1 patient_id
                [("is_active", VBool true)] _ eq_refl Hget1) as H2.
  rewrite Hback in H2.
  assert (Hdata : data s2 = data s).
  { unfold s2. rewrite H2. simpl. rewrite Hs1. simpl.
    rewrite dict_set_set, dict_set_same by exact Hget.
    now destruct (data s). }
  split; [now rewrite H2|].
  split; [exact Hdata|].
  unfold get_patient. step_m. now rewrite Hdata, Hget.
Qed.

Lemma apply_kwargs_ignored kwargs r :
  (forall key, In key (dict_keys kwargs) ->
               protected key = true \/ dict_mem key r = false) ->
  apply_kwargs kwargs r = r.
Proof.
  unfold apply_kwargs. induction kwargs as [|[k v] kwargs IH]; intros Hall;
    simpl; [reflexivity|].
  assert (Hk : dict_mem k r && negb (protected k) = false).
  { destruct (Hall k (or_introl eq_refl)) as [-> | ->];
      [apply andb_false_r | reflexivity]. }
  rewrite Hk. apply IH. intros key Hin. apply Hall. now right.
Qed.

(** X9: an update that names no field of the record other than [id] and
    [created_at] (in particular one with no fields at all) answers success,
    leaves the document as it was, and still rewrites the file. *)
Theorem update_patient_with_nothing_to_change :
  forall s patient_id kwargs patient,
    bound_twice ["self"; "patient_id"] kwargs = false ->
    dict_get patient_id (patients (data s)) = Some patient ->
    (forall key, In key (dict_keys kwargs) ->
                 key = "id" \/ key = "created_at" \/
                 dict_get key patient = None) ->
    let s' := snd (update_patient patient_id kwargs s) in
    fst (update_patient patient_id kwargs s) =
      Returned (done_with "Patient updated successfully" "patient"
                          (ARecord patient)) /\
    data s' = data s /\
    data_file s' = Contents (json_dump (data s)) /\
    writes s' = S (writes s).
Proof.
  intros s patient_id kwargs patient Hkw Hget Hall s'.
  assert (Hsame : apply_kwargs kwargs patient = patient).
  { apply apply_kwargs_ignored. intros key Hin.
    destruct (Hall key Hin) as [-> | [-> | Hnone]].
    - now left.
    - now left.
    - right. unfold dict_mem. now rewrite Hnone. }
  pose proof (update_patient_present s patient_id kwargs patient Hkw Hget) as H.
  rewrite Hsame in H.
  assert (Hdoc : with_patients (dict_set patient_id patient (patients (data s)))
                               (data s) = data s).
  { rewrite dict_set_same by exact Hget. apply with_patients_same. }
  unfold s'. rewrite H. simpl. rewrite Hdoc. repeat split.
Qed.


(** ** Stock levels *)

Lemma py_le_int (x y : Z) : py_le (VInt x) (VInt y) = Returned (x <=? y)%Z.
Proof. unfold py_le, number_le. simpl. now rewrite !Z.mul_1_r. Qed.

Lemma low_stock_counted m :
  counted m -> low_stock m = Returned (is_low m).
Proof.
  intros (q & l & Hq & Hl). unfold low_stock, is_low, field.
  rewrite Hq, Hl. apply py_le_int.
Qed.

(** X10: when every medicine has an integer quantity and an integer minimum
    stock level, [get_low_stock_medicines] returns, in the store's order,
    exactly the medicines whose quantity is at most their own minimum stock
    level (equality included), and changes nothing. *)
Theorem low_stock_medicines_exact :
  forall s,
    (forall m, In m (dict_values (medicines (data s))) -> counted m) ->
    exists low,
      get_low_stock_medicines s = (Returned low, s) /\
      low = filter is_low (dict_values (medicines (data s))) /\
      forall m, In m low <->
                In m (dict_values (medicines (data s))) /\
                exists quantity level,
                  dict_get "quantity" m = Some (VInt quantity) /\
                  dict_get "minimum_stock_level" m = Some (VInt level) /\
                  (quantity <= level)%Z.
Proof.
  intros s Hwf. exists (filter is_low (dict_values (medicines (data s)))).
  split; [|split; [reflexivity|]].
  - unfold get_low_stock_medicines. step_m.
    rewrite (comprehension_filter _ is_low); [reflexivity|].
    intros m Hm. now apply low_stock_counted, Hwf.
  - intros m. rewrite filter_In. split.
    + intros [Hin Hlow]. split; [exact Hin|].
      destruct (Hwf m Hin) as (q & l & Hq & Hl).
      exists q, l. unfold is_low in Hlow. rewrite Hq, Hl in Hlow.
      apply Z.leb_le in Hlow. auto.
    + intros [Hin (q & l & Hq & Hl & Hle)]. split; [exact Hin|].
      unfold is_low. rewrite Hq, Hl. now apply Z.leb_le.
Qed.

(** X11: [update_medicine_stock] checks the medicine and nothing about the
    quantity.  On a stored medicine, when the document it builds is one
    [json.dump] can write (no [int] of more than 4300 digits in it, the new
    quantity included), it succeeds and overwrites the quantity with the
    integer it is given, negative or not, and touches neither the other
    fields nor the other medicines.  When the stock levels are integers, the
    medicine is on the low-stock list right afterwards exactly when the new
    quantity is at most its minimum stock level. *)
Theorem update_medicine_stock_effect :
  forall s medicine_id new_quantity medicine,
    dict_get medicine_id (medicines (data s)) = Some medicine ->
    writable (data (snd (update_medicine_stock medicine_id new_quantity s)))
    = true ->
    let medicine' := dict_set "quantity" (VInt new_quantity) medicine in
    let s' := snd (update_medicine_stock medicine_id new_quantity s) in
    fst (update_medicine_stock medicine_id new_quantity s) =
      Returned (done "Medicine stock updated successfully") /\
    get_medicine medicine_id s' = (Returned (Some medicine'), s') /\
    dict_get "quantity" medicine' = Some (VInt new_quantity) /\
    (forall name, name <> "quantity" ->
                  dict_get name medicine' = dict_get name medicine) /\
    (forall other, other <> medicine_id ->
                   dict_get other (medicines (data s')) =
                   dict_get other (medicines (data s))) /\
    (forall level,
        dict_get "minimum_stock_level" medicine = Some (VInt level) ->
        (forall m, In m (dict_values (medicines (data s))) -> counted m) ->
        exists low,
          get_low_stock_medicines s' = (Returned low, s') /\
          (In medicine' low <-> (new_quantity <= level)%Z)).
Proof.
  intros s medicine_id q medicine Hget _ medicine' s'. mem_known Hget.
  assert (Hcall : update_medicine_stock medicine_id q s =
            (Returned (done "Medicine stock updated successfully"),
             saved (with_medicines
                      (dict_set medicine_id medicine' (medicines (data s)))
                      (data s)) s)).
  { unfold update_medicine_stock. step_m. now rewrite Hmem, Hget. }
  assert (Hstored : dict_get medicine_id (medicines (data s')) = Some medicine').
  { unfold s'. rewrite Hcall. simpl. apply dict_get_set_same. }
  assert (Hq : dict_get "quantity" medicine' = Some (VInt q))
    by apply dict_get_set_same.
  split; [now rewrite Hcall|].
  split; [unfold get_medicine; step_m; now rewrite Hstored|].
  split; [exact Hq|].
  split; [intros name Hne; apply dict_get_set_other; congruence|].
  split.
  { intros other Hne. unfold s'. rewrite Hcall. simpl.
    apply dict_get_set_other. congruence. }
  intros level Hlevel Hwf.
  assert (Hl : dict_get "minimum_stock_level" medicine' = Some (VInt level)).
  { unfold medicine'. now rewrite dict_get_set_other by discriminate. }
  assert (Hwf' : forall m, In m (dict_values (medicines (data s'))) ->
                           counted m).
  { intros m Hm. unfold s' in Hm. rewrite Hcall in Hm. simpl in Hm.
    apply dict_values_set in Hm. destruct Hm as [->|Hm]; [|now apply Hwf].
    now exists q, level. }
  exists (filter is_low (dict_values (medicines (data s')))). split.
  - unfold get_low_stock_medicines. step_m.
    rewrite (comprehension_filter _ is_low); [reflexivity|].
    intros m Hm. now apply low_stock_counted, Hwf'.
  - rewrite filter_In. unfold is_low at 1. rewrite Hq, Hl, Z.leb_le.
    split; [tauto|]. intros Hle. split; [|exact Hle].
    now apply dict_get_values in Hstored.
Qed.


(** ** Numbered collections *)

Lemma str_of_int_inj (a b : Z) : str_of_int a = str_of_int b -> a = b.
Proof.
  unfold str_of_int. intros Heq.
  assert (Hparse : forall z, NilZero.int_of_string
                               (NilZero.string_of_int (Z.to_int z))
                             = Some (Z.to_int z)).
  { intros z. apply NilZero.isi; destruct z; simpl; try discriminate;
      intros [= Hnil];
      now apply Stdlib.Numbers.DecimalPos.Unsigned.to_uint_nonnil in Hnil. }
  pose proof (Hparse a) as Ha. rewrite Heq, Hparse in Ha.
  injection Ha as Ha.
  rewrite <- (Stdlib.Numbers.DecimalZ.of_to a),
          <- (Stdlib.Numbers.DecimalZ.of_to b).
  now rewrite Ha.
Qed.

Lemma dict_get_in {K V : Type} `{Hashable K} (k : K) (v : V) d :
  dict_get k d = Some v -> In (k, v) d.
Proof.
  induction d as [|[k' v'] rest IH]; simpl; [discriminate|].
  destruct (key_eqb k k') eqn:E.
  - apply key_eqb_eq in E. subst k'. intros [= ->]. now left.
  - intros Hget. right. now apply IH.
Qed.

Lemma dict_get_none_keys {K V : Type} `{Hashable K} (k : K) (d : dict K V) :
  dict_get k d = None <-> ~ In k (dict_keys d).
Proof.
  unfold dict_keys. induction d as [|[k' v'] rest IH]; simpl.
  - split; [intros _ [] | reflexivity].
  - destruct (key_eqb k k') eqn:E.
    + apply key_eqb_eq in E. subst k'. split; [discriminate|].
      intros Hnot. exfalso. apply Hnot. now left.
    + rewrite IH. split.
      * intros Hnot [->|Hin]; [|contradiction].
        rewrite key_eqb_refl in E. discriminate.
      * intros Hnot Hin. apply Hnot. now right.
Qed.

Lemma dict_set_in {K V : Type} `{Hashable K} (k k' : K) (v v' : V) d :
  In (k', v') (dict_set k v d) -> In (k', v') d \/ (k' = k /\ v' = v).
Proof.
  induction d as [|[k0 v0] rest IH]; simpl.
  - intros [[= <- <-]|[]]. now right.
  - destruct (key_eqb k k0) eqn:E; simpl.
    + apply key_eqb_eq in E. subst k0.
      intros [[= <- <-]|Hin]; [now right | left; now right].
    + intros [Heq|Hin]; [left; now left|].
      destruct (IH Hin) as [Hold|Hnew]; [left; now right | now right].
Qed.

Lemma in_keys {K V : Type} (k : K) (v : V) (d : dict K V) :
  In (k, v) d -> In k (dict_keys d).
Proof. intros Hin. unfold dict_keys. apply in_map_iff. now exists (k, v). Qed.

Lemma table_ok_bump P kind c counters kind' z :
  table_ok P kind c counters ->
  dict_get kind' counters = Some z ->
  table_ok P kind c (dict_set kind' (z + 1)%Z counters).
Proof.
  intros (next & Hnext & Hpos & Hnd & Hall) Hz.
  destruct (String.eqb kind' kind) eqn:E.
  - apply String.eqb_eq in E. subst kind'.
    rewrite Hnext in Hz. injection Hz as <-.
    exists (next + 1)%Z. split; [apply dict_get_set_same|].
    split; [lia|]. split; [exact Hnd|].
    intros k r Hin. destruct (Hall k r Hin) as (Hr & HP & id & Hk & Hid & Hf).
    split; [exact Hr|]. split; [exact HP|].
    exists id. repeat split; try assumption; lia.
  - exists next. split; [|split; [exact Hpos|split; [exact Hnd|exact Hall]]].
    rewrite dict_get_set_other; [exact Hnext|].
    intros ->. rewrite String.eqb_refl in E. discriminate.
Qed.

Lemma users_ok_bump c counters kind' z :
  users_ok c counters ->
  dict_get kind' counters = Some z ->
  users_ok c (dict_set kind' (z + 1)%Z counters).
Proof.
  intros (next & Hnext & Hpos & Hnd & Hall) Hz.
  destruct (String.eqb kind' "user") eqn:E.
  - apply String.eqb_eq in E. subst kind'.
    rewrite Hnext in Hz. injection Hz as <-.
    exists (next + 1)%Z. split; [apply dict_get_set_same|].
    split; [lia|]. split; [exact Hnd|].
    intros k r Hin. destruct (Hall k r Hin) as (Hr & Hu & id & Hid & Hf).
    split; [exact Hr|]. split; [exact Hu|].
    exists id. split; [lia | exact Hf].
  - exists next. split; [|split; [exact Hpos|split; [exact Hnd|exact Hall]]].
    rewrite dict_get_set_other; [exact Hnext|].
    intros ->. rewrite String.eqb_refl in E. discriminate.
Qed.

(** The key of a new record is new, also as the file writes it. *)
Lemma table_ok_fresh_key P kind c counters next :
  table_ok P kind c counters ->
  dict_get kind counters = Some next ->
  ~ In (str_of_int next) (map json_key (dict_keys c)).
Proof.
  intros (next' & Hnext & _ & Hnd & Hall) Hz. rewrite Hnext in Hz.
  injection Hz as ->. intros Hin.
  apply in_map_iff in Hin. destruct Hin as (k & Hk & Hin).
  unfold dict_keys in Hin. apply in_map_iff in Hin.
  destruct Hin as ([k' r] & <- & Hin). simpl in Hk.
  destruct (Hall k' r Hin) as (_ & _ & id & Hid & Hrange & _).
  rewrite Hid in Hk. apply str_of_int_inj in Hk. lia.
Qed.

Lemma table_ok_add P kind c counters next r :
  table_ok P kind c counters ->
  dict_get kind counters = Some next ->
  NoDup (dict_keys r) -> P r -> dict_get "id" r = Some (VInt next) ->
  table_ok P kind (dict_set (KInt next) r c)
           (dict_set kind (next + 1)%Z counters) /\
  dict_set (KInt next) r c = c ++ [(KInt next, r)].
Proof.
  intros Hc Hz Hr HP Hid.
  pose proof (table_ok_fresh_key P kind c counters next Hc Hz) as Hfresh.
  assert (Hnew : ~ In (KInt next) (dict_keys c)).
  { intros Hin. apply Hfresh. apply in_map_iff. now exists (KInt next). }
  assert (Happ : dict_set (KInt next) r c = c ++ [(KInt next, r)])
    by now apply dict_set_fresh.
  split; [|exact Happ].
  destruct Hc as (next' & Hnext & Hpos & Hnd & Hall).
  rewrite Hnext in Hz. injection Hz as ->.
  exists (next + 1)%Z. split; [apply dict_get_set_same|].
  split; [lia|]. rewrite Happ. split.
  - unfold dict_keys. rewrite map_app, map_app. simpl.
    apply NoDup_app; [exact Hnd| |].
    + repeat constructor. intros [].
    + intros x Hx [<-|[]]. now apply Hfresh.
  - intros k r' Hin. apply in_app_or in Hin. destruct Hin as [Hin|[[= <- <-]|[]]].
    + destruct (Hall k r' Hin) as (H1 & H2 & id & H3 & H4 & H5).
      split; [exact H1|]. split; [exact H2|].
      exists id. repeat split; try assumption; lia.
    + split; [exact Hr|]. split; [exact HP|].
      exists next. repeat split; try assumption; lia.
Qed.

Lemma table_ok_update P kind c counters k r r' :
  table_ok P kind c counters ->
  dict_get k c = Some r ->
  NoDup (dict_keys r') -> P r' -> dict_get "id" r' = dict_get "id" r ->
  table_ok P kind (dict_set k r' c) counters.
Proof.
  intros (next & Hnext & Hpos & Hnd & Hall) Hget Hr' HP' Hid.
  assert (Hmem : dict_mem k c = true) by (unfold dict_mem; now rewrite Hget).
  exists next. split; [exact Hnext|]. split; [exact Hpos|].
  rewrite dict_keys_set_present by exact Hmem. split; [exact Hnd|].
  intros k0 r0 Hin. apply dict_set_in in Hin.
  destruct Hin as [Hin|[-> ->]]; [now apply Hall|].
  apply dict_get_in in Hget.
  destruct (Hall k r Hget) as (_ & _ & id & H3 & H4 & H5).
  split; [exact Hr'|]. split; [exact HP'|].
  exists id. split; [exact H3|]. split; [exact H4|]. now rewrite Hid.
Qed.

Lemma users_ok_add c counters next username r :
  users_ok c counters ->
  dict_get "user" counters = Some next ->
  dict_mem (KStr username) c = false ->
  NoDup (dict_keys r) ->
  dict_get "username" r = Some (VStr username) ->
  dict_get "id" r = Some (VInt next) ->
  users_ok (dict_set (KStr username) r c)
           (dict_set "user" (next + 1)%Z counters).
Proof.
  intros (next' & Hnext & Hpos & Hnd & Hall) Hz Hmem Hr Hu Hid.
  rewrite Hnext in Hz. injection Hz as ->.
  exists (next + 1)%Z. split; [apply dict_get_set_same|].
  split; [lia|]. split; [now apply dict_keys_set_nodup|].
  intros k r' Hin. apply dict_set_in in Hin.
  destruct Hin as [Hin|[-> ->]].
  - destruct (Hall k r' Hin) as (H1 & H2 & id & H3 & H4).
    split; [exact H1|]. split; [exact H2|].
    exists id. split; [lia | exact H4].
  - split; [exact Hr|]. split; [now exists username|].
    exists next. split; [lia | exact Hid].
Qed.


(** ** Sound documents *)

Lemma sound_bump d kind z :
  sound d -> dict_get kind (next_ids d) = Some z ->
  sound (with_next_ids (dict_set kind (z + 1)%Z (next_ids d)) d).
Proof.
  intros (Hc & Hu & Hp & Hd & Hb & Hm) Hz. unfold sound. simpl.
  split; [now apply dict_keys_set_nodup|].
  split; [now apply users_ok_bump|].
  repeat split; now apply table_ok_bump.
Qed.

Lemma sound_register d z username r :
  sound d -> dict_get "user" (next_ids d) = Some z ->
  dict_mem (KStr username) (users d) = false ->
  NoDup (dict_keys r) ->
  dict_get "username" r = Some (VStr username) ->
  dict_get "id" r = Some (VInt z) ->
  sound (with_users (dict_set (KStr username) r (users d))
           (with_next_ids (dict_set "user" (z + 1)%Z (next_ids d)) d)).
Proof.
  intros (Hc & Hu & Hp & Hd & Hb & Hm) Hz Hnew Hr Hname Hid.
  unfold sound. simpl.
  split; [now apply dict_keys_set_nodup|].
  split; [now apply users_ok_add|].
  repeat split; now apply table_ok_bump.
Qed.

Lemma sound_add_patient d z r :
  sound d -> dict_get "patient" (next_ids d) = Some z ->
  NoDup (dict_keys r) -> flagged r -> dict_get "id" r = Some (VInt z) ->
  sound (with_patients (dict_set (KInt z) r (patients d))
           (with_next_ids (dict_set "patient" (z + 1)%Z (next_ids d)) d)).
Proof.
  intros (Hc & Hu & Hp & Hd & Hb & Hm) Hz Hr HP Hid. unfold sound. simpl.
  split; [now apply dict_keys_set_nodup|].
  split; [now apply users_ok_bump|].
  split; [now apply table_ok_add|].
  repeat split; now apply table_ok_bump.
Qed.

Lemma sound_add_doctor d z r :
  sound d -> dict_get "doctor" (next_ids d) = Some z ->
  NoDup (dict_keys r) -> dict_get "id" r = Some (VInt z) ->
  sound (with_doctors (dict_set (KInt z) r (doctors d))
           (with_next_ids (dict_set "doctor" (z + 1)%Z (next_ids d)) d)).
Proof.
  intros (Hc & Hu & Hp & Hd & Hb & Hm) Hz Hr Hid. unfold sound. simpl.
  split; [now apply dict_keys_set_nodup|].
  split; [now apply users_ok_bump|].
  split; [now apply table_ok_bump|].
  split; [now apply table_ok_add|].
  repeat split; now apply table_ok_bump.
Qed.

Lemma sound_add_bed d z r :
  sound d -> dict_get "bed" (next_ids d) = Some z ->
  NoDup (dict_keys r) -> bed_sound r -> dict_get "id" r = Some (VInt z) ->
  sound (with_beds (dict_set (KInt z) r (beds d))
           (with_next_ids (dict_set "bed" (z + 1)%Z (next_ids d)) d)).
Proof.
  intros (Hc & Hu & Hp & Hd & Hb & Hm) Hz Hr HP Hid. unfold sound. simpl.
  split; [now apply dict_keys_set_nodup|].
  split; [now apply users_ok_bump|].
  split; [now apply table_ok_bump|].
  split; [now apply table_ok_bump|].
  split; [now apply table_ok_add|].
  now apply table_ok_bump.
Qed.

Lemma sound_add_medicine d z r :
  sound d -> dict_get "medicine" (next_ids d) = Some z ->
  NoDup (dict_keys r) -> medicine_sound r -> dict_get "id" r = Some (VInt z) ->
  sound (with_medicines (dict_set (KInt z) r (medicines d))
           (with_next_ids (dict_set "medicine" (z + 1)%Z (next_ids d)) d)).
Proof.
  intros (Hc & Hu & Hp & Hd & Hb & Hm) Hz Hr HP Hid. unfold sound. simpl.
  split; [now apply dict_keys_set_nodup|].
  split; [now apply users_ok_bump|].
  split; [now apply table_ok_bump|].
  split; [now apply table_ok_bump|].
  split; [now apply table_ok_bump|].
  now apply table_ok_add.
Qed.

Lemma table_entry P kind c counters k r :
  table_ok P kind c counters -> dict_get k c = Some r ->
  NoDup (dict_keys r) /\ P r.
Proof.
  intros (next & _ & _ & _ & Hall) Hget. apply dict_get_in in Hget.
  destruct (Hall k r Hget) as (H1 & H2 & _). now split.
Qed.

Lemma sound_update_patient d k r kwargs :
  sound d -> dict_get k (patients d) = Some r ->
  sound (with_patients (dict_set k (apply_kwargs kwargs r) (patients d)) d).
Proof.
  intros (Hc & Hu & Hp & Hd & Hb & Hm) Hget.
  destruct (table_entry _ _ _ _ _ _ Hp Hget) as [Hr HP].
  unfold sound. simpl. repeat split; try assumption.
  apply (table_ok_update _ _ _ _ k r); try assumption.
  - now rewrite apply_kwargs_keys.
  - unfold flagged. now rewrite apply_kwargs_mem.
  - now destruct (apply_kwargs_partial_update kwargs r) as (_ & Hid & _).
Qed.

Lemma sound_delete_patient d k r :
  sound d -> dict_get k (patients d) = Some r ->
  sound (with_patients
           (dict_set k (dict_set "is_active" (VBool false) r) (patients d)) d).
Proof.
  intros (Hc & Hu & Hp & Hd & Hb & Hm) Hget.
  destruct (table_entry _ _ _ _ _ _ Hp Hget) as [Hr HP].
  unfold sound. simpl. repeat split; try assumption.
  apply (table_ok_update _ _ _ _ k r); try assumption.
  - now apply dict_keys_set_nodup.
  - unfold flagged, dict_mem. now rewrite dict_get_set_same.
  - now rewrite dict_get_set_other by discriminate.
Qed.

Lemma sound_update_doctor d k r kwargs :
  sound d -> dict_get k (doctors d) = Some r ->
  sound (with_doctors (dict_set k (apply_kwargs kwargs r) (doctors d)) d).
Proof.
  intros (Hc & Hu & Hp & Hd & Hb & Hm) Hget.
  destruct (table_entry _ _ _ _ _ _ Hd Hget) as [Hr HP].
  unfold sound. simpl. repeat split; try assumption.
  apply (table_ok_update _ _ _ _ k r); try assumption.
  - now rewrite apply_kwargs_keys.
  - now destruct (apply_kwargs_partial_update kwargs r) as (_ & Hid & _).
Qed.

Lemma sound_assign d k r patient_id now :
  sound d -> dict_get k (beds d) = Some r ->
  sound (with_beds (dict_set k (occupy patient_id now r) (beds d)) d).
Proof.
  intros (Hc & Hu & Hp & Hd & Hb & Hm) Hget.
  destruct (table_entry _ _ _ _ _ _ Hb Hget) as [Hr [HP _]].
  destruct (occupy_good patient_id now r (conj Hr HP)) as [Hr' HP'].
  unfold sound. simpl. repeat split; try assumption.
  apply (table_ok_update _ _ _ _ k r); try assumption.
  - split; [exact HP'|]. right. apply status_occupy.
  - unfold occupy. now rewrite !dict_get_set_other by discriminate.
Qed.

Lemma sound_release d k r :
  sound d -> dict_get k (beds d) = Some r ->
  sound (with_beds (dict_set k (vacate r) (beds d)) d).
Proof.
  intros (Hc & Hu & Hp & Hd & Hb & Hm) Hget.
  destruct (table_entry _ _ _ _ _ _ Hb Hget) as [Hr [HP _]].
  destruct (vacate_good r (conj Hr HP)) as [Hr' HP'].
  unfold sound. simpl. repeat split; try assumption.
  apply (table_ok_update _ _ _ _ k r); try assumption.
  - split; [exact HP'|]. left. apply status_vacate.
  - unfold vacate. now rewrite !dict_get_set_other by discriminate.
Qed.

Lemma sound_restock d k r new_quantity :
  sound d -> dict_get k (medicines d) = Some r ->
  sound (with_medicines
           (dict_set k (dict_set "quantity" (VInt new_quantity) r)
                     (medicines d)) d).
Proof.
  intros (Hc & Hu & Hp & Hd & Hb & Hm) Hget.
  destruct (table_entry _ _ _ _ _ _ Hm Hget)
    as [Hr [[expiry He] (q & l & Hq & Hl)]].
  unfold sound. simpl. repeat split; try assumption.
  apply (table_ok_update _ _ _ _ k r); try assumption.
  - now apply dict_keys_set_nodup.
  - split.
    + exists expiry. now rewrite dict_get_set_other by discriminate.
    + exists new_quantity, l. split; [apply dict_get_set_same|].
      now rewrite dict_get_set_other by discriminate.
  - now rewrite dict_get_set_other by discriminate.
Qed.

Lemma sound_system_saved d t :
  sound d -> sound_system (mkSystem d (Contents (json_dump d)) t).
Proof. intros Hd. split; [exact Hd|]. exists d. now split. Qed.

Lemma new_bed_sound id bed_number bed_type ward now :
  bed_sound [("id", VInt id); ("bed_number", VStr bed_number);
             ("bed_type", VStr bed_type); ("status", VStr "available");
             ("ward", VStr ward); ("patient_id", VNone);
             ("assigned_at", VNone); ("created_at", VStr now)].
Proof. split; [apply new_bed_good | now left]. Qed.

Lemma new_medicine_sound id name expiry_date quantity unit_price category
      minimum_stock_level now :
  medicine_sound
    [("id", VInt id); ("name", VStr name);
     ("expiry_date", VStr expiry_date); ("quantity", VInt quantity);
     ("unit_price", VFloat unit_price); ("category", VStr category);
     ("minimum_stock_level", VInt minimum_stock_level);
     ("created_at", VStr now)].
Proof.
  split; [now exists expiry_date|].
  now exists quantity, minimum_stock_level.
Qed.

Ltac sound_doc :=
  first [ assumption
        | apply sound_bump; assumption
        | apply sound_register;
          [assumption | assumption | assumption | distinct_keys
          | reflexivity | reflexivity]
        | apply sound_add_patient;
          [assumption | assumption | distinct_keys | reflexivity | reflexivity]
        | apply sound_add_doctor;
          [assumption | assumption | distinct_keys | reflexivity]
        | apply sound_add_bed;
          [assumption | assumption | distinct_keys | apply new_bed_sound
          | reflexivity]
        | apply sound_add_medicine;
          [assumption | assumption | distinct_keys | apply new_medicine_sound
          | reflexivity]
        | apply sound_update_patient; assumption
        | apply sound_delete_patient; assumption
        | apply sound_update_doctor; assumption
        | apply sound_assign; assumption
        | apply sound_release; assumption
        | apply sound_restock; assumption ].

Ltac sound_solver :=
  match goal with
  | Hs : sound_system _ |- _ =>
      first [ exact Hs
            | let Hdoc := fresh "Hdoc" in
              let Hfile := fresh "Hfile" in
              destruct Hs as [Hdoc Hfile];
              first [ apply sound_system_saved; sound_doc
                    | split; [sound_doc | exact Hfile] ] ]
  end.

Lemma register_user_sound u p r f l e ph now :
  preserves sound_system (register_user u p r f l e ph now).
Proof.
  intros s Hs. unfold register_user, get_next_id. exec; sound_solver.
Qed.

Lemma add_patient_sound f l a g ph e mh al now :
  preserves sound_system (add_patient f l a g ph e mh al now).
Proof.
  intros s Hs. unfold add_patient, get_next_id. exec; sound_solver.
Qed.

Lemma add_doctor_sound f l sp ph e sh li now :
  preserves sound_system (add_doctor f l sp ph e sh li now).
Proof.
  intros s Hs. unfold add_doctor, get_next_id. exec; sound_solver.
Qed.

Lemma add_bed_sound n t w now : preserves sound_system (add_bed n t w now).
Proof.
  intros s Hs. unfold add_bed, get_next_id. exec; sound_solver.
Qed.

Lemma add_medicine_sound n e q up c ms now :
  preserves sound_system (add_medicine n e q up c ms now).
Proof.
  intros s Hs. unfold add_medicine, get_next_id. exec; sound_solver.
Qed.

Lemma seed_sample_data_sound now :
  preserves sound_system (seed_sample_data now).
Proof.
  unfold seed_sample_data.
  repeat (apply preserves_bind;
          [first [apply register_user_sound | apply add_patient_sound
                 | apply add_doctor_sound | apply add_bed_sound
                 | apply add_medicine_sound]
          | intros _]).
  apply preserves_ret.
Qed.

Lemma call_sound op : preserves sound_system (call op).
Proof.
  destruct op; simpl; apply preserves_fmap;
    try apply register_user_sound; try apply add_patient_sound;
    try apply add_doctor_sound; try apply add_bed_sound;
    try apply add_medicine_sound; try apply seed_sample_data_sound;
    intros s Hs; try exact Hs.
  - unfold save_data. simpl. sound_solver.
  - unfold get_next_id. exec; sound_solver.
  - unfold login_user. exec; sound_solver.
  - unfold update_patient. exec; sound_solver.
  - unfold delete_patient. exec; sound_solver.
  - unfold update_doctor. exec; sound_solver.
  - unfold assign_bed. exec; sound_solver.
  - unfold release_bed. exec; sound_solver.
  - unfold update_medicine_stock. exec; sound_solver.
Qed.


(** ** Sound documents through the file *)

Lemma nodup_map_kstr (l : list string) : NoDup l -> NoDup (map KStr l).
Proof.
  induction 1 as [|x l Hx Hl IH]; simpl; constructor; [|exact IH].
  intros Hin. apply in_map_iff in Hin. destruct Hin as (y & [= ->] & Hy).
  contradiction.
Qed.

Lemma stringified_keys (c : collection) :
  dict_keys (stringified c) = map KStr (map json_key (dict_keys c)).
Proof. unfold dict_keys, stringified. now rewrite !map_map. Qed.

Lemma stringified_values (c : collection) :
  dict_values (stringified c) = dict_values c.
Proof. unfold dict_values, stringified. now rewrite map_map. Qed.

Lemma stringified_get (c : collection) k r :
  dict_get k c = Some r ->
  NoDup (map json_key (dict_keys c)) ->
  dict_get (KStr (json_key k)) (stringified c) = Some r.
Proof.
  unfold dict_keys. induction c as [|[k' r'] rest IH]; simpl; [discriminate|].
  intros Hget Hnd. inversion Hnd as [|? ? Hnotin Hrest]; subst.
  destruct (pykey_eqb k k') eqn:E.
  - apply pykey_eqb_eq in E. subst k'. injection Hget as <-.
    now rewrite String.eqb_refl.
  - destruct (String.eqb (json_key k) (json_key k')) eqn:E'.
    + apply String.eqb_eq in E'. exfalso. apply Hnotin. rewrite <- E'.
      apply dict_get_in in Hget. apply in_map_iff.
      exists k. split; [reflexivity|]. apply in_map_iff. now exists (k, r).
    + now apply IH.
Qed.

Lemma reload_values_keys (c : collection) :
  dict_keys (reload_values c) = dict_keys c.
Proof. unfold dict_keys, reload_values. now rewrite map_map. Qed.

Lemma reload_values_in (c : collection) k r :
  In (k, r) (reload_values c) ->
  exists r0, In (k, r0) c /\ r = reload_fields r0.
Proof.
  unfold reload_values. intros Hin. apply in_map_iff in Hin.
  destruct Hin as ([k0 r0] & [= <- <-] & Hin). now exists r0.
Qed.

Lemma counted_reload (r : record) : counted r -> counted (reload_fields r).
Proof.
  intros (quantity & level & Hq & Hl). exists quantity, level.
  split; now apply reload_fields_get_some.
Qed.

Lemma bed_state_reload (r : record) : bed_state r -> bed_state (reload_fields r).
Proof.
  intros [H|H]; [left|right]; now apply reload_fields_get_some.
Qed.

Lemma bed_sound_reload (r : record) : bed_sound r -> bed_sound (reload_fields r).
Proof.
  intros [Hc Hs]. split; [now apply bed_consistent_reload|].
  now apply bed_state_reload.
Qed.

Lemma medicine_sound_reload (r : record) :
  medicine_sound r -> medicine_sound (reload_fields r).
Proof.
  intros [Hd Hc]. split; [now apply dated_reload | now apply counted_reload].
Qed.

Lemma any_record_reload (r : record) :
  any_record r -> any_record (reload_fields r).
Proof. exact (fun H => H). Qed.

Lemma table_ok_reload_values P kind c counters :
  (forall r, P r -> P (reload_fields r)) ->
  table_ok P kind c counters -> table_ok P kind (reload_values c) counters.
Proof.
  intros HP (next & Hnext & Hpos & Hnd & Hall).
  exists next. split; [exact Hnext|]. split; [exact Hpos|]. split.
  - now rewrite reload_values_keys.
  - intros k r Hin. apply reload_values_in in Hin.
    destruct Hin as (r0 & Hin & ->).
    destruct (Hall k r0 Hin) as (Hr & HPr & id & Hkey & Hid & Hget).
    split; [now rewrite reload_fields_keys|]. split; [now apply HP|].
    exists id. split; [exact Hkey|]. split; [exact Hid|].
    now apply reload_fields_get_some.
Qed.

Lemma users_ok_reload_values c counters :
  users_ok c counters -> users_ok (reload_values c) counters.
Proof.
  intros (next & Hnext & Hpos & Hnd & Hall).
  exists next. split; [exact Hnext|]. split; [exact Hpos|]. split.
  - now rewrite reload_values_keys.
  - intros k r Hin. apply reload_values_in in Hin.
    destruct Hin as (r0 & Hin & ->).
    destruct (Hall k r0 Hin) as (Hr & (u & Hk & Hu) & id & Hid & Hget).
    split; [now rewrite reload_fields_keys|]. split.
    + exists u. split; [exact Hk|]. now apply reload_fields_get_some.
    + exists id. split; [exact Hid|]. now apply reload_fields_get_some.
Qed.

Lemma reload_collection_sound P kind c counters :
  table_ok P kind c counters ->
  reload_collection c = stringified (reload_values c).
Proof.
  intros (next & _ & _ & Hnd & Hall). unfold reload_collection.
  assert (Hmap : map (fun kr : pykey * record =>
                        (KStr (json_key (fst kr)), reload_record (snd kr))) c
                 = stringified (reload_values c)).
  { unfold stringified, reload_values. rewrite map_map.
    apply map_ext_in. intros [k r] Hin. simpl.
    rewrite reload_record_fields; [reflexivity|]. apply (Hall k r Hin). }
  rewrite Hmap. apply dict_of_pairs_nodup.
  rewrite stringified_keys, reload_values_keys. now apply nodup_map_kstr.
Qed.

Lemma table_ok_stringified P kind c counters :
  table_ok P kind c counters -> table_ok P kind (stringified c) counters.
Proof.
  intros (next & Hnext & Hpos & Hnd & Hall).
  exists next. split; [exact Hnext|]. split; [exact Hpos|]. split.
  - rewrite stringified_keys.
    assert (Hid : forall l, map json_key (map KStr l) = l).
    { induction l as [|x l IH]; simpl; [reflexivity | now rewrite IH]. }
    now rewrite Hid.
  - intros k r Hin. unfold stringified in Hin. apply in_map_iff in Hin.
    destruct Hin as ([k0 r0] & [= <- <-] & Hin). exact (Hall k0 r0 Hin).
Qed.

Lemma reload_users_sound c counters :
  users_ok c counters -> reload_collection c = reload_values c.
Proof.
  intros (next & _ & _ & Hnd & Hall). unfold reload_collection.
  assert (Hmap : map (fun kr : pykey * record =>
                        (KStr (json_key (fst kr)), reload_record (snd kr))) c
                 = reload_values c).
  { unfold reload_values. apply map_ext_in. intros [k r] Hin. simpl.
    destruct (Hall k r Hin) as (Hr & (u & -> & _) & _). simpl.
    now rewrite reload_record_fields. }
  rewrite Hmap. apply dict_of_pairs_nodup. now rewrite reload_values_keys.
Qed.

(** What a sound document looks like when it comes back from the file. *)
Lemma reload_document_sound d :
  sound d ->
  reload_document d =
    mkDocument (reload_values (users d))
               (stringified (reload_values (patients d)))
               (stringified (reload_values (doctors d)))
               (stringified (reload_values (beds d)))
               (stringified (reload_values (medicines d))) (next_ids d)
  /\ sound (reload_document d).
Proof.
  intros (Hc & Hu & Hp & Hd & Hb & Hm).
  assert (Heq : reload_document d =
            mkDocument (reload_values (users d))
                       (stringified (reload_values (patients d)))
                       (stringified (reload_values (doctors d)))
                       (stringified (reload_values (beds d)))
                       (stringified (reload_values (medicines d)))
                       (next_ids d)).
  { unfold reload_document.
    rewrite (reload_users_sound _ _ Hu).
    rewrite (reload_collection_sound _ _ _ _ Hp).
    rewrite (reload_collection_sound _ _ _ _ Hd).
    rewrite (reload_collection_sound _ _ _ _ Hb).
    rewrite (reload_collection_sound _ _ _ _ Hm).
    now rewrite dict_of_pairs_nodup. }
  split; [exact Heq|]. rewrite Heq. unfold sound. simpl.
  split; [exact Hc|]. split; [now apply users_ok_reload_values|].
  split; [apply table_ok_stringified, table_ok_reload_values;
          [apply flagged_reload | exact Hp]|].
  split; [apply table_ok_stringified, table_ok_reload_values;
          [apply any_record_reload | exact Hd]|].
  split; [apply table_ok_stringified, table_ok_reload_values;
          [apply bed_sound_reload | exact Hb]|].
  apply table_ok_stringified, table_ok_reload_values;
    [apply medicine_sound_reload | exact Hm].
Qed.

Lemma fresh_sound : sound_system fresh.
Proof.
  split; [|exact I]. unfold sound. simpl.
  split; [distinct_keys|].
  split.
  { exists 1%Z. split; [reflexivity|]. split; [lia|].
    split; [constructor|]. intros k r []. }
  repeat split;
    (exists 1%Z; split; [reflexivity|]; split; [lia|];
     split; [constructor|]; intros k r []).
Qed.

Lemma restart_sound s s' :
  sound_system s -> restart s = Some s' -> sound_system s'.
Proof.
  intros [Hdoc Hfile]. unfold restart, init, load_data. revert Hfile.
  destruct (data_file s) as [| |j] eqn:Hf; intros Hfile.
  - intros [= <-]. split; [apply fresh_sound | exact I].
  - intros [= <-]. split; [apply fresh_sound | exact I].
  - destruct Hfile as (d & -> & Hd). rewrite json_round_trip.
    intros [= <-]. split.
    + now apply reload_document_sound.
    + exists d. now split.
Qed.

Lemma reachable_sound s : reachable s -> sound_system s.
Proof.
  induction 1 as [|op s Hreach IH|s s' Hreach IH Hrestart].
  - apply fresh_sound.
  - now apply call_sound.
  - now apply (restart_sound s).
Qed.


(** ** What a restart keeps *)

(** The NaNs [json.dump] writes as [NaN] are the floats that compare as
    NaN. *)
Lemma is_nan_float_value (bits : Z) :
  is_nan bits = true <-> float_value bits = NotANumber.
Proof.
  unfold is_nan, float_value. cbv zeta.
  destruct (Z.land (Z.shiftr (Z.land bits (Z.ones 64)) 52) (Z.ones 11)
            =? 2047)%Z;
    destruct (Z.land (Z.land bits (Z.ones 64)) (Z.ones 52) =? 0)%Z;
    cbn [andb negb];
    repeat match goal with
           | |- context [if ?c then _ else _] => destruct c
           end;
    split; intros H; try discriminate H; reflexivity.
Qed.

Lemma reload_val_exact (v : pyval) : holds_nan v = false -> reload_val v = v.
Proof.
  destruct v; simpl; try reflexivity.
  intros Hnan. unfold json_float. now rewrite Hnan.
Qed.

Lemma reload_fields_exact (r : record) :
  forallb (fun kv => negb (holds_nan (snd kv))) r = true ->
  reload_fields r = r.
Proof.
  intros Hall. unfold reload_fields. rewrite <- (map_id r) at 2.
  apply map_ext_in. intros [k v] Hin. simpl. f_equal.
  rewrite forallb_forall in Hall. specialize (Hall (k, v) Hin). simpl in Hall.
  apply reload_val_exact. now destruct (holds_nan v).
Qed.

Lemma nan_free_reload (c : collection) :
  nan_free c = true -> reload_values c = c.
Proof.
  intros Hall. unfold reload_values. rewrite <- (map_id c) at 2.
  apply map_ext_in. intros [k r] Hin. simpl. f_equal.
  unfold nan_free in Hall. rewrite forallb_forall in Hall.
  apply reload_fields_exact. exact (Hall (k, r) Hin).
Qed.

Lemma reloaded_table P kind c counters :
  table_ok P kind c counters ->
  dict_keys (stringified (reload_values c))
  = map KStr (map json_key (dict_keys c)) /\
  (nan_free c = true ->
   stringified (reload_values c) = stringified c /\
   dict_values (stringified (reload_values c)) = dict_values c /\
   forall k r, dict_get k c = Some r ->
               dict_get (KStr (json_key k)) (stringified (reload_values c))
               = Some r).
Proof.
  intros (next & _ & _ & Hnd & _). split.
  - now rewrite stringified_keys, reload_values_keys.
  - intros Hfree. rewrite (nan_free_reload c Hfree).
    split; [reflexivity|]. split; [apply stringified_values|].
    intros k r Hget. now apply stringified_get.
Qed.

(** X12: take a reachable state whose file is up to date and whose document
    [json.dump] can write.  A restart finds the file, and the new instance
    has the same counters, the users under the same keys and the four
    numbered collections in the same order, with every integer key turned
    into its decimal numeral and every NaN turned into the quiet NaN.  A
    collection that holds no NaN comes back with the very same records, each
    found again under the numeral of its key. *)
Theorem restart_keeps_every_record :
  forall s,
    reachable s ->
    data_file s = Contents (json_dump (data s)) ->
    writable (data s) = true ->
    exists s',
      restart s = Some s' /\
      next_ids (data s') = next_ids (data s) /\
      users (data s') = reload_values (users (data s)) /\
      (nan_free (users (data s)) = true -> users (data s') = users (data s)) /\
      forall c c',
        (c, c') = (patients (data s), patients (data s')) \/
        (c, c') = (doctors (data s), doctors (data s')) \/
        (c, c') = (beds (data s), beds (data s')) \/
        (c, c') = (medicines (data s), medicines (data s')) ->
        c' = stringified (reload_values c) /\
        dict_keys c' = map KStr (map json_key (dict_keys c)) /\
        (nan_free c = true ->
         c' = stringified c /\
         dict_values c' = dict_values c /\
         forall k r, dict_get k c = Some r ->
                     dict_get (KStr (json_key k)) c' = Some r).
Proof.
  intros s Hreach Hfile _.
  destruct (reachable_sound s Hreach) as [Hdoc _].
  destruct (reload_document_sound _ Hdoc) as [Heq _].
  destruct Hdoc as (_ & _ & Hp & Hd & Hb & Hm).
  exists (mkSystem (reload_document (data s)) (data_file s) (trace s)).
  split.
  { unfold restart, init, load_data. rewrite Hfile at 1.
    now rewrite json_round_trip. }
  cbn [data]. rewrite Heq. cbn [users patients doctors beds medicines next_ids].
  split; [reflexivity|]. split; [reflexivity|].
  split; [intros Hfree; now apply nan_free_reload|].
  intros c c' [H|[H|[H|H]]]; injection H as -> ->;
    (split; [reflexivity|]); eapply reloaded_table; eassumption.
Qed.

(** ** Adding never overwrites *)

Lemma comprehension_snoc {A : Type} (test : A -> outcome bool) l kept x b :
  comprehension test l = Returned kept ->
  test x = Returned b ->
  comprehension test (l ++ [x]) =
    Returned (kept ++ if b then [x] else []).
Proof.
  revert kept. induction l as [|a l IH]; intros kept; simpl.
  - intros [= <-] ->. now destruct b.
  - destruct (test a) as [ba|e]; [|discriminate].
    destruct (comprehension test l) as [kl|e]; [|discriminate].
    intros [= <-] Hx. rewrite (IH kl eq_refl Hx).
    now destruct ba.
Qed.

Lemma dict_get_app_old {K V : Type} `{Hashable K} (k : K) (v : V) d extra :
  dict_get k d = Some v -> dict_get k (d ++ extra) = Some v.
Proof.
  induction d as [|[k' v'] rest IH]; simpl; [discriminate|].
  destruct (key_eqb k k'); auto.
Qed.

Lemma patients_listed s :
  sound_system s ->
  exists active, comprehension is_active (dict_values (patients (data s)))
                 = Returned active.
Proof.
  intros [(_ & _ & (next & _ & _ & _ & Hall) & _) _].
  destruct (comprehension_total is_active (dict_values (patients (data s))))
    as (active & Hactive & _); [|eauto].
  intros p Hp. unfold dict_values in Hp. apply in_map_iff in Hp.
  destruct Hp as ([k r] & <- & Hin). simpl.
  destruct (Hall k r Hin) as (_ & Hflag & _).
  apply dict_mem_get in Hflag. destruct Hflag as [v Hv].
  rewrite (is_active_get _ _ Hv). eauto.
Qed.

(** X13: in every reachable state [add_patient] succeeds, provided the
    document it builds is one [json.dump] can write (no [int] of more than
    4300 digits in it, the age included).  The patient gets the identifier
    the counter stands at, which is the key of no stored patient, and is
    appended after the patients already stored, which all stay where they
    were.  [get_patient] finds the new record under its identifier and
    [get_all_patients] lists it last. *)
Theorem add_patient_appends :
  forall s first_name last_name age gender phone email medical_history
         allergies now,
    reachable s ->
    writable (data (snd (add_patient first_name last_name age gender phone
                                     email medical_history allergies now s)))
    = true ->
    exists id s' before,
      let patient : record :=
        [("id", VInt id); ("first_name", VStr first_name);
         ("last_name", VStr last_name); ("age", VInt age);
         ("gender", VStr gender); ("phone", VStr phone);
         ("email", VStr email); ("medical_history", VStr medical_history);
         ("allergies", VStr allergies); ("is_active", VBool true);
         ("created_at", VStr now)] in
      add_patient first_name last_name age gender phone email medical_history
                  allergies now s =
        (Returned (done_with "Patient added successfully" "patient"
                             (ARecord patient)), s') /\
      dict_get "patient" (next_ids (data s)) = Some id /\
      dict_get "patient" (next_ids (data s')) = Some (id + 1)%Z /\
      dict_get (KInt id) (patients (data s)) = None /\
      patients (data s') = patients (data s) ++ [(KInt id, patient)] /\
      (forall k r, dict_get k (patients (data s)) = Some r ->
                   dict_get k (patients (data s')) = Some r) /\
      get_patient (KInt id) s' = (Returned (Some patient), s') /\
      get_all_patients s = (Returned before, s) /\
      get_all_patients s' = (Returned (before ++ [patient]), s').
Proof.
  intros s first_name last_name age gender phone email medical_history
         allergies now Hreach _.
  pose proof (reachable_sound s Hreach) as Hs.
  destruct (patients_listed s Hs) as [before Hbefore].
  destruct Hs as [(_ & _ & Hp & _) _].
  pose proof Hp as (id & Hid & Hpos & _).
  set (patient := [("id", VInt id); ("first_name", VStr first_name);
         ("last_name", VStr last_name); ("age", VInt age);
         ("gender", VStr gender); ("phone", VStr phone);
         ("email", VStr email); ("medical_history", VStr medical_history);
         ("allergies", VStr allergies); ("is_active", VBool true);
         ("created_at", VStr now)] : record).
  destruct (table_ok_add flagged "patient" _ _ id patient Hp Hid)
    as [_ Happ]; [distinct_keys | reflexivity | reflexivity |].
  change (@dict_set pykey record _ (KInt id) patient (patients (data s))
          = patients (data s) ++ [(KInt id, patient)]) in Happ.
  assert (Hnone : dict_get (KInt id) (patients (data s)) = None).
  { apply dict_get_none_keys. intros Hin.
    apply (table_ok_fresh_key _ _ _ _ _ Hp Hid).
    apply in_map_iff. now exists (KInt id). }
  assert (Hvals : dict_values (dict_set (KInt id) patient (patients (data s)))
                  = dict_values (patients (data s)) ++ [patient]).
  { rewrite Happ. unfold dict_values. now rewrite map_app. }
  assert (Hcall : add_patient first_name last_name age gender phone email
                    medical_history allergies now s =
            (Returned (done_with "Patient added successfully" "patient"
                                 (ARecord patient)),
             saved (with_patients
                      (dict_set (KInt id) patient (patients (data s)))
                      (with_next_ids
                         (dict_set "patient" (id + 1)%Z (next_ids (data s)))
                         (data s)))
                   (mkSystem (data s) (data_file s)
                             (Allocated "patient" id :: trace s)))).
  { unfold add_patient, get_next_id. step_m. rewrite Hid. reflexivity. }
  eexists id, _, before. cbv zeta. fold patient.
  split; [exact Hcall|].
  unfold saved. cbn [data patients next_ids with_patients with_next_ids].
  split; [exact Hid|].
  split; [apply dict_get_set_same|].
  split; [exact Hnone|].
  split; [exact Happ|].
  split.
  { intros k r Hget. rewrite dict_get_set_other; [exact Hget|].
    intros <-. congruence. }
  split.
  { unfold get_patient. step_m.
    cbn [data patients with_patients]. now rewrite dict_get_set_same. }
  split.
  { unfold get_all_patients. step_m. now rewrite Hbefore. }
  unfold get_all_patients. step_m.
  cbn [data patients with_patients]. rewrite Hvals.
  now rewrite (comprehension_snoc _ _ before patient true Hbefore).
Qed.


(** X14: in every reachable state [add_doctor], [add_bed] and
    [add_medicine] succeed, provided the document the call builds is one
    [json.dump] can write (no [int] of more than 4300 digits in it, the
    quantity and the minimum stock level of a medicine included).  They
    number the new record with the counter of its kind, and append it after
    the records already stored: nothing is overwritten, the listing of the
    kind grows by exactly the new record, at the end, and a new bed starts
    available with no patient. *)
Theorem add_appends :
  forall s,
    reachable s ->
    (forall first_name last_name specialization phone email shift
            license_number now,
        writable (data (snd (add_doctor first_name last_name specialization
                                        phone email shift license_number now
                                        s))) = true ->
        exists id s',
          let doctor : record :=
            [("id", VInt id); ("first_name", VStr first_name);
             ("last_name", VStr last_name);
             ("specialization", VStr specialization); ("phone", VStr phone);
             ("email", VStr email); ("shift", VStr shift);
             ("license_number", VStr license_number);
             ("is_available", VBool true); ("created_at", VStr now)] in
          add_doctor first_name last_name specialization phone email shift
                     license_number now s =
            (Returned (done_with "Doctor added successfully" "doctor"
                                 (ARecord doctor)), s') /\
          dict_get "doctor" (next_ids (data s)) = Some id /\
          doctors (data s') = doctors (data s) ++ [(KInt id, doctor)] /\
          get_all_doctors s' =
            (Returned (dict_values (doctors (data s)) ++ [doctor]), s')) /\
    (forall bed_number bed_type ward now,
        writable (data (snd (add_bed bed_number bed_type ward now s)))
        = true ->
        exists id s',
          let bed : record :=
            [("id", VInt id); ("bed_number", VStr bed_number);
             ("bed_type", VStr bed_type); ("status", VStr "available");
             ("ward", VStr ward); ("patient_id", VNone);
             ("assigned_at", VNone); ("created_at", VStr now)] in
          add_bed bed_number bed_type ward now s =
            (Returned (done_with "Bed added successfully" "bed" (ARecord bed)),
             s') /\
          dict_get "bed" (next_ids (data s)) = Some id /\
          beds (data s') = beds (data s) ++ [(KInt id, bed)] /\
          get_all_beds s' =
            (Returned (dict_values (beds (data s)) ++ [bed]), s')) /\
    (forall name expiry_date quantity unit_price category minimum_stock_level
            now,
        writable (data (snd (add_medicine name expiry_date quantity unit_price
                                          category minimum_stock_level now
                                          s))) = true ->
        exists id s',
          let medicine : record :=
            [("id", VInt id); ("name", VStr name);
             ("expiry_date", VStr expiry_date); ("quantity", VInt quantity);
             ("unit_price", VFloat unit_price); ("category", VStr category);
             ("minimum_stock_level", VInt minimum_stock_level);
             ("created_at", VStr now)] in
          add_medicine name expiry_date quantity unit_price category
                       minimum_stock_level now s =
            (Returned (done_with "Medicine added successfully" "medicine"
                                 (ARecord medicine)), s') /\
          dict_get "medicine" (next_ids (data s)) = Some id /\
          medicines (data s') = medicines (data s) ++ [(KInt id, medicine)] /\
          get_all_medicines s' =
            (Returned (dict_values (medicines (data s)) ++ [medicine]), s')).
Proof.
  intros s Hreach.
  destruct (reachable_sound s Hreach) as [(_ & _ & _ & Hd & Hb & Hm) _].
  split; [|split].
  - intros first_name last_name specialization phone email shift
           license_number now _.
    pose proof Hd as (id & Hid & _).
    set (doctor := [("id", VInt id); ("first_name", VStr first_name);
             ("last_name", VStr last_name);
             ("specialization", VStr specialization); ("phone", VStr phone);
             ("email", VStr email); ("shift", VStr shift);
             ("license_number", VStr license_number);
             ("is_available", VBool true); ("created_at", VStr now)] : record).
    destruct (table_ok_add any_record "doctor" _ _ id doctor Hd Hid)
      as [_ Happ]; [distinct_keys | exact I | reflexivity |].
    change (@dict_set pykey record _ (KInt id) doctor (doctors (data s))
            = doctors (data s) ++ [(KInt id, doctor)]) in Happ.
    eexists id, _. cbv zeta. fold doctor.
    split.
    { unfold add_doctor, get_next_id. step_m. rewrite Hid. reflexivity. }
    cbn [data doctors with_doctors].
    split; [exact Hid|]. split; [exact Happ|].
    unfold get_all_doctors. step_m. cbn [data doctors with_doctors].
    f_equal. f_equal.
    transitivity (dict_values (doctors (data s) ++ [(KInt id, doctor)]));
      [exact (f_equal dict_values Happ)
      | unfold dict_values; now rewrite map_app].
  - intros bed_number bed_type ward now _.
    pose proof Hb as (id & Hid & _).
    set (bed := [("id", VInt id); ("bed_number", VStr bed_number);
             ("bed_type", VStr bed_type); ("status", VStr "available");
             ("ward", VStr ward); ("patient_id", VNone);
             ("assigned_at", VNone); ("created_at", VStr now)] : record).
    destruct (table_ok_add bed_sound "bed" _ _ id bed Hb Hid)
      as [_ Happ]; [distinct_keys | apply new_bed_sound | reflexivity |].
    change (@dict_set pykey record _ (KInt id) bed (beds (data s))
            = beds (data s) ++ [(KInt id, bed)]) in Happ.
    eexists id, _. cbv zeta. fold bed.
    split.
    { unfold add_bed, get_next_id. step_m. rewrite Hid. reflexivity. }
    cbn [data beds with_beds].
    split; [exact Hid|]. split; [exact Happ|].
    unfold get_all_beds. step_m. cbn [data beds with_beds].
    f_equal. f_equal.
    transitivity (dict_values (beds (data s) ++ [(KInt id, bed)]));
      [exact (f_equal dict_values Happ)
      | unfold dict_values; now rewrite map_app].
  - intros name expiry_date quantity unit_price category minimum_stock_level
           now _.
    pose proof Hm as (id & Hid & _).
    set (medicine := [("id", VInt id); ("name", VStr name);
             ("expiry_date", VStr expiry_date); ("quantity", VInt quantity);
             ("unit_price", VFloat unit_price); ("category", VStr category);
             ("minimum_stock_level", VInt minimum_stock_level);
             ("created_at", VStr now)] : record).
    destruct (table_ok_add medicine_sound "medicine" _ _ id medicine Hm Hid)
      as [_ Happ]; [distinct_keys | apply new_medicine_sound | reflexivity |].
    change (@dict_set pykey record _ (KInt id) medicine (medicines (data s))
            = medicines (data s) ++ [(KInt id, medicine)]) in Happ.
    eexists id, _. cbv zeta. fold medicine.
    split.
    { unfold add_medicine, get_next_id. step_m. rewrite Hid. reflexivity. }
    cbn [data medicines with_medicines].
    split; [exact Hid|]. split; [exact Happ|].
    unfold get_all_medicines. step_m. cbn [data medicines with_medicines].
    f_equal. f_equal.
    transitivity (dict_values (medicines (data s) ++ [(KInt id, medicine)]));
      [exact (f_equal dict_values Happ)
      | unfold dict_values; now rewrite map_app].
Qed.

(** ** Identifiers of stored records *)

Lemma table_ids_distinct P kind c counters :
  table_ok P kind c counters ->
  NoDup (map (dict_get "id") (dict_values c)).
Proof.
  intros (next & _ & _ & Hnd & Hall).
  assert (Hids : forall k r, In (k, r) c ->
                   exists id, json_key k = str_of_int id /\
                              dict_get "id" r = Some (VInt id)).
  { intros k r Hin. destruct (Hall k r Hin) as (_ & _ & id & H1 & _ & H2).
    now exists id. }
  clear Hall. unfold dict_values, dict_keys in *.
  induction c as [|[k r] rest IH]; simpl in *; [constructor|].
  inversion Hnd as [|? ? Hnotin Hrest]; subst.
  constructor.
  - intros Hin. apply in_map_iff in Hin. destruct Hin as (r' & Hsame & Hin').
    apply in_map_iff in Hin'. destruct Hin' as ([k' r''] & <- & Hin').
    simpl in Hsame.
    destruct (Hids k r (or_introl eq_refl)) as (id & Hk & Hr).
    destruct (Hids k' r'' (or_intror Hin')) as (id' & Hk' & Hr').
    rewrite Hr, Hr' in Hsame. injection Hsame as ->.
    apply Hnotin. rewrite Hk, <- Hk'.
    apply in_map_iff. exists k'. split; [reflexivity|].
    apply in_map_iff. now exists (k', r'').
  - apply IH; [exact Hrest|]. intros k' r' Hin. apply Hids. now right.
Qed.

(** X15: in every reachable state each stored patient, doctor, bed and
    medicine carries an integer [id] that is positive, below the counter of
    its kind, and is the number its key stands for; no two records of one
    kind carry the same [id].  Every user is stored under its own
    [username]. *)
Theorem identifiers_are_unique :
  forall s,
    reachable s ->
    (forall kind c,
        (kind, c) = ("patient", patients (data s)) \/
        (kind, c) = ("doctor", doctors (data s)) \/
        (kind, c) = ("bed", beds (data s)) \/
        (kind, c) = ("medicine", medicines (data s)) ->
        NoDup (map (dict_get "id") (dict_values c)) /\
        exists next,
          dict_get kind (next_ids (data s)) = Some next /\
          forall k r,
            dict_get k c = Some r ->
            exists id, dict_get "id" r = Some (VInt id) /\
                       (1 <= id < next)%Z /\
                       (k = KInt id \/ k = KStr (str_of_int id))) /\
    (forall username user,
        dict_get (KStr username) (users (data s)) = Some user ->
        dict_get "username" user = Some (VStr username)).
Proof.
  intros s Hreach.
  destruct (reachable_sound s Hreach) as [(_ & Hu & Hp & Hd & Hb & Hm) _].
  assert (Hgen : forall P kind c,
             table_ok P kind c (next_ids (data s)) ->
             NoDup (map (dict_get "id") (dict_values c)) /\
             exists next,
               dict_get kind (next_ids (data s)) = Some next /\
               forall k r,
                 dict_get k c = Some r ->
                 exists id, dict_get "id" r = Some (VInt id) /\
                            (1 <= id < next)%Z /\
                            (k = KInt id \/ k = KStr (str_of_int id))).
  { intros P kind c Hc. split; [exact (table_ids_distinct P kind c _ Hc)|].
    destruct Hc as (next & Hnext & _ & _ & Hall).
    exists next. split; [exact Hnext|].
    intros k r Hget. apply dict_get_in in Hget.
    destruct (Hall k r Hget) as (_ & _ & id & Hk & Hrange & Hid).
    exists id. split; [exact Hid|]. split; [exact Hrange|].
    destruct k as [z|x]; simpl in Hk.
    - left. apply str_of_int_inj in Hk. now subst.
    - right. now subst. }
  split.
  - intros kind c [[= -> ->]|[[= -> ->]|[[= -> ->]|[= -> ->]]]];
      eapply Hgen; eassumption.
  - intros username user Hget. apply dict_get_in in Hget.
    destruct Hu as (next & _ & _ & _ & Hall).
    destruct (Hall _ _ Hget) as (_ & (u & [= <-] & Hname) & _).
    exact Hname.
Qed.


(** ** The dashboard *)

Lemma filter_split {A : Type} (f g : A -> bool) (l : list A) :
  (forall x, In x l -> f x = negb (g x)) ->
  List.length (filter f l) + List.length (filter g l) = List.length l.
Proof.
  induction l as [|a l IH]; intros Hall; [reflexivity|].
  simpl. rewrite (Hall a (or_introl eq_refl)).
  assert (IH' := IH (fun x Hx => Hall x (or_intror Hx))).
  destruct (g a); simpl; lia.
Qed.

Lemma filter_shorter {A : Type} (f : A -> bool) (l : list A) :
  List.length (filter f l) <= List.length l.
Proof.
  induction l as [|a l IH]; simpl; [lia|]. destruct (f a); simpl; lia.
Qed.

Lemma comprehension_shorter {A : Type} (test : A -> outcome bool) l kept :
  comprehension test l = Returned kept ->
  List.length kept <= List.length l.
Proof.
  revert kept. induction l as [|a l IH]; simpl; intros kept.
  - intros [= <-]. simpl. lia.
  - destruct (test a) as [b|e]; [|discriminate].
    destruct (comprehension test l) as [kl|e]; [|discriminate].
    specialize (IH kl eq_refl).
    intros [= <-]. destruct b; simpl; lia.
Qed.

Lemma table_values P kind c counters r :
  table_ok P kind c counters -> In r (dict_values c) -> P r.
Proof.
  intros (next & _ & _ & _ & Hall) Hin. unfold dict_values in Hin.
  apply in_map_iff in Hin. destruct Hin as ([k r'] & <- & Hin).
  apply (Hall k r' Hin).
Qed.

(** X16: in every reachable state [get_dashboard_stats] returns and changes
    nothing; every bed is counted either as available or as occupied, so the
    two counts add up to the number of beds; the active patients, the
    low-stock medicines and the expired medicines are never more than the
    patients and the medicines stored, and each count is the length of the
    listing the store gives for it. *)
Theorem dashboard_counts_add_up :
  forall s current,
    reachable s ->
    exists st active low expired,
      get_dashboard_stats current s = (Returned st, s) /\
      available_beds st + occupied_beds st = total_beds st /\
      total_beds st = List.length (beds (data s)) /\
      total_doctors st = List.length (doctors (data s)) /\
      total_medicines st = List.length (medicines (data s)) /\
      get_all_patients s = (Returned active, s) /\
      total_patients st = List.length active /\
      total_patients st <= List.length (patients (data s)) /\
      get_low_stock_medicines s = (Returned low, s) /\
      low_stock_medicines st = List.length low /\
      low_stock_medicines st <= total_medicines st /\
      get_expired_medicines current s = (Returned expired, s) /\
      expired_medicines st = List.length expired /\
      expired_medicines st <= total_medicines st.
Proof.
  intros s current Hreach.
  pose proof (reachable_sound s Hreach) as Hs.
  destruct (patients_listed s Hs) as [active Hactive].
  destruct Hs as [(_ & _ & Hp & _ & Hb & Hm) _].
  assert (Hactive_le : List.length active
                       <= List.length (patients (data s))).
  { rewrite <- (length_map snd (patients (data s))).
    now apply (comprehension_shorter is_active). }
  assert (Havail : comprehension (has_status "available")
                     (dict_values (beds (data s)))
                   = Returned (filter (status_is "available")
                                      (dict_values (beds (data s))))).
  { apply comprehension_filter. intros b Hin.
    destruct (table_values _ _ _ _ _ Hb Hin) as [_ [Hst|Hst]];
      unfold has_status, field, status_is; now rewrite Hst. }
  assert (Hocc : comprehension (has_status "occupied")
                   (dict_values (beds (data s)))
                 = Returned (filter (status_is "occupied")
                                    (dict_values (beds (data s))))).
  { apply comprehension_filter. intros b Hin.
    destruct (table_values _ _ _ _ _ Hb Hin) as [_ [Hst|Hst]];
      unfold has_status, field, status_is; now rewrite Hst. }
  assert (Hlow : comprehension low_stock (dict_values (medicines (data s)))
                 = Returned (filter is_low
                                    (dict_values (medicines (data s))))).
  { apply comprehension_filter. intros m Hin.
    apply low_stock_counted. apply (table_values _ _ _ _ _ Hm Hin). }
  set (today := isoformat current).
  set (keep := fun m : record =>
                 match dict_get "expiry_date" m with
                 | Some (VStr expiry) => String.leb expiry today
                 | _ => false
                 end).
  assert (Hexp : comprehension (expired_by today)
                   (dict_values (medicines (data s)))
                 = Returned (filter keep (dict_values (medicines (data s))))).
  { apply comprehension_filter. intros m Hin.
    destruct (table_values _ _ _ _ _ Hm Hin) as [[expiry He] _].
    unfold expired_by, field, keep. now rewrite He. }
  assert (Hlen : forall c : collection,
             List.length (dict_values c) = List.length c).
  { intros c. unfold dict_values. apply length_map. }
  eexists _, active, _, _.
  split.
  { unfold get_dashboard_stats, get_low_stock_medicines,
      get_expired_medicines. step_m. fold today.
    rewrite Hactive, Havail, Hocc, Hlow, Hexp. reflexivity. }
  cbn [available_beds occupied_beds total_beds total_doctors total_medicines
       total_patients low_stock_medicines expired_medicines].
  split.
  { rewrite <- Hlen. apply filter_split. intros b Hin.
    destruct (table_values _ _ _ _ _ Hb Hin) as [_ [Hst|Hst]];
      unfold status_is; now rewrite Hst. }
  split; [reflexivity|]. split; [reflexivity|]. split; [reflexivity|].
  split; [unfold get_all_patients; step_m; now rewrite Hactive|].
  split; [reflexivity|]. split; [exact Hactive_le|].
  split; [unfold get_low_stock_medicines; step_m; now rewrite Hlow|].
  split; [reflexivity|].
  split; [rewrite <- Hlen; apply filter_shorter|].
  split; [unfold get_expired_medicines; step_m; fold today; now rewrite Hexp|].
  split; [reflexivity|].
  rewrite <- Hlen. apply filter_shorter.
Qed.

(** ** Assigning, then releasing *)

Lemma dict_ext {K V : Type} `{Hashable K} (a b : dict K V) :
  NoDup (dict_keys a) ->
  dict_keys a = dict_keys b ->
  (forall k, dict_get k a = dict_get k b) ->
  a = b.
Proof.
  unfold dict_keys. revert b.
  induction a as [|[k v] a IH]; intros [|[k' v'] b]; simpl;
    try discriminate; [reflexivity|].
  intros Hnd [= <- Hkeys] Hget.
  inversion Hnd as [|? ? Hnotin Hrest]; subst.
  pose proof (Hget k) as Hk. rewrite key_eqb_refl in Hk.
  injection Hk as <-. f_equal.
  apply IH; [exact Hrest | exact Hkeys |].
  intros x. specialize (Hget x).
  destruct (key_eqb x k) eqn:E; [|exact Hget].
  apply key_eqb_eq in E. subst x.
  assert (Ha : dict_get k a = None) by now apply dict_get_none_keys.
  assert (Hb : dict_get k b = None).
  { apply dict_get_none_keys. unfold dict_keys. now rewrite <- Hkeys. }
  now rewrite Ha, Hb.
Qed.

Lemma vacate_occupy patient_id now bed :
  NoDup (dict_keys bed) ->
  dict_get "status" bed = Some (VStr "available") ->
  dict_get "patient_id" bed = Some VNone ->
  dict_get "assigned_at" bed = Some VNone ->
  vacate (occupy patient_id now bed) = bed.
Proof.
  intros Hnd Hst Hpid Hat.
  assert (Hmem : forall k v (d : record) x,
             dict_get k d = Some x -> dict_keys (dict_set k v d) = dict_keys d).
  { intros k v d x Hx. apply dict_keys_set_present.
    unfold dict_mem. now rewrite Hx. }
  assert (H1 : dict_get "patient_id" (dict_set "status" (VStr "occupied") bed)
               = Some VNone)
    by now rewrite dict_get_set_other by discriminate.
  assert (H2 : dict_get "assigned_at"
                 (dict_set "patient_id" (val_of_key patient_id)
                    (dict_set "status" (VStr "occupied") bed)) = Some VNone)
    by now rewrite !dict_get_set_other by discriminate.
  assert (Hkeys : dict_keys (occupy patient_id now bed) = dict_keys bed).
  { unfold occupy.
    rewrite (Hmem _ _ _ _ H2), (Hmem _ _ _ _ H1). now apply (Hmem _ _ _ _ Hst). }
  assert (H3 : dict_get "status" (occupy patient_id now bed)
               = Some (VStr "occupied")) by apply status_occupy.
  assert (H4 : dict_get "patient_id"
                 (dict_set "status" (VStr "available")
                    (occupy patient_id now bed)) = Some (val_of_key patient_id)).
  { rewrite dict_get_set_other by discriminate. unfold occupy.
    rewrite dict_get_set_other by discriminate. apply dict_get_set_same. }
  assert (H5 : dict_get "assigned_at"
                 (dict_set "patient_id" VNone
                    (dict_set "status" (VStr "available")
                       (occupy patient_id now bed))) = Some (VStr now)).
  { rewrite !dict_get_set_other by discriminate. apply dict_get_set_same. }
  symmetry. apply dict_ext; [exact Hnd | |].
  - unfold vacate.
    rewrite (Hmem _ _ _ _ H5), (Hmem _ _ _ _ H4), (Hmem _ _ _ _ H3).
    now rewrite Hkeys.
  - intros k. unfold vacate, occupy.
    destruct (String.eqb k "assigned_at") eqn:E1;
      [apply String.eqb_eq in E1; subst k; now rewrite dict_get_set_same|].
    apply String.eqb_neq in E1.
    rewrite (dict_get_set_other "assigned_at" k) by congruence.
    destruct (String.eqb k "patient_id") eqn:E2;
      [apply String.eqb_eq in E2; subst k; now rewrite dict_get_set_same|].
    apply String.eqb_neq in E2.
    rewrite (dict_get_set_other "patient_id" k) by congruence.
    destruct (String.eqb k "status") eqn:E3;
      [apply String.eqb_eq in E3; subst k; now rewrite dict_get_set_same|].
    apply String.eqb_neq in E3.
    now rewrite !dict_get_set_other by congruence.
Qed.

(** X17: in every reachable state a successful [assign_bed] followed by
    [release_bed] on the same bed succeeds and gives back the document as it
    was before the assignment: the bed record is the same again, field for
    field, and nothing else was touched. *)
Theorem assign_then_release_restores :
  forall s bed_id patient_id now r s1,
    reachable s ->
    assign_bed bed_id patient_id now s = (Returned r, s1) ->
    success r = true ->
    exists bed s2,
      dict_get bed_id (beds (data s)) = Some bed /\
      release_bed bed_id s1 =
        (Returned (done_with "Bed released successfully" "bed" (ARecord bed)),
         s2) /\
      data s2 = data s /\
      writes s2 = 2 + writes s.
Proof.
  intros s bed_id patient_id now r s1 Hreach Hcall Hok.
  destruct (assign_bed_success _ _ _ _ _ _ Hcall Hok)
    as (bed & Hbed & Hp & Hst & -> & Hs1).
  destruct (reachable_kept s Hreach) as [(Hbeds & _) _].
  destruct (all_good_get _ _ _ _ Hbeds Hbed)
    as [Hnd (status & pid & at_ & Hs & Hpid & Hat & Hiff1 & Hiff2 & Hiff3)].
  rewrite Hst in Hs. injection Hs as <-.
  assert (Hpid' : pid = VNone).
  { destruct pid; try reflexivity;
      (assert (Hx : false = false) by reflexivity;
       apply Hiff1 in Hx; discriminate Hx). }
  assert (Hat' : at_ = VNone).
  { destruct at_; try reflexivity;
      (assert (Hx : false = false) by reflexivity;
       apply Hiff3 in Hx; discriminate Hx). }
  subst pid at_.
  pose proof (vacate_occupy patient_id now bed Hnd Hst Hpid Hat) as Hback.
  subst s1. exists bed. eexists. split; [exact Hbed|].
  split.
  { unfold release_bed, field. step_m.
    unfold saved, dict_mem at 1. cbn [data beds with_beds].
    rewrite dict_get_set_same. cbn [negb].
    rewrite status_occupy. cbn [eq_str String.eqb negb].
    change (dict_set "assigned_at" VNone
              (dict_set "patient_id" VNone
                 (dict_set "status" (VStr "available")
                    (occupy patient_id now bed))))
      with (vacate (occupy patient_id now bed)).
    rewrite Hback. reflexivity. }
  split.
  - cbn [data]. rewrite dict_set_set, dict_set_same by exact Hbed.
    now destruct (data s).
  - reflexivity.
Qed.


(** ** Dates as strings *)

Lemma pad4_digits (n : nat) : n < 100 * 100 -> pad 4 n = digits4 n.
Proof.
  intros Hn.
  assert (Hall : forallb (fun k => String.eqb (pad 4 k) (digits4 k))
                         (seq 0 (100 * 100)) = true) by (vm_compute; reflexivity).
  rewrite forallb_forall in Hall. apply String.eqb_eq, Hall, in_seq. lia.
Qed.

Lemma pad2_digits (n : nat) : n < 100 -> pad 2 n = digits2 n.
Proof.
  intros Hn.
  assert (Hall : forallb (fun k => String.eqb (pad 2 k) (digits2 k))
                         (seq 0 100) = true) by (vm_compute; reflexivity).
  rewrite forallb_forall in Hall. apply String.eqb_eq, Hall, in_seq. lia.
Qed.

Lemma string_compare_refl (x : string) : String.compare x x = Eq.
Proof.
  induction x as [|c x IH]; simpl; [reflexivity|].
  unfold Ascii.compare. now rewrite N.compare_refl.
Qed.

Lemma digit_compare (i j : nat) :
  i < 10 -> j < 10 -> Ascii.compare (digit i) (digit j) = Nat.compare i j.
Proof.
  intros Hi Hj.
  do 10 (destruct i as [|i];
         [do 10 (destruct j as [|j]; [reflexivity|]); lia|]).
  lia.
Qed.

Lemma digits4_compare (a b : nat) :
  a < 100 * 100 -> b < 100 * 100 ->
  forall rest rest',
    String.compare (digits4 a ++ rest) (digits4 b ++ rest') =
      match Nat.compare a b with
      | Eq => String.compare rest rest'
      | Lt => Lt
      | Gt => Gt
      end.
Proof.
  intros Ha Hb rest rest'. unfold digits4. cbn [append String.compare].
  assert (Hdiv : forall n, n < 100 * 100 ->
             n / 1000 < 10 /\ n / 100 mod 10 < 10 /\ n / 10 mod 10 < 10 /\
             n mod 10 < 10 /\
             n = 1000 * (n / 1000) + 100 * (n / 100 mod 10)
                 + 10 * (n / 10 mod 10) + n mod 10).
  { intros n Hn.
    pose proof (Nat.div_mod_eq n 10) as H1.
    pose proof (Nat.div_mod_eq (n / 10) 10) as H2.
    pose proof (Nat.div_mod_eq (n / 100) 10) as H3.
    pose proof (Nat.mod_upper_bound n 10 ltac:(lia)) as B1.
    pose proof (Nat.mod_upper_bound (n / 10) 10 ltac:(lia)) as B2.
    pose proof (Nat.mod_upper_bound (n / 100) 10 ltac:(lia)) as B3.
    assert (E1 : n / 10 / 10 = n / 100)
      by (rewrite Nat.Div0.div_div; reflexivity).
    assert (E2 : n / 100 / 10 = n / 1000)
      by (rewrite Nat.Div0.div_div; reflexivity).
    rewrite E1 in H2. rewrite E2 in H3.
    repeat split; try assumption; lia. }
  destruct (Hdiv a Ha) as (A3 & A2 & A1 & A0 & EA).
  destruct (Hdiv b Hb) as (B3 & B2 & B1 & B0 & EB).
  rewrite !digit_compare by assumption.
  generalize dependent (a / 1000). generalize dependent (a / 100 mod 10).
  generalize dependent (a / 10 mod 10). generalize dependent (a mod 10).
  generalize dependent (b / 1000). generalize dependent (b / 100 mod 10).
  generalize dependent (b / 10 mod 10). generalize dependent (b mod 10).
  intros b0 Hb0 b1 Hb1 b2 Hb2 b3 Hb3 EB a0 Ha0 a1 Ha1 a2 Ha2 a3 Ha3 EA.
  subst a b.
  repeat match goal with
         | |- context [Nat.compare ?x ?y] =>
             lazymatch x with
             | context [Nat.add] => fail
             | _ => destruct (Nat.compare_spec x y)
             end
         end;
    try subst;
    match goal with
    | |- _ = match Nat.compare ?x ?y with _ => _ end =>
        destruct (Nat.compare_spec x y); try reflexivity; lia
    end.
Qed.

Lemma digits2_compare (a b : nat) :
  a < 100 -> b < 100 ->
  forall rest rest',
    String.compare (digits2 a ++ rest) (digits2 b ++ rest') =
      match Nat.compare a b with
      | Eq => String.compare rest rest'
      | Lt => Lt
      | Gt => Gt
      end.
Proof.
  intros Ha Hb rest rest'. unfold digits2. cbn [append String.compare].
  assert (Hdiv : forall n, n < 100 ->
             n / 10 < 10 /\ n mod 10 < 10 /\ n = 10 * (n / 10) + n mod 10).
  { intros n Hn.
    pose proof (Nat.div_mod_eq n 10) as H1.
    pose proof (Nat.mod_upper_bound n 10 ltac:(lia)) as B1.
    repeat split; try assumption; lia. }
  destruct (Hdiv a Ha) as (A1 & A0 & EA).
  destruct (Hdiv b Hb) as (B1 & B0 & EB).
  rewrite !digit_compare by assumption.
  generalize dependent (a / 10). generalize dependent (a mod 10).
  generalize dependent (b / 10). generalize dependent (b mod 10).
  intros b0 Hb0 b1 Hb1 EB a0 Ha0 a1 Ha1 EA.
  subst a b.
  repeat match goal with
         | |- context [Nat.compare ?x ?y] =>
             lazymatch x with
             | context [Nat.add] => fail
             | _ => destruct (Nat.compare_spec x y)
             end
         end;
    try subst;
    match goal with
    | |- _ = match Nat.compare ?x ?y with _ => _ end =>
        destruct (Nat.compare_spec x y); try reflexivity; lia
    end.
Qed.

(** X18: for dates that exist, [isoformat] gives ten characters and turns
    the order of dates into the order of strings, so the string comparison
    in [get_expired_medicines] decides "expires on or before today" for
    every medicine whose [expiry_date] was written by [isoformat]. *)
Theorem isoformat_keeps_order :
  forall a b,
    valid_date a -> valid_date b ->
    String.length (isoformat a) = 10 /\
    String.leb (isoformat a) (isoformat b) = date_leb a b /\
    (isoformat a = isoformat b -> a = b) /\
    (forall m, dict_get "expiry_date" m = Some (VStr (isoformat a)) ->
               expired_by (isoformat b) m = Returned (date_leb a b)).
Proof.
  intros [ya ma da] [yb mb db] (Hya & Hma & Hda) (Hyb & Hmb & Hdb).
  simpl in *.
  assert (Hiso : forall y m d, y < 100 * 100 -> m <= 12 -> d <= 31 ->
             isoformat (mkDate y m d) =
             (digits4 y ++ String "-" (digits2 m ++ String "-" (digits2 d ++ "")))
               %string).
  { intros y m d Hy Hm Hd. unfold isoformat. simpl.
    rewrite pad4_digits, !pad2_digits by lia.
    unfold digits4, digits2. reflexivity. }
  assert (Hcmp : String.compare (isoformat (mkDate ya ma da))
                                (isoformat (mkDate yb mb db)) =
                 match Nat.compare ya yb with
                 | Eq => match Nat.compare ma mb with
                         | Eq => Nat.compare da db
                         | Lt => Lt
                         | Gt => Gt
                         end
                 | Lt => Lt
                 | Gt => Gt
                 end).
  { rewrite !Hiso by lia. rewrite digits4_compare by lia.
    destruct (Nat.compare ya yb); try reflexivity.
    cbn [String.compare]. change (Ascii.compare "-" "-") with Eq. cbv iota.
    rewrite digits2_compare by lia.
    destruct (Nat.compare ma mb); try reflexivity.
    cbn [String.compare]. change (Ascii.compare "-" "-") with Eq. cbv iota.
    rewrite digits2_compare by lia.
    destruct (Nat.compare da db); reflexivity. }
  assert (Hleb : String.leb (isoformat (mkDate ya ma da))
                            (isoformat (mkDate yb mb db))
                 = date_leb (mkDate ya ma da) (mkDate yb mb db)).
  { unfold String.leb, date_leb. rewrite Hcmp. simpl.
    destruct (Nat.compare ya yb); try reflexivity.
    destruct (Nat.compare ma mb); try reflexivity.
    destruct (Nat.compare_spec da db) as [->|Hlt|Hgt].
    - symmetry. apply Nat.leb_refl.
    - symmetry. apply Nat.leb_le. lia.
    - symmetry. apply Nat.leb_gt. lia. }
  split.
  { rewrite Hiso by lia. unfold digits4, digits2. reflexivity. }
  split; [exact Hleb|].
  split.
  { intros Heq. rewrite Heq in Hcmp.
    assert (Hrefl : String.compare (isoformat (mkDate yb mb db))
                                   (isoformat (mkDate yb mb db)) = Eq)
      by apply string_compare_refl.
    rewrite Hrefl in Hcmp.
    destruct (Nat.compare_spec ya yb); try discriminate.
    destruct (Nat.compare_spec ma mb); try discriminate.
    destruct (Nat.compare_spec da db); try discriminate.
    now subst. }
  intros m Hm. unfold expired_by, field. rewrite Hm. now rewrite Hleb.
Qed.


(** ** Nothing is removed, no record is renumbered *)

Lemma kept_in_refl c : kept_in c c.
Proof.
  split; [exists []; now rewrite app_nil_r|].
  intros k r Hget. exists r. now repeat split.
Qed.

Lemma kept_in_trans a b c : kept_in a b -> kept_in b c -> kept_in a c.
Proof.
  intros [[x Hx] Hab] [[y Hy] Hbc]. split.
  - exists (x ++ y). now rewrite Hy, Hx, app_assoc.
  - intros k r Hget. destruct (Hab k r Hget) as (r1 & H1 & S1a & S1b).
    destruct (Hbc k r1 H1) as (r2 & H2 & S2a & S2b).
    exists r2. split; [exact H2|]. split; congruence.
Qed.

Lemma kept_in_update (c : collection) k r r' :
  dict_get k c = Some r -> same_stamps r r' -> kept_in c (dict_set k r' c).
Proof.
  intros Hget Hsame. split.
  - exists []. rewrite app_nil_r. apply dict_keys_set_present.
    unfold dict_mem. now rewrite Hget.
  - intros k0 r0 Hget0. destruct (pykey_eqb k k0) eqn:E.
    + apply pykey_eqb_eq in E. subst k0. exists r'.
      split; [apply dict_get_set_same|]. congruence.
    + exists r0. split; [|now split].
      rewrite dict_get_set_other; [exact Hget0|].
      intros ->. destruct k0; simpl in E;
        [rewrite Z.eqb_refl in E | rewrite String.eqb_refl in E];
        discriminate.
Qed.

Lemma kept_in_add (c : collection) k r :
  dict_get k c = None -> kept_in c (dict_set k r c).
Proof.
  intros Hnone. split.
  - exists [k]. rewrite dict_set_fresh by now apply dict_get_none_keys.
    unfold dict_keys. now rewrite map_app.
  - intros k0 r0 Hget0. exists r0. split; [|now split].
    rewrite dict_get_set_other; [exact Hget0|]. intros ->. congruence.
Qed.

Lemma extends_refl d : extends d d.
Proof. repeat split; apply kept_in_refl. Qed.

Lemma extends_trans a b c : extends a b -> extends b c -> extends a c.
Proof.
  intros (A1 & A2 & A3 & A4 & A5) (B1 & B2 & B3 & B4 & B5).
  repeat split; eapply kept_in_trans; eassumption.
Qed.

Lemma table_fresh_get P kind c counters z :
  table_ok P kind c counters -> dict_get kind counters = Some z ->
  dict_get (KInt z) c = None.
Proof.
  intros Hc Hz. apply dict_get_none_keys. intros Hin.
  apply (table_ok_fresh_key _ _ _ _ _ Hc Hz).
  apply in_map_iff. now exists (KInt z).
Qed.

Lemma same_stamps_kwargs kwargs r : same_stamps r (apply_kwargs kwargs r).
Proof.
  destruct (apply_kwargs_partial_update kwargs r) as (_ & Hid & Hat & _).
  now split.
Qed.

Lemma same_stamps_set name v r :
  name <> "id" -> name <> "created_at" -> same_stamps r (dict_set name v r).
Proof.
  intros H1 H2. split; now rewrite dict_get_set_other.
Qed.

Lemma same_stamps_occupy patient_id now r :
  same_stamps r (occupy patient_id now r).
Proof.
  unfold occupy. split; now rewrite !dict_get_set_other by discriminate.
Qed.

Lemma same_stamps_vacate r : same_stamps r (vacate r).
Proof.
  unfold vacate. split; now rewrite !dict_get_set_other by discriminate.
Qed.

Ltac keeps_solver :=
  first [ apply kept_in_refl
        | apply kept_in_add;
          first [ eapply table_fresh_get; eassumption
                | match goal with
                  | H : dict_mem ?k ?c = false |- dict_get ?k ?c = None =>
                      unfold dict_mem in H;
                      destruct (dict_get k c); [discriminate H | reflexivity]
                  end ]
        | eapply kept_in_update;
          [ eassumption
          | first [ apply same_stamps_kwargs
                  | apply same_stamps_occupy
                  | apply same_stamps_vacate
                  | apply same_stamps_set; discriminate ] ] ].

Ltac extends_solver :=
  match goal with
  | Hs : sound_system _ |- _ =>
      let Hc := fresh "Hc" in
      let Hu := fresh "Hu" in
      let Hp := fresh "Hp" in
      let Hd := fresh "Hd" in
      let Hb := fresh "Hb" in
      let Hm := fresh "Hm" in
      destruct Hs as [(Hc & Hu & Hp & Hd & Hb & Hm) _];
      unfold extends;
      cbn [data users patients doctors beds medicines with_users
           with_patients with_doctors with_beds with_medicines with_next_ids];
      repeat split; keeps_solver
  end.

Lemma register_user_extends u p r f l e ph now s :
  sound_system s ->
  extends (data s) (data (snd (register_user u p r f l e ph now s))).
Proof.
  intros Hs. unfold register_user, get_next_id. exec; extends_solver.
Qed.

Lemma add_patient_extends f l a g ph e mh al now s :
  sound_system s ->
  extends (data s) (data (snd (add_patient f l a g ph e mh al now s))).
Proof.
  intros Hs. unfold add_patient, get_next_id. exec; extends_solver.
Qed.

Lemma add_doctor_extends f l sp ph e sh li now s :
  sound_system s ->
  extends (data s) (data (snd (add_doctor f l sp ph e sh li now s))).
Proof.
  intros Hs. unfold add_doctor, get_next_id. exec; extends_solver.
Qed.

Lemma add_bed_extends n t w now s :
  sound_system s -> extends (data s) (data (snd (add_bed n t w now s))).
Proof.
  intros Hs. unfold add_bed, get_next_id. exec; extends_solver.
Qed.

Lemma add_medicine_extends n e q up c ms now s :
  sound_system s ->
  extends (data s) (data (snd (add_medicine n e q up c ms now s))).
Proof.
  intros Hs. unfold add_medicine, get_next_id. exec; extends_solver.
Qed.

Lemma sound_after_step {A : Type} (m : M A) s0 :
  preserves sound_system m ->
  (forall s, sound_system s -> extends (data s) (data (snd (m s)))) ->
  preserves (sound_after s0) m.
Proof.
  intros Hsound Hstep s [Hs Hext]. split; [now apply Hsound|].
  eapply extends_trans; [exact Hext | now apply Hstep].
Qed.

Lemma seed_sample_data_after now s0 :
  preserves (sound_after s0) (seed_sample_data now).
Proof.
  unfold seed_sample_data.
  repeat (apply preserves_bind;
          [first [ apply sound_after_step;
                   [apply register_user_sound
                   | intros; now apply register_user_extends]
                 | apply sound_after_step;
                   [apply add_patient_sound
                   | intros; now apply add_patient_extends]
                 | apply sound_after_step;
                   [apply add_doctor_sound
                   | intros; now apply add_doctor_extends]
                 | apply sound_after_step;
                   [apply add_bed_sound | intros; now apply add_bed_extends]
                 | apply sound_after_step;
                   [apply add_medicine_sound
                   | intros; now apply add_medicine_extends] ]
          | intros _]).
  apply preserves_ret.
Qed.

Lemma call_after op s0 : preserves (sound_after s0) (call op).
Proof.
  destruct op; simpl; apply preserves_fmap;
    try apply seed_sample_data_after;
    (apply sound_after_step;
     [ intros s Hs;
       match goal with
       | |- sound_system (snd (?m s)) =>
           first [ apply register_user_sound | apply add_patient_sound
                 | apply add_doctor_sound | apply add_bed_sound
                 | apply add_medicine_sound | idtac ]
       end
     | intros s Hs ]);
    try assumption;
    try (now apply register_user_extends);
    try (now apply add_patient_extends);
    try (now apply add_doctor_extends);
    try (now apply add_bed_extends);
    try (now apply add_medicine_extends);
    try apply extends_refl.
  all: unfold save_data, get_next_id, login_user, update_patient,
         delete_patient, update_doctor, assign_bed, release_bed,
         update_medicine_stock, get_all_patients, get_expired_medicines.
  all: exec; first [sound_solver | extends_solver].
Qed.

(** X19: within one instance nothing is ever taken away.  From any
    reachable state, whatever calls follow, every key of every collection is
    still there, in the same place, with new keys only after it, and the
    record under it still has the [id] and the [created_at] it had. *)
Theorem nothing_is_removed :
  forall s ops,
    reachable s ->
    extends (data s) (data (run ops s)) /\
    List.length (patients (data s))
      <= List.length (patients (data (run ops s))) /\
    forall k r,
      dict_get k (patients (data s)) = Some r ->
      exists r', dict_get k (patients (data (run ops s))) = Some r' /\
                 dict_get "id" r' = dict_get "id" r /\
                 dict_get "created_at" r' = dict_get "created_at" r.
Proof.
  intros s ops Hreach.
  assert (Hafter : sound_after s (run ops s)).
  { apply run_preserves; [intros op; apply call_after|].
    split; [now apply reachable_sound | apply extends_refl]. }
  destruct Hafter as [_ Hext]. split; [exact Hext|].
  destruct Hext as (_ & [[added Hkeys] Hp] & _).
  split; [|exact Hp].
  rewrite <- (length_map fst (patients (data s))).
  rewrite <- (length_map fst (patients (data (run ops s)))).
  fold (dict_keys (patients (data s))).
  fold (dict_keys (patients (data (run ops s)))).
  rewrite Hkeys, length_app. lia.
Qed.


(** ** Seeding a store that already holds data *)

Lemma runs_bind {A B : Type} P Q R (m : M A) (k : A -> M B) :
  runs P m Q -> (forall a, runs Q (k a) R) -> runs P (bind m k) R.
Proof.
  intros Hm Hk s Hs. destruct (Hm s Hs) as (a & Ha & HQ).
  unfold bind. destruct (m s) as [[a'|e] s1]; simpl in *; [|discriminate].
  injection Ha as ->. now apply Hk.
Qed.

Lemma length_set_fresh {K V : Type} `{Hashable K} (k : K) (v : V) d :
  dict_get k d = None -> List.length (dict_set k v d) = S (List.length d).
Proof.
  intros Hnone. rewrite dict_set_fresh by now apply dict_get_none_keys.
  rewrite length_app. simpl. lia.
Qed.

Lemma registered_set (c : collection) k r username :
  dict_mem (KStr username) c = true ->
  dict_mem (KStr username) (dict_set k r c) = true.
Proof.
  unfold dict_mem. intros Hmem.
  destruct (pykey_eqb k (KStr username)) eqn:E.
  - apply pykey_eqb_eq in E. subst k. now rewrite dict_get_set_same.
  - rewrite dict_get_set_other; [exact Hmem|].
    intros ->. simpl in E. rewrite String.eqb_refl in E. discriminate.
Qed.

Lemma register_user_runs s0 p d b m names u pw r f l e ph now :
  runs (seeded_from s0 p d b m names)
       (register_user u pw r f l e ph now)
       (seeded_from s0 p d b m (u :: names)).
Proof.
  intros s (Hs & Hp & Hd & Hb & Hm & Hnames & Hlen & Hsame).
  pose proof (register_user_sound u pw r f l e ph now s Hs) as Hs'.
  revert Hs'. unfold register_user, get_next_id. step_m.
  destruct (dict_mem (KStr u) (users (data s))) eqn:Hmem.
  - intros Hs'. eexists. split; [reflexivity|]. simpl.
    split; [exact Hs|]. repeat split; try assumption.
    + constructor; assumption.
    + simpl. lia.
    + intros Hall. apply Hsame. now inversion Hall.
  - destruct Hs as [(Hc & (next & Hnext & Hrest) & Htabs) Hfile].
    rewrite Hnext. intros Hs'. eexists. split; [reflexivity|].
    cbn [snd] in *.
    split; [exact Hs'|]. cbn [data users patients doctors beds medicines
      with_users with_next_ids].
    assert (Hnone : dict_get (KStr u) (users (data s)) = None).
    { unfold dict_mem in Hmem.
      destruct (dict_get (KStr u) (users (data s))); [discriminate|reflexivity]. }
    repeat split; try assumption.
    + constructor.
      * unfold registered, dict_mem. cbn [data users with_users].
        now rewrite dict_get_set_same.
      * eapply Forall_impl; [|exact Hnames]. intros x Hx.
        unfold registered in *. cbn [data users with_users].
        now apply registered_set.
    + rewrite length_set_fresh by exact Hnone. simpl. lia.
    + intros Hall. inversion Hall as [|? ? Hu Hrest']; subst.
      exfalso. rewrite (Hsame Hrest') in Hmem.
      unfold registered in Hu. congruence.
Qed.

Ltac seeded_frame Hnames Hsame :=
  repeat split;
  first [ assumption | exact Hnames | exact Hsame | simpl; lia ].

Lemma add_patient_runs s0 p d b m names f l a g ph e mh al now :
  runs (seeded_from s0 p d b m names)
       (add_patient f l a g ph e mh al now)
       (seeded_from s0 (S p) d b m names).
Proof.
  intros s (Hs & Hp & Hd & Hb & Hm & Hnames & Hlen & Hsame).
  pose proof (add_patient_sound f l a g ph e mh al now s Hs) as Hs'.
  revert Hs'. unfold add_patient, get_next_id. step_m.
  destruct Hs as [(Hc & Hu & Htab & Htabs) Hfile].
  pose proof Htab as (next & Hnext & _).
  rewrite Hnext. intros Hs'. eexists. split; [reflexivity|].
  cbn [snd] in *. split; [exact Hs'|].
  cbn [data users patients doctors beds medicines with_patients with_next_ids].
  rewrite length_set_fresh
    by (eapply table_fresh_get; eassumption).
  seeded_frame Hnames Hsame.
Qed.

Lemma add_doctor_runs s0 p d b m names f l sp ph e sh li now :
  runs (seeded_from s0 p d b m names)
       (add_doctor f l sp ph e sh li now)
       (seeded_from s0 p (S d) b m names).
Proof.
  intros s (Hs & Hp & Hd & Hb & Hm & Hnames & Hlen & Hsame).
  pose proof (add_doctor_sound f l sp ph e sh li now s Hs) as Hs'.
  revert Hs'. unfold add_doctor, get_next_id. step_m.
  destruct Hs as [(Hc & Hu & Htp & Htab & Htabs) Hfile].
  pose proof Htab as (next & Hnext & _).
  rewrite Hnext. intros Hs'. eexists. split; [reflexivity|].
  cbn [snd] in *. split; [exact Hs'|].
  cbn [data users patients doctors beds medicines with_doctors with_next_ids].
  rewrite length_set_fresh
    by (eapply table_fresh_get; eassumption).
  seeded_frame Hnames Hsame.
Qed.

Lemma add_bed_runs s0 p d b m names n t w now :
  runs (seeded_from s0 p d b m names)
       (add_bed n t w now)
       (seeded_from s0 p d (S b) m names).
Proof.
  intros s (Hs & Hp & Hd & Hb & Hm & Hnames & Hlen & Hsame).
  pose proof (add_bed_sound n t w now s Hs) as Hs'.
  revert Hs'. unfold add_bed, get_next_id. step_m.
  destruct Hs as [(Hc & Hu & Htp & Htd & Htab & Htabs) Hfile].
  pose proof Htab as (next & Hnext & _).
  rewrite Hnext. intros Hs'. eexists. split; [reflexivity|].
  cbn [snd] in *. split; [exact Hs'|].
  cbn [data users patients doctors beds medicines with_beds with_next_ids].
  rewrite length_set_fresh
    by (eapply table_fresh_get; eassumption).
  seeded_frame Hnames Hsame.
Qed.

Lemma add_medicine_runs s0 p d b m names n e q up c ms now :
  runs (seeded_from s0 p d b m names)
       (add_medicine n e q up c ms now)
       (seeded_from s0 p d b (S m) names).
Proof.
  intros s (Hs & Hp & Hd & Hb & Hm & Hnames & Hlen & Hsame).
  pose proof (add_medicine_sound n e q up c ms now s Hs) as Hs'.
  revert Hs'. unfold add_medicine, get_next_id. step_m.
  destruct Hs as [(Hc & Hu & Htp & Htd & Htb & Htab) Hfile].
  pose proof Htab as (next & Hnext & _).
  rewrite Hnext. intros Hs'. eexists. split; [reflexivity|].
  cbn [snd] in *. split; [exact Hs'|].
  cbn [data users patients doctors beds medicines with_medicines
       with_next_ids].
  rewrite length_set_fresh
    by (eapply table_fresh_get; eassumption).
  seeded_frame Hnames Hsame.
Qed.

Lemma seed_sample_data_runs s0 now :
  runs (seeded_from s0 0 0 0 0 [])
       (seed_sample_data now)
       (seeded_from s0 2 2 3 2 ["patient"; "doctor"; "admin"]).
Proof.
  unfold seed_sample_data.
  eapply runs_bind; [apply register_user_runs | intros _].
  eapply runs_bind; [apply register_user_runs | intros _].
  eapply runs_bind; [apply register_user_runs | intros _].
  eapply runs_bind; [apply add_patient_runs | intros _].
  eapply runs_bind; [apply add_patient_runs | intros _].
  eapply runs_bind; [apply add_doctor_runs | intros _].
  eapply runs_bind; [apply add_doctor_runs | intros _].
  eapply runs_bind; [apply add_bed_runs | intros _].
  eapply runs_bind; [apply add_bed_runs | intros _].
  eapply runs_bind; [apply add_bed_runs | intros _].
  eapply runs_bind; [apply add_medicine_runs | intros _].
  eapply runs_bind; [apply add_medicine_runs | intros _].
  intros s Hs. exists tt. split; [reflexivity | exact Hs].
Qed.

(** X20: [seed_sample_data] is not guarded against a second run.  On any
    reachable state it runs to the end and adds two patients, two doctors,
    three beds and two medicines, every time; only the three demo users are
    protected by their usernames: afterwards all three are registered, at
    most three users were added, and none at all when the three usernames
    were taken already. *)
Theorem seed_sample_data_adds_again :
  forall s now,
    reachable s ->
    let s' := snd (seed_sample_data now s) in
    fst (seed_sample_data now s) = Returned tt /\
    List.length (patients (data s')) = 2 + List.length (patients (data s)) /\
    List.length (doctors (data s')) = 2 + List.length (doctors (data s)) /\
    List.length (beds (data s')) = 3 + List.length (beds (data s)) /\
    List.length (medicines (data s')) = 2 + List.length (medicines (data s)) /\
    registered s' "admin" /\ registered s' "doctor" /\
    registered s' "patient" /\
    List.length (users (data s')) <= 3 + List.length (users (data s)) /\
    (registered s "admin" -> registered s "doctor" ->
     registered s "patient" -> users (data s') = users (data s)).
Proof.
  intros s now Hreach s'.
  destruct (seed_sample_data_runs s now s) as ([] & Hret & Hafter).
  { split; [now apply reachable_sound|].
    repeat split; first [reflexivity | constructor | simpl; lia]. }
  destruct Hafter as (_ & Hp & Hd & Hb & Hm & Hnames & Hlen & Hsame).
  fold s' in Hp, Hd, Hb, Hm, Hnames, Hlen, Hsame.
  inversion Hnames as [|? ? Hn1 Hrest1]; subst.
  inversion Hrest1 as [|? ? Hn2 Hrest2]; subst.
  inversion Hrest2 as [|? ? Hn3 _]; subst.
  repeat split; try assumption.
  intros Ha Hdoc Hpat. apply Hsame. repeat constructor; assumption.
Qed.

End Methods.

(** * The theorems at work on the sample data *)

Local Abbreviation sample := (seeded tagged_digest "2025-01-01T09:00:00").

Lemma register_user_duplicate_witness :
  exists admin,
    dict_get (KStr "admin") (users (data sample)) = Some admin /\
    register_user tagged_digest "admin" "letmein" "admin" "Another" "Admin"
                  "" "" "2025-02-01T10:00:00" sample
    = (Returned DuplicateUsername, sample).
Proof.
  eexists. split; [vm_compute; reflexivity|].
  refine (proj1 (register_user_duplicate tagged_digest sample "admin" "letmein"
                   "admin" "Another" "Admin" "" "" "2025-02-01T10:00:00" _ _)).
  vm_compute. reflexivity.
Defined.

Lemma login_user_cases_witness :
  exists admin,
    dict_get (KStr "admin") (users (data sample)) = Some admin /\
    login_user tagged_digest "admin" "admin123" sample
    = (Returned (done_with "Login successful" "user" (ARecord admin)), sample).
Proof.
  eexists. split; [vm_compute; reflexivity|].
  refine (proj2 (proj2 (proj1 (proj2
            (login_user_cases tagged_digest sample "admin" "admin123"))
            _ (VStr "sha256:admin123") (VBool true) _ _ _)) _ _);
    vm_compute; reflexivity.
Defined.

Lemma failure_changes_nothing_witness :
  call tagged_digest (ReleaseBed (KInt 1)) sample
  = (Returned (RReply BedNotOccupied), sample) /\
  writes (snd (call tagged_digest (ReleaseBed (KInt 1)) sample)) = writes sample.
Proof.
  split; [vm_compute; reflexivity|].
  refine (proj2 (proj2 (proj2
            (failure_changes_nothing tagged_digest (ReleaseBed (KInt 1)) sample
               BedNotOccupied _ _ _)))).
  - vm_compute. reflexivity.
  - reflexivity.
Defined.

Lemma second_assign_second_release_witness :
  let occupied :=
    snd (assign_bed (KInt 1) (KInt 1) "2025-01-02T08:00:00" sample) in
  let released := snd (release_bed (KInt 1) occupied) in
  assign_bed (KInt 1) (KInt 2) "2025-01-02T08:05:00" occupied
  = (Returned BedNotAvailable, occupied) /\
  release_bed (KInt 1) released = (Returned BedNotOccupied, released).
Proof.
  intros occupied released. split.
  - eapply (proj1 (second_assign_second_release sample (KInt 1) (KInt 1)
                     (KInt 2) "2025-01-02T08:00:00" "2025-01-02T08:05:00"
                     _ occupied)).
    + vm_compute. reflexivity.
    + reflexivity.
    + vm_compute. reflexivity.
  - eapply (proj2 (second_assign_second_release occupied (KInt 1) (KInt 1)
                     (KInt 1) "" "" _ released)).
    + vm_compute. reflexivity.
    + reflexivity.
Defined.

Lemma expired_medicines_exact_witness :
  exists amoxicillin,
    dict_get (KInt 2) (medicines (data sample)) = Some amoxicillin /\
    dict_get "expiry_date" amoxicillin = Some (VStr "2024-06-30") /\
    get_expired_medicines (mkDate 2025 1 1) sample
    = (Returned [amoxicillin], sample).
Proof.
  eexists. split; [vm_compute; reflexivity|]. split; [reflexivity|].
  destruct (expired_medicines_exact sample (mkDate 2025 1 1))
    as (expired & Hcall & Hexpired & _).
  - intros m Hm. vm_compute in Hm.
    destruct Hm as [<-|[<-|[]]]; eexists; reflexivity.
  - rewrite Hcall, Hexpired. reflexivity.
Defined.

Lemma delete_patient_is_soft_witness :
  let alice : record :=
    [("id", VInt 1); ("first_name", VStr "Alice");
     ("last_name", VStr "Johnson"); ("age", VInt 35);
     ("gender", VStr "Female"); ("phone", VStr "123-456-7890");
     ("email", VStr "alice@email.com"); ("medical_history", VStr "Diabetes");
     ("allergies", VStr "Penicillin"); ("is_active", VBool true);
     ("created_at", VStr "2025-01-01T09:00:00")] in
  let s' := snd (delete_patient (KInt 1) sample) in
  dict_get (KInt 1) (patients (data sample)) = Some alice /\
  fst (delete_patient (KInt 1) sample)
  = Returned (done "Patient deleted successfully") /\
  get_patient (KInt 1) s'
  = (Returned (Some (dict_set "is_active" (VBool false) alice)), s') /\
  fst (delete_patient (KInt 1) s')
  = Returned (done "Patient deleted successfully") /\
  delete_patient (KInt 7) sample = (Returned PatientNotFound, sample).
Proof.
  intros alice s'.
  assert (Halice : dict_get (KInt 1) (patients (data sample)) = Some alice)
    by (vm_compute; reflexivity).
  assert (Hnobody : dict_get (KInt 7) (patients (data sample)) = None)
    by (vm_compute; reflexivity).
  destruct (delete_patient_is_soft sample (KInt 1)) as (_ & _ & Hpresent).
  destruct (Hpresent alice Halice) as (Hfirst & Hget & _ & _ & Hagain & _).
  destruct (delete_patient_is_soft sample (KInt 7)) as (_ & Habsent & _).
  split; [exact Halice|].
  split; [exact Hfirst|].
  split; [exact Hget|].
  split; [exact Hagain|].
  exact (Habsent Hnobody).
Defined.

Lemma update_is_partial_witness :
  let alice : record :=
    [("id", VInt 1); ("first_name", VStr "Alice");
     ("last_name", VStr "Johnson"); ("age", VInt 35);
     ("gender", VStr "Female"); ("phone", VStr "123-456-7890");
     ("email", VStr "alice@email.com"); ("medical_history", VStr "Diabetes");
     ("allergies", VStr "Penicillin"); ("is_active", VBool true);
     ("created_at", VStr "2025-01-01T09:00:00")] in
  let kwargs := [("age", VInt 36); ("id", VInt 99); ("nickname", VStr "Al")] in
  dict_get (KInt 1) (patients (data sample)) = Some alice /\
  exists after,
    fst (update_patient (KInt 1) kwargs sample)
    = Returned (done_with "Patient updated successfully" "patient"
                          (ARecord after)) /\
    dict_get "age" after = Some (VInt 36) /\
    dict_get "id" after = Some (VInt 1) /\
    dict_get "nickname" after = None /\
    dict_keys after = dict_keys alice.
Proof.
  intros alice kwargs.
  assert (Halice : dict_get (KInt 1) (patients (data sample)) = Some alice)
    by (vm_compute; reflexivity).
  split; [exact Halice|].
  destruct (proj1 (update_is_partial sample (KInt 1) kwargs alice)
              eq_refl Halice)
    as (after & (Hkeys & Hid & _ & _ & Hnew & Hset) & Hreply & _).
  exists after.
  split; [exact Hreply|].
  split; [apply Hset; [reflexivity | reflexivity | discriminate | discriminate]|].
  split; [rewrite Hid; reflexivity|].
  split; [apply Hnew; reflexivity | exact Hkeys].
Defined.

Lemma allocation_never_repeats_witness :
  let ops := [AddPatient "Carol" "King" 29 "Female" "" "" "" ""
                         "2025-01-02T10:00:00";
              DeletePatient (KInt 1);
              AddPatient "Dan" "Lee" 51 "Male" "" "" "" ""
                         "2025-01-02T10:05:00"] in
  issued "patient" fresh (run tagged_digest ops fresh) = [1%Z; 2%Z] /\
  exists loaded,
    restart sample = Some loaded /\
    let s := run tagged_digest ops loaded in
    issued "patient" loaded s = [3%Z; 4%Z] /\
    NoDup (issued "patient" loaded s) /\
    fst (get_next_id "patient" s) = Returned 5%Z /\
    issued "patient" loaded (snd (get_next_id "patient" s))
    = [3%Z; 4%Z; 5%Z].
Proof.
  intros ops.
  split; [vm_compute; reflexivity|].
  exists (mkSystem (reload_document (data sample)) (data_file sample)
                   (trace sample)).
  split; [vm_compute; reflexivity|].
  set (loaded := mkSystem (reload_document (data sample)) (data_file sample)
                          (trace sample)).
  intros s.
  assert (Hids : issued "patient" loaded s = [3%Z; 4%Z])
    by (vm_compute; reflexivity).
  assert (Hcall : get_next_id "patient" s
                  = (Returned 5%Z, snd (get_next_id "patient" s)))
    by (vm_compute; reflexivity).
  destruct (allocation_never_repeats tagged_digest loaded ops "patient")
    as (_ & _ & Hnodup & _ & _ & Hnext).
  destruct (Hnext 5%Z (snd (get_next_id "patient" s)) Hcall)
    as (Happend & _).
  split; [exact Hids|].
  split; [exact Hnodup|].
  split; [now rewrite Hcall|].
  fold s in Happend. rewrite Happend, Hids. reflexivity.
Defined.

Lemma bed_invariant_holds_witness :
  let s := snd (call tagged_digest
                     (AssignBed (KInt 1) (KInt 2) "2025-01-02T08:00:00")
                     (snd (call tagged_digest
                                (SeedSampleData "2025-01-01T09:00:00") fresh))) in
  let bed : record :=
    [("id", VInt 1); ("bed_number", VStr "G001"); ("bed_type", VStr "general");
     ("status", VStr "occupied"); ("ward", VStr "Ward A");
     ("patient_id", VInt 2); ("assigned_at", VStr "2025-01-02T08:00:00");
     ("created_at", VStr "2025-01-01T09:00:00")] in
  reachable tagged_digest s /\
  dict_get (KInt 1) (beds (data s)) = Some bed /\
  bed_consistent bed.
Proof.
  intros s bed.
  assert (Hreach : reachable tagged_digest s).
  { apply reach_call. apply reach_call. apply reach_fresh. }
  assert (Hbed : dict_get (KInt 1) (beds (data s)) = Some bed)
    by (vm_compute; reflexivity).
  split; [exact Hreach|]. split; [exact Hbed|].
  exact (proj1 (proj2 (bed_invariant_holds tagged_digest s Hreach))
               (KInt 1) bed Hbed).
Defined.


(** * The further properties at work on the sample data *)

Local Abbreviation started :=
  (snd (call tagged_digest (SeedSampleData "2025-01-01T09:00:00") fresh)).

Local Abbreviation alice :=
  ([("id", VInt 1); ("first_name", VStr "Alice");
    ("last_name", VStr "Johnson"); ("age", VInt 35);
    ("gender", VStr "Female"); ("phone", VStr "123-456-7890");
    ("email", VStr "alice@email.com"); ("medical_history", VStr "Diabetes");
    ("allergies", VStr "Penicillin"); ("is_active", VBool true);
    ("created_at", VStr "2025-01-01T09:00:00")] : record).

Local Abbreviation bed_g001 :=
  ([("id", VInt 1); ("bed_number", VStr "G001"); ("bed_type", VStr "general");
    ("status", VStr "available"); ("ward", VStr "Ward A");
    ("patient_id", VNone); ("assigned_at", VNone);
    ("created_at", VStr "2025-01-01T09:00:00")] : record).

Local Abbreviation paracetamol :=
  ([("id", VInt 1); ("name", VStr "Paracetamol");
    ("expiry_date", VStr "2025-12-31"); ("quantity", VInt 100);
    ("unit_price", VFloat 4617878467915022336);
    ("category", VStr "Painkiller"); ("minimum_stock_level", VInt 20);
    ("created_at", VStr "2025-01-01T09:00:00")] : record).

Lemma started_reachable : reachable tagged_digest started.
Proof. apply reach_call. apply reach_fresh. Qed.

Lemma register_then_login_witness :
  let s' := snd (register_user tagged_digest "nurse" "secret" "nurse" "Nora"
                               "Night" "" "" "2025-01-02T07:00:00" sample) in
  exists user,
    login_user tagged_digest "nurse" "secret" s' =
      (Returned (done_with "Login successful" "user" (ARecord user)), s') /\
    login_user tagged_digest "nurse" "guess" s' =
      (Returned InvalidCredentials, s').
Proof.
  intros s'.
  destruct (register_then_login tagged_digest sample "nurse" "secret" "nurse"
              "Nora" "Night" "" "" "2025-01-02T07:00:00"
              (done_with "User registered successfully" "user_id" (AId 4)) s')
    as (user & _ & _ & _ & Hlogin & Hother).
  - vm_compute. reflexivity.
  - reflexivity.
  - exists user. split; [exact Hlogin|]. apply Hother.
    vm_compute. discriminate.
Defined.

Lemma assign_bed_cases_witness :
  assign_bed (KInt 9) (KInt 9) "2025-01-02T08:00:00" sample
  = (Returned BedNotFound, sample) /\
  assign_bed (KInt 1) (KInt 9) "2025-01-02T08:00:00" sample
  = (Returned PatientNotFound, sample).
Proof.
  destruct (assign_bed_cases sample (KInt 9) (KInt 9) "2025-01-02T08:00:00")
    as (Hnobed & _).
  destruct (assign_bed_cases sample (KInt 1) (KInt 9) "2025-01-02T08:00:00")
    as (_ & Hnopatient & _).
  split.
  - apply Hnobed. vm_compute. reflexivity.
  - apply (Hnopatient bed_g001); vm_compute; reflexivity.
Defined.

Lemma release_bed_cases_witness :
  release_bed (KInt 1) sample = (Returned BedNotOccupied, sample).
Proof.
  destruct (release_bed_cases sample (KInt 1)) as (_ & Hfree & _).
  apply (Hfree bed_g001 (VStr "available")).
  - vm_compute. reflexivity.
  - reflexivity.
  - discriminate.
Defined.

Lemma assign_bed_ignores_patient_state_witness :
  fst (assign_bed (KInt 1) (KInt 1) "2025-01-02T08:00:00"
                  (snd (delete_patient (KInt 1) sample))) =
    Returned (done_with "Bed assigned successfully" "bed"
                (ARecord (occupy (KInt 1) "2025-01-02T08:00:00" bed_g001))).
Proof.
  destruct (assign_bed_ignores_patient_state sample (KInt 1) (KInt 1)
              "2025-01-02T08:00:00" bed_g001) as (Hdeleted & _).
  - vm_compute. reflexivity.
  - reflexivity.
  - destruct (Hdeleted alice) as (_ & _ & Hassign).
    + vm_compute. reflexivity.
    + exact Hassign.
Defined.

Lemma read_only_calls_change_nothing_witness :
  snd (call tagged_digest GetAllPatients sample) = sample /\
  snd (call tagged_digest (LoginUser "admin" "wrong") sample) = sample.
Proof.
  split; apply read_only_calls_change_nothing; reflexivity.
Defined.

Lemma success_is_saved_witness :
  let s' := snd (call tagged_digest (DeletePatient (KInt 1)) sample) in
  data_file s' = Contents (json_dump (data s')) /\
  writes s' = S (writes sample).
Proof.
  intros s'.
  destruct (success_is_saved tagged_digest (DeletePatient (KInt 1)) sample
              (done "Patient deleted successfully") s')
    as (Hfile & Hwrites & _).
  - vm_compute. reflexivity.
  - reflexivity.
  - reflexivity.
  - split; [exact Hfile | exact Hwrites].
Defined.

Lemma delete_patient_twice_witness :
  let s1 := snd (delete_patient (KInt 1) sample) in
  let s2 := snd (delete_patient (KInt 1) s1) in
  data s2 = data s1 /\ writes s2 = S (writes s1).
Proof.
  intros s1 s2.
  destruct (delete_patient_twice sample (KInt 1) alice)
    as (_ & Hdata & _ & Hwrites).
  - vm_compute. reflexivity.
  - split; [exact Hdata | exact Hwrites].
Defined.

Lemma update_undoes_delete_witness :
  let s1 := snd (delete_patient (KInt 1) sample) in
  let s2 := snd (update_patient (KInt 1) [("is_active", VBool true)] s1) in
  data s2 = data sample.
Proof.
  intros s1 s2.
  destruct (update_undoes_delete sample (KInt 1) alice) as (_ & Hdata & _).
  - vm_compute. reflexivity.
  - reflexivity.
  - exact Hdata.
Defined.

Lemma update_patient_with_nothing_to_change_witness :
  let kwargs := [("id", VInt 99); ("nickname", VStr "Al")] in
  let s' := snd (update_patient (KInt 1) kwargs sample) in
  data s' = data sample /\ writes s' = S (writes sample).
Proof.
  intros kwargs s'.
  destruct (update_patient_with_nothing_to_change sample (KInt 1) kwargs alice)
    as (_ & Hdata & _ & Hwrites).
  - reflexivity.
  - vm_compute. reflexivity.
  - intros key [<-|[<-|[]]]; [left | right; right]; reflexivity.
  - split; [exact Hdata | exact Hwrites].
Defined.


Lemma sample_medicines_counted :
  forall m, In m (dict_values (medicines (data sample))) -> counted m.
Proof.
  intros m Hm. vm_compute in Hm.
  destruct Hm as [<-|[<-|[]]]; eexists; eexists; split; reflexivity.
Qed.

Lemma low_stock_medicines_exact_witness :
  exists amoxicillin,
    dict_get (KInt 2) (medicines (data sample)) = Some amoxicillin /\
    get_low_stock_medicines sample = (Returned [amoxicillin], sample).
Proof.
  eexists. split; [vm_compute; reflexivity|].
  destruct (low_stock_medicines_exact sample sample_medicines_counted)
    as (low & Hcall & Hlow & _).
  rewrite Hcall, Hlow. reflexivity.
Defined.

Lemma update_medicine_stock_effect_witness :
  let s' := snd (update_medicine_stock (KInt 1) (-5) sample) in
  get_medicine (KInt 1) s' =
    (Returned (Some (dict_set "quantity" (VInt (-5)) paracetamol)), s') /\
  exists low,
    get_low_stock_medicines s' = (Returned low, s') /\
    In (dict_set "quantity" (VInt (-5)) paracetamol) low.
Proof.
  intros s'.
  destruct (update_medicine_stock_effect sample (KInt 1) (-5)%Z paracetamol)
    as (_ & Hget & _ & _ & _ & Hlow).
  - vm_compute. reflexivity.
  - vm_compute. reflexivity.
  - split; [exact Hget|].
    destruct (Hlow 20%Z eq_refl sample_medicines_counted)
      as (low & Hcall & Hin).
    exists low. split; [exact Hcall|]. apply Hin. lia.
Defined.

Lemma restart_keeps_every_record_witness :
  exists restarted,
    restart started = Some restarted /\
    users (data restarted) = users (data started) /\
    dict_values (patients (data restarted)) =
      dict_values (patients (data started)) /\
    dict_get (KStr "1") (patients (data restarted)) = Some alice.
Proof.
  destruct (restart_keeps_every_record tagged_digest started started_reachable)
    as (restarted & Hrestart & _ & _ & Husers & Htables).
  - vm_compute. reflexivity.
  - vm_compute. reflexivity.
  - destruct (Htables (patients (data started)) (patients (data restarted)))
      as (_ & _ & Hsame); [left; reflexivity|].
    destruct Hsame as (_ & Hvalues & Hfind); [vm_compute; reflexivity|].
    exists restarted. split; [exact Hrestart|].
    split; [apply Husers; vm_compute; reflexivity|].
    split; [exact Hvalues|].
    apply (Hfind (KInt 1) alice). vm_compute. reflexivity.
Defined.

Lemma add_patient_appends_witness :
  exists s' before,
    let carol : record :=
      [("id", VInt 3); ("first_name", VStr "Carol");
       ("last_name", VStr "King"); ("age", VInt 29);
       ("gender", VStr "Female"); ("phone", VStr ""); ("email", VStr "");
       ("medical_history", VStr ""); ("allergies", VStr "");
       ("is_active", VBool true);
       ("created_at", VStr "2025-01-02T10:00:00")] in
    add_patient "Carol" "King" 29 "Female" "" "" "" "" "2025-01-02T10:00:00"
                started =
      (Returned (done_with "Patient added successfully" "patient"
                           (ARecord carol)), s') /\
    get_all_patients started = (Returned before, started) /\
    get_all_patients s' = (Returned (before ++ [carol]), s').
Proof.
  destruct (add_patient_appends tagged_digest started "Carol" "King" 29
              "Female" "" "" "" "" "2025-01-02T10:00:00" started_reachable)
    as (id & s' & before & Hcall & Hid & _ & _ & _ & _ & _ & Hbefore & Hafter);
    [vm_compute; reflexivity|].
  assert (Hthree : id = 3%Z).
  { assert (H : dict_get "patient" (next_ids (data started)) = Some 3%Z)
      by (vm_compute; reflexivity).
    rewrite H in Hid. now injection Hid. }
  subst id. exists s', before. cbv zeta.
  split; [exact Hcall|]. split; [exact Hbefore | exact Hafter].
Defined.

Lemma add_appends_witness :
  exists s',
    let bed : record :=
      [("id", VInt 4); ("bed_number", VStr "G002");
       ("bed_type", VStr "general"); ("status", VStr "available");
       ("ward", VStr "Ward A"); ("patient_id", VNone);
       ("assigned_at", VNone); ("created_at", VStr "2025-01-02T10:00:00")] in
    add_bed "G002" "general" "Ward A" "2025-01-02T10:00:00" started =
      (Returned (done_with "Bed added successfully" "bed" (ARecord bed)), s') /\
    beds (data s') = beds (data started) ++ [(KInt 4, bed)].
Proof.
  destruct (add_appends tagged_digest started started_reachable)
    as (_ & Hbed & _).
  destruct (Hbed "G002" "general" "Ward A" "2025-01-02T10:00:00")
    as (id & s' & Hcall & Hid & Happ & _); [vm_compute; reflexivity|].
  assert (Hfour : id = 4%Z).
  { assert (H : dict_get "bed" (next_ids (data started)) = Some 4%Z)
      by (vm_compute; reflexivity).
    rewrite H in Hid. now injection Hid. }
  subst id. exists s'. cbv zeta. split; [exact Hcall | exact Happ].
Defined.

Lemma identifiers_are_unique_witness :
  NoDup (map (dict_get "id") (dict_values (beds (data started)))) /\
  dict_get "username"
    [("id", VInt 1); ("username", VStr "admin");
     ("password_hash", VStr "sha256:admin123"); ("role", VStr "admin");
     ("first_name", VStr "Admin"); ("last_name", VStr "User");
     ("email", VStr "admin@hospital.com"); ("phone", VStr "");
     ("is_active", VBool true); ("created_at", VStr "2025-01-01T09:00:00")]
  = Some (VStr "admin").
Proof.
  destruct (identifiers_are_unique tagged_digest started started_reachable)
    as (Htables & Husers).
  split.
  - apply (Htables "bed" (beds (data started))).
    right. right. left. reflexivity.
  - apply Husers. vm_compute. reflexivity.
Defined.

Lemma dashboard_counts_add_up_witness :
  get_dashboard_stats (mkDate 2025 1 1) started =
    (Returned (mkStats 2 2 3 3 0 2 1 1), started) /\
  exists st, fst (get_dashboard_stats (mkDate 2025 1 1) started) = Returned st /\
             available_beds st + occupied_beds st = total_beds st.
Proof.
  split; [vm_compute; reflexivity|].
  destruct (dashboard_counts_add_up tagged_digest started (mkDate 2025 1 1)
              started_reachable)
    as (st & active & low & expired & Hcall & Hsum & _).
  exists st. split; [now rewrite Hcall | exact Hsum].
Defined.

Lemma assign_then_release_restores_witness :
  let s1 := snd (assign_bed (KInt 1) (KInt 1) "2025-01-02T08:00:00" started) in
  exists s2,
    release_bed (KInt 1) s1 =
      (Returned (done_with "Bed released successfully" "bed"
                           (ARecord bed_g001)), s2) /\
    data s2 = data started.
Proof.
  intros s1.
  destruct (assign_then_release_restores tagged_digest started (KInt 1)
              (KInt 1) "2025-01-02T08:00:00"
              (done_with "Bed assigned successfully" "bed"
                 (ARecord (occupy (KInt 1) "2025-01-02T08:00:00" bed_g001)))
              s1 started_reachable)
    as (bed & s2 & Hbed & Hcall & Hdata & _).
  - vm_compute. reflexivity.
  - reflexivity.
  - assert (Hg : dict_get (KInt 1) (beds (data started)) = Some bed_g001)
      by (vm_compute; reflexivity).
    rewrite Hg in Hbed. injection Hbed as <-.
    exists s2. split; [exact Hcall | exact Hdata].
Defined.

Lemma isoformat_keeps_order_witness :
  String.leb (isoformat (mkDate 2024 6 30)) (isoformat (mkDate 2025 1 1))
  = true /\
  String.leb (isoformat (mkDate 2025 12 31)) (isoformat (mkDate 2025 1 1))
  = false.
Proof.
  assert (H1 : valid_date (mkDate 2024 6 30))
    by (repeat split; simpl; try lia; vm_compute; discriminate).
  assert (H2 : valid_date (mkDate 2025 1 1))
    by (repeat split; simpl; try lia; vm_compute; discriminate).
  assert (H3 : valid_date (mkDate 2025 12 31))
    by (repeat split; simpl; try lia; vm_compute; discriminate).
  split.
  - rewrite (proj1 (proj2 (isoformat_keeps_order _ _ H1 H2))). reflexivity.
  - rewrite (proj1 (proj2 (isoformat_keeps_order _ _ H3 H2))). reflexivity.
Defined.

Lemma nothing_is_removed_witness :
  let ops := [DeletePatient (KInt 1);
              AddPatient "Carol" "King" 29 "Female" "" "" "" ""
                         "2025-01-02T10:00:00";
              UpdatePatient (KInt 1) [("id", VInt 7); ("age", VInt 36)]] in
  exists alice',
    dict_get (KInt 1) (patients (data (run tagged_digest ops started)))
    = Some alice' /\
    dict_get "id" alice' = Some (VInt 1) /\
    dict_get "created_at" alice' = Some (VStr "2025-01-01T09:00:00").
Proof.
  intros ops.
  destruct (nothing_is_removed tagged_digest started ops started_reachable)
    as (_ & _ & Hkept).
  destruct (Hkept (KInt 1) alice) as (alice' & Hget & Hid & Hat).
  - vm_compute. reflexivity.
  - exists alice'. split; [exact Hget|]. split; [exact Hid | exact Hat].
Defined.


Lemma seed_sample_data_adds_again_witness :
  let again := snd (seed_sample_data tagged_digest "2025-02-01T09:00:00"
                                     started) in
  List.length (patients (data again)) = 4 /\
  List.length (beds (data again)) = 6 /\
  users (data again) = users (data started).
Proof.
  intros again.
  destruct (seed_sample_data_adds_again tagged_digest started
              "2025-02-01T09:00:00" started_reachable)
    as (_ & Hp & _ & Hb & _ & _ & _ & _ & _ & Hsame).
  fold again in Hp, Hb, Hsame.
  split; [exact Hp|]. split; [exact Hb|].
  apply Hsame; vm_compute; reflexivity.
Defined.

(** * Examples *)

Example str_of_int_samples :
  str_of_int 1 = "1" /\ str_of_int 0 = "0" /\ str_of_int 42 = "42" /\
  str_of_int (-7) = "-7".
Proof. repeat split. Qed.

Example isoformat_samples :
  isoformat (mkDate 2025 1 1) = "2025-01-01" /\
  isoformat (mkDate 987 12 31) = "0987-12-31".
Proof. split; reflexivity. Qed.

(** Alice gets bed G001 and leaves it again. *)
Example assign_then_release :
  let s0 := run tagged_digest
              [AddPatient "Alice" "Johnson" 35 "Female" "" "" "" ""
                          "2025-01-01T09:00:00";
               AddBed "G001" "general" "" "2025-01-01T09:01:00"] fresh in
  let s1 := snd (assign_bed (KInt 1) (KInt 1) "2025-01-01T09:02:00" s0) in
  let s2 := snd (release_bed (KInt 1) s1) in
  (exists bed, dict_get (KInt 1) (beds (data s1)) = Some bed /\
               dict_get "status" bed = Some (VStr "occupied") /\
               dict_get "patient_id" bed = Some (VInt 1)) /\
  (exists bed, dict_get (KInt 1) (beds (data s2)) = Some bed /\
               dict_get "status" bed = Some (VStr "available") /\
               dict_get "patient_id" bed = Some VNone) /\
  beds (data s2) = beds (data s0).
Proof.
  vm_compute. split; [|split; [|reflexivity]];
    eexists; repeat split; reflexivity.
Qed.

(** A store restarted over the sample data no longer finds patient 1 or
    bed 1 under their integer identifiers; the next patient still gets 3. *)
Example restart_forgets_integer_keys :
  exists restarted,
    restart sample = Some restarted /\
    fst (get_patient (KInt 1) restarted) = Returned None /\
    fst (assign_bed (KInt 1) (KInt 1) "2025-01-03T08:00:00" restarted)
    = Returned BedNotFound /\
    fst (get_next_id "patient" restarted) = Returned 3%Z /\
    dict_keys (users (data restarted)) = dict_keys (users (data sample)).
Proof.
  eexists. split; [vm_compute; reflexivity|].
  repeat split; vm_compute; reflexivity.
Qed.

(** Comparisons as Python makes them: 5 <= 5.5, not 6 <= 5.5, nothing is
    below NaN, [True] is 1, and [None] or a string against a number
    raises. *)
Example py_le_samples :
  py_le (VInt 5) (VFloat 0x4016000000000000) = Returned true /\
  py_le (VInt 6) (VFloat 0x4016000000000000) = Returned false /\
  py_le (VFloat 0x4016000000000000) (VInt 6) = Returned true /\
  py_le (VFloat 0x8000000000000000) (VInt 0) = Returned true /\
  py_le (VInt 0) (VFloat 0x7FF8000000000000) = Returned false /\
  py_le (VInt (-3)) (VFloat 0xFFF0000000000000) = Returned false /\
  py_le (VBool true) (VInt 1) = Returned true /\
  py_le (VStr "2024-06-30") (VStr "2025-01-01") = Returned true /\
  py_le VNone (VInt 1) = Raised TypeError /\
  py_le (VStr "1") (VInt 1) = Raised TypeError.
Proof. repeat split. Qed.

(** A price that is a NaN with its sign bit set is stored as it is, goes
    into the file as [NaN], and is the quiet NaN for the instance that
    loads the file; a finite price, an infinity and a negative zero come
    back bit for bit. *)
Example restart_quiets_nan :
  let s := snd (add_medicine "Saline" "2026-01-01" 10 0xFFF8000000000001
                             "Fluid" 5 "2025-01-02T10:00:00" fresh) in
  (exists saline reloaded saline',
      dict_get (KInt 1) (medicines (data s)) = Some saline /\
      dict_get "unit_price" saline = Some (VFloat 0xFFF8000000000001) /\
      load_data (data_file s) = Some reloaded /\
      dict_get (KStr "1") (medicines reloaded) = Some saline' /\
      dict_get "unit_price" saline' = Some (VFloat 0x7FF8000000000000)) /\
  json_float 0x4016000000000000 = 0x4016000000000000%Z /\
  json_float 0xFFF0000000000000 = 0xFFF0000000000000%Z /\
  json_float 0x8000000000000000 = 0x8000000000000000%Z.
Proof.
  split; [|repeat split].
  do 3 eexists. repeat split; vm_compute; reflexivity.
Qed.
